(** * Wind-turbine log analysis: derivation and aggregation pipeline

    A shallow embedding of the two scripts of the repository,
    [wind_analysis.py] (module [WA]) and [power_power_factor.py]
    (module [PPF]), and the properties their specification states.

    Numbers.  The scripts compute on binary64 columns.  Here a number is an
    extended rational ([num]): arithmetic on finite values is exact, and
    the special values [+inf], [-inf] and [nan] follow the IEEE rules that
    pandas and numpy expose (division by zero, comparisons with [nan],
    [nan]-skipping means).  Rounding error, overflow and the sign of zero
    are outside the model.

    Tables.  A dataframe is the list of its rows; a column assignment maps
    over the rows, a boolean-mask selection filters them into a new frame.
    Frames live in a store and are passed by reference, as Python does. *)

From Stdlib Require Import ZArith QArith Qround Qminmax Qabs.
From Stdlib Require Import Bool String Ascii Lia Lqa.
From Stdlib Require Import List Sorted.
Import ListNotations.

Set Implicit Arguments.

(* ================================================================== *)
(** ** Numbers: exact rationals extended with [inf] and [nan] *)

Module Num.

Inductive num : Type :=
| Fin (q : Q)
| PInf
| NInf
| NaN.

Definition of_Z (z : Z) : num := Fin (inject_Z z).

Definition isnan (x : num) : bool :=
  match x with NaN => true | _ => false end.

Definition isfinite (x : num) : bool :=
  match x with Fin _ => true | _ => false end.

(** Strict comparison of rationals as a boolean. *)
Definition Qlt_bool (a b : Q) : bool := negb (Qle_bool b a).

(** [-1], [0] or [1]. *)
Definition Qsign (a : Q) : Z := Z.sgn (Qnum a).

Definition inf_of_sign (s : Z) : num :=
  match s with
  | Z0 => NaN
  | Zpos _ => PInf
  | Zneg _ => NInf
  end.

Definition add (x y : num) : num :=
  match x, y with
  | NaN, _ | _, NaN => NaN
  | Fin a, Fin b => Fin (a + b)
  | PInf, NInf | NInf, PInf => NaN
  | PInf, _ | _, PInf => PInf
  | NInf, _ | _, NInf => NInf
  end.

Definition mul (x y : num) : num :=
  match x, y with
  | NaN, _ | _, NaN => NaN
  | Fin a, Fin b => Fin (a * b)
  | PInf, Fin a | Fin a, PInf => inf_of_sign (Qsign a)
  | NInf, Fin a | Fin a, NInf => inf_of_sign (- Qsign a)
  | PInf, PInf | NInf, NInf => PInf
  | PInf, NInf | NInf, PInf => NInf
  end.

(** Division: a finite value over zero is [inf] with the sign of the
    numerator, zero over zero is [nan], nothing raises. *)
Definition div (x y : num) : num :=
  match x, y with
  | NaN, _ | _, NaN => NaN
  | Fin a, Fin b =>
      if Qeq_bool b 0 then inf_of_sign (Qsign a) else Fin (a / b)
  | Fin _, PInf | Fin _, NInf => Fin 0
  | PInf, Fin b => if Qlt_bool b 0 then NInf else PInf
  | NInf, Fin b => if Qlt_bool b 0 then PInf else NInf
  | _, _ => NaN
  end.

(** [x ** n] for a natural exponent. *)
Fixpoint pow (x : num) (n : nat) : num :=
  match n with
  | O => Fin 1
  | S O => x
  | S m => mul x (pow x m)
  end.

(** Comparisons; every comparison with [nan] is false. *)
Definition ltb (x y : num) : bool :=
  match x, y with
  | NaN, _ | _, NaN => false
  | Fin a, Fin b => Qlt_bool a b
  | NInf, NInf => false
  | NInf, _ => true
  | _, NInf => false
  | PInf, _ => false
  | Fin _, PInf => true
  end.

Definition eqb (x y : num) : bool :=
  match x, y with
  | Fin a, Fin b => Qeq_bool a b
  | PInf, PInf | NInf, NInf => true
  | _, _ => false
  end.

Definition leb (x y : num) : bool := ltb x y || eqb x y.
Definition gtb (x y : num) : bool := ltb y x.
Definition geb (x y : num) : bool := leb y x.

(** [np.maximum] and [np.minimum]: [nan] propagates. *)
Definition maximum (x y : num) : num :=
  match x, y with
  | NaN, _ | _, NaN => NaN
  | _, _ => if ltb x y then y else x
  end.

Definition minimum (x y : num) : num :=
  match x, y with
  | NaN, _ | _, NaN => NaN
  | _, _ => if ltb y x then y else x
  end.

(** [np.clip(x, lo, hi)] is [minimum(maximum(x, lo), hi)]. *)
Definition clip (x lo hi : num) : num := minimum (maximum x lo) hi.

(** [np.where(c, a, b)], one element. *)
Definition np_where (c : bool) (a b : num) : num := if c then a else b.

(** Round half to even ([np.rint], the rounding of [round] and
    [Series.round]). *)
Definition Qrint (a : Q) : Z :=
  let f := Qfloor a in
  let r := a - inject_Z f in
  if Qlt_bool r (1 # 2) then f
  else if Qlt_bool (1 # 2) r then (f + 1)%Z
  else if Z.even f then f else (f + 1)%Z.

Definition rint (x : num) : num :=
  match x with Fin a => of_Z (Qrint a) | _ => x end.

Definition floor (x : num) : num :=
  match x with Fin a => of_Z (Qfloor a) | _ => x end.

(** [Series.round(decimals)]: scale by [10^decimals], [rint], scale back. *)
Definition round_decimals (decimals : nat) (x : num) : num :=
  let scale := of_Z (10 ^ Z.of_nat decimals) in
  div (rint (mul x scale)) scale.

(** Equality of numbers up to the representation of the rational. *)
Definition equiv (x y : num) : Prop :=
  match x, y with
  | Fin a, Fin b => a == b
  | PInf, PInf | NInf, NInf | NaN, NaN => True
  | _, _ => False
  end.

End Num.

Import Num.

Declare Scope num_scope.
Delimit Scope num_scope with num.
Bind Scope num_scope with num.
Infix "+" := Num.add : num_scope.
Infix "*" := Num.mul : num_scope.
Infix "/" := Num.div : num_scope.
Infix "<?" := Num.ltb : num_scope.
Infix ">?" := Num.gtb : num_scope.
Infix ">=?" := Num.geb : num_scope.
Infix "**" := Num.pow (at level 30, right associativity) : num_scope.

(** Decimal and integer literals of the scripts. *)
Definition c_0 : num := Fin 0.
Definition c_0_1 : num := Fin (1 # 10).
Definition c_0_5 : num := Fin (1 # 2).
Definition c_0_593 : num := Fin (593 # 1000).
Definition c_1 : num := Fin 1.
Definition c_3 : num := Fin 3.
Definition c_10 : num := Fin 10.
Definition c_100 : num := Fin 100.
Definition c_1000 : num := Fin 1000.

(** [np.sqrt(3)]: the binary64 number nearest to the square root of three,
    [7800463371553962 * 2^-52]. *)
Definition sqrt3 : Q := 7800463371553962 # 4503599627370496.
Definition np_sqrt3 : num := Fin sqrt3.

(* ================================================================== *)
(** ** [calculate_power_coefficient] (wind_analysis.py) *)

Definition calculate_power_coefficient
    (power_ac wind_speed air_density rotor_diameter rotor_height : num) : num :=
  let area := (rotor_height * rotor_diameter)%num in
  let wind_speed := np_where (wind_speed <? c_0_1)%num c_0_1 wind_speed in
  let denominator := (c_0_5 * air_density * area * wind_speed ** 3)%num in
  let cp := np_where (denominator >? c_0)%num
                  (power_ac * c_1000 / denominator)%num c_0 in
  let cp := clip cp c_0 c_0_593 in
  cp.

(** The specification's formula for the power coefficient, on rationals. *)
Definition cp_spec (power_ac wind_speed air_density rotor_diameter rotor_height : Q) : Q :=
  let v := Qmax wind_speed (1 # 10) in
  let area := rotor_height * rotor_diameter in
  let denom := (1 # 2) * air_density * area * (v * (v * v)) in
  let cp := if Qlt_le_dec 0 denom then power_ac * 1000 / denom else 0 in
  Qmin (Qmax cp 0) (593 # 1000).

(* ================================================================== *)
(** ** The pandas operations the scripts call *)

Module Pandas.

(** [Series.dropna]. *)
Definition dropna (l : list num) : list num :=
  filter (fun x => negb (isnan x)) l.

Definition sum (l : list num) : num := fold_left Num.add l (Fin 0).

(** [Series.mean] and the ['mean'] aggregation: [nan] entries are
    skipped, and the mean of no value is [nan]. *)
Definition mean (l : list num) : num :=
  let v := dropna l in
  match v with
  | [] => NaN
  | _ :: _ => Num.div (sum v) (of_Z (Z.of_nat (length v)))
  end.

(** A [nan] key drops its row from a [groupby]. *)
Definition num_key (x : num) : option num :=
  if isnan x then None else Some x.

Section GroupBy.
Variables K A : Type.
Variable klt : K -> K -> bool.

Definition keq (a b : K) : bool := negb (klt a b) && negb (klt b a).

Fixpoint insert_key (k : K) (ks : list K) : list K :=
  match ks with
  | [] => [k]
  | h :: t =>
      if klt k h then k :: ks
      else if klt h k then h :: insert_key k t
      else ks
  end.

(** The distinct keys in ascending order. *)
Definition unique_sorted (ks : list K) : list K :=
  fold_right insert_key [] ks.

Definition has_key (key : A -> option K) (k : K) (r : A) : bool :=
  match key r with
  | Some k' => keq k' k
  | None => false
  end.

Definition keys_of (key : A -> option K) (rows : list A) : list K :=
  flat_map (fun r => match key r with Some k => [k] | None => [] end) rows.

(** [df.groupby(key)] with the defaults [sort=True, dropna=True]: one
    group per distinct key, keys ascending, each group holding its rows
    in table order. *)
Definition groupby (key : A -> option K) (rows : list A) : list (K * list A) :=
  map (fun k => (k, filter (has_key key k) rows))
      (unique_sorted (keys_of key rows)).
End GroupBy.

(** [drop_duplicates]: the first occurrence of every row is kept. *)
Section DropDuplicates.
Variable A : Type.
Variable eqbA : A -> A -> bool.

Fixpoint drop_duplicates_aux (seen : list A) (l : list A) : list A :=
  match l with
  | [] => []
  | x :: t =>
      if existsb (eqbA x) seen then drop_duplicates_aux seen t
      else x :: drop_duplicates_aux (x :: seen) t
  end.

Definition drop_duplicates (l : list A) : list A := drop_duplicates_aux [] l.
End DropDuplicates.

End Pandas.

(* ================================================================== *)
(** ** Times of day, datetimes and instants *)

Open Scope Z_scope.

Module Clock.

(** [datetime.time]. *)
Record time : Type := mk_time {
  hour : Z;
  minute : Z;
  second : Z;
  microsecond : Z
}.

(** [datetime.datetime]; the date is its day number since 1970-01-01. *)
Record datetime : Type := mk_datetime {
  date : Z;
  time_of : time
}.

Definition ns_per_second : Z := 1000000000.
Definition ns_per_minute : Z := 60 * ns_per_second.
Definition ns_per_day : Z := 86400 * ns_per_second.

Definition time_ns (t : time) : Z :=
  ((hour t * 60 + minute t) * 60 + second t) * ns_per_second
  + microsecond t * 1000.

(** [datetime.combine(d, t)] as a [datetime64[ns]] value: nanoseconds
    since the epoch. *)
Definition datetime_combine (day : Z) (t : time) : Z := day * ns_per_day + time_ns t.

(** [Series.dt.round(freq)] for a frequency of [unit] nanoseconds, [unit]
    even: pandas rounds to the nearest multiple and breaks a tie towards
    the even multiple. *)
Definition dt_round (unit value : Z) : Z :=
  let quotient := value / unit in
  let remainder := value mod unit in
  let mask := (unit / 2 <? remainder) ||
              ((remainder =? unit / 2) && Z.odd quotient) in
  (if mask then quotient + 1 else quotient) * unit.

(** The minute of the day of an instant. *)
Definition minute_of_day (ns : Z) : Z := (ns mod ns_per_day) / ns_per_minute.

(** A strict reader of ["HH:MM:SS"] with two digits per field. *)
Definition digit (c : ascii) : option Z :=
  let n := Z.of_nat (nat_of_ascii c) in
  if (48 <=? n) && (n <=? 57) then Some (n - 48) else None.

Definition two_digits (a b : ascii) : option Z :=
  match digit a, digit b with
  | Some x, Some y => Some (10 * x + y)
  | _, _ => None
  end.

Definition parse_HMS (s : string) : option time :=
  match s with
  | String h1 (String h2 (String c1 (String m1 (String m2
      (String c2 (String s1 (String s2 EmptyString))))))) =>
      if (Ascii.eqb c1 ":" && Ascii.eqb c2 ":")%char then
        match two_digits h1 h2, two_digits m1 m2, two_digits s1 s2 with
        | Some h, Some m, Some s =>
            if (h <? 24) && (m <? 60) && (s <? 60)
            then Some (mk_time h m s 0) else None
        | _, _, _ => None
        end
      else None
  | _ => None
  end.

End Clock.

Import Clock.

(* ================================================================== *)
(** ** Rows of the input sheet *)

(** What a cell of the [TM] column may hold after [pd.read_excel]. *)
Inductive tm_cell : Type :=
| TM_str (s : string)
| TM_time (t : time)
| TM_datetime (d : datetime)
| TM_other.

Definition is_str (c : tm_cell) : bool :=
  match c with TM_str _ => true | _ => false end.

(** One row of the sheet; [CODE_1] is the column ['CODE 1']. *)
Record Sample : Type := mk_Sample {
  Vdc : num;
  Idc : num;
  Euv : num;
  Evw : num;
  Ewu : num;
  Iu : num;
  Iv : num;
  Iw : num;
  WSD : num;
  TM : tm_cell;
  CODE_1 : Z
}.

Definition set_TM (s : Sample) (c : tm_cell) : Sample :=
  mk_Sample (Vdc s) (Idc s) (Euv s) (Evw s) (Ewu s) (Iu s) (Iv s) (Iw s)
            (WSD s) c (CODE_1 s).

(* ================================================================== *)
(** ** Exceptions, the store of frames and the monad of the scripts *)

Inductive exn : Type :=
| IndexError
| KeyError
| TypeError
| AttributeError
| ValueError
| Exception_ (cause : exn).

Inductive result (A : Type) : Type :=
| Ok (a : A)
| Raise (e : exn).
Arguments Ok {A} a.
Arguments Raise {A} e.

Definition rbind {A B} (r : result A) (k : A -> result B) : result B :=
  match r with
  | Ok a => k a
  | Raise e => Raise e
  end.

Fixpoint rmap {A B} (f : A -> result B) (l : list A) : result (list B) :=
  match l with
  | [] => Ok []
  | x :: t => rbind (f x) (fun y => rbind (rmap f t) (fun ys => Ok (y :: ys)))
  end.

Definition of_option {A} (e : exn) (o : option A) : result A :=
  match o with
  | Some a => Ok a
  | None => Raise e
  end.

(** [l[i]] with Python's negative indices. *)
Definition py_index {A} (l : list A) (i : Z) : result A :=
  let n := Z.of_nat (length l) in
  if (0 <=? i) && (i <? n) then of_option IndexError (nth_error l (Z.to_nat i))
  else if (- n <=? i) && (i <? 0) then
    of_option IndexError (nth_error l (Z.to_nat (n + i)))
  else Raise IndexError.

(** [df[name]] for a column that may be missing, and [df[name] = values],
    on a frame given as the list of its rows. *)
Definition column {R A} (f : R -> option A) (d : list R) : result (list A) :=
  rmap (fun r => of_option KeyError (f r)) d.

Definition assign {R A} (set : R -> A -> R) (d : list R) (values : list A) : list R :=
  map (fun rv => set (fst rv) (snd rv)) (List.combine d values).

Module Store.
Section WithFrame.
Variable Frame : Type.

(** A reference to a dataframe object, and the objects alive. *)
Definition ref : Type := nat.
Definition store : Type := list Frame.

Definition M (A : Type) : Type := store -> result A * store.

Definition ret {A} (a : A) : M A := fun s => (Ok a, s).

Definition bind {A B} (m : M A) (k : A -> M B) : M B :=
  fun s =>
    match m s with
    | (Ok a, s') => k a s'
    | (Raise e, s') => (Raise e, s')
    end.

Definition lift {A} (r : result A) : M A := fun s => (r, s).

(** Read the object behind a reference. *)
Definition load (r : ref) : M Frame :=
  fun s => (of_option KeyError (nth_error s r), s).

Fixpoint update (s : store) (r : ref) (f : Frame) : store :=
  match s, r with
  | [], _ => []
  | _ :: t, O => f :: t
  | h :: t, S r' => h :: update t r' f
  end.

(** Overwrite the object behind a reference, in place. *)
Definition save (r : ref) (f : Frame) : M unit :=
  fun s => (Ok tt, update s r f).

(** Create a new object. *)
Definition alloc (f : Frame) : M ref :=
  fun s => (Ok (length s), s ++ [f]).

(** [try: m except Exception as e: raise Exception(...)]. *)
Definition reraise {A} (m : M A) : M A :=
  fun s =>
    match m s with
    | (Ok a, s') => (Ok a, s')
    | (Raise e, s') => (Raise (Exception_ e), s')
    end.
End WithFrame.
End Store.

Declare Scope py_scope.
Delimit Scope py_scope with py.
Notation "x <- m ;; k" := (Store.bind m (fun x => k))
  (at level 61, m at next level, right associativity) : py_scope.
Notation "m ;;; k" := (Store.bind m (fun _ => k))
  (at level 61, right associativity) : py_scope.

Open Scope py_scope.

(** [isinstance(x, time)] and [isinstance(x, datetime)]. *)
Definition is_time (c : tm_cell) : bool :=
  match c with TM_time _ => true | _ => false end.

Definition is_datetime (c : tm_cell) : bool :=
  match c with TM_datetime _ => true | _ => false end.

(** [rmap] with the position of the element. *)
Fixpoint rmapi_from {A B} (i : nat) (f : nat -> A -> result B) (l : list A)
  : result (list B) :=
  match l with
  | [] => Ok []
  | x :: t =>
      rbind (f i x) (fun y =>
      rbind (rmapi_from (S i) f t) (fun ys => Ok (y :: ys)))
  end.

Definition rmapi {A B} (f : nat -> A -> result B) (l : list A) : result (list B) :=
  rmapi_from 0 f l.

(** [sorted(keys)] on integers. *)
Fixpoint insert_sorted (k : Z) (l : list Z) : list Z :=
  match l with
  | [] => [k]
  | h :: t => if k <=? h then k :: l else h :: insert_sorted k t
  end.

Definition sorted (l : list Z) : list Z := fold_right insert_sorted [] l.

(** A [dict] in insertion order, used as [defaultdict(list)]:
    [d[k].append(v)]. *)
Fixpoint dd_append {V} (k : Z) (v : V) (d : list (Z * list V)) : list (Z * list V) :=
  match d with
  | [] => [(k, [v])]
  | (k', vs) :: t =>
      if k =? k' then (k', vs ++ [v]) :: t else (k', vs) :: dd_append k v t
  end.

Fixpoint dict_get {V} (k : Z) (d : list (Z * V)) : option V :=
  match d with
  | [] => None
  | (k', v) :: t => if k =? k' then Some v else dict_get k t
  end.

(** The catalogue of status codes, the same literal in both scripts. *)
Definition error_codes : list (Z * string) :=
  [ (1, "Generator overcurrent");
    (2, "Three-phase voltage imbalance");
    (3, "DC voltage output to the inverter is too high");
    (4, "DC current output to the inverter is too high");
    (5, "Overcurrent during motor operation");
    (6, "Motor circuit anomaly");
    (7, "Disk brake anomaly");
    (8, "Generator stator overheating");
    (9, "Dynamic unbalance in the wind turbine");
    (10, "Wind controller overheating");
    (11, "Warning from the internal ECU module of the wind controller");
    (12, "Brake command from the internal ECU module of the wind controller");
    (13, "Generator speed too high");
    (25, "Timer switch off");
    (26, "Oil system anomaly");
    (27, "Internal communication anomaly");
    (28, "Pneumatic brake failure");
    (29, "High wind speed");
    (30, "Generator over-speed (possible inverter issue)");
    (33, "Exceeded pushing limit within time");
    (34, "Disk brake needs replacement");
    (39, "Memory reset or battery failure");
    (40, "Add gearbox lubrication oil");
    (41, "No gearbox oil left");
    (44, "Generator mechanical fault");
    (45, "Brake caliper line pressure increase");
    (47, "Oil pressure motor overload protection");
    (0, "System in standby");
    (14, "Wind speed reaching turbine start-up speed");
    (15, "Waiting for turbine speed to reach boost circuit start-up speed");
    (16, "System generating power normally");
    (17, "No-load short brake");
    (18, "No-load long brake");
    (19, "No-load brake");
    (20, "No-load brake with generator output three-phase short circuit");
    (21, "Loaded short brake");
    (22, "Loaded long brake");
    (23, "Loaded brake");
    (24, "Loaded brake with generator output three-phase short circuit");
    (31, "Waiting for manual reset");
    (32, "Automatic reset");
    (42, "Manual stop, local forced stop");
    (43, "Remote stop");
    (46, "Cooling fan activated") ]%string.

(* ================================================================== *)
(** ** wind_analysis.py *)

Module WA.

(** A row of the frame that [read_and_process_data] returns.  The last two
    columns exist only once a function has assigned them. *)
Record Row : Type := mk_Row {
  sample : Sample;
  Power_DC : num;
  Power_AC : num;
  Efficiency : num;
  Cp : num;
  WSD_rounded : option num;
  col_minute : option Z
}.

Definition Frame : Type := list Row.

Definition set_sample (r : Row) (s : Sample) : Row :=
  mk_Row s (Power_DC r) (Power_AC r) (Efficiency r) (Cp r)
         (WSD_rounded r) (col_minute r).

Definition set_WSD_rounded (r : Row) (x : num) : Row :=
  mk_Row (sample r) (Power_DC r) (Power_AC r) (Efficiency r) (Cp r)
         (Some x) (col_minute r).

Definition set_minute (r : Row) (m : Z) : Row :=
  mk_Row (sample r) (Power_DC r) (Power_AC r) (Efficiency r) (Cp r)
         (WSD_rounded r) (Some m).

Definition M : Type -> Type := Store.M Frame.
Definition ref : Type := Store.ref.

(** The derived columns of one row (lines 32-44). *)
Definition derive (air_density rotor_diameter rotor_height : num) (s : Sample) : Row :=
  let power_dc := (Vdc s * Idc s / c_1000)%num in
  let power_ac :=
    (((Euv s * Iu s + Evw s * Iv s + Ewu s * Iw s) / c_3) * np_sqrt3 / c_1000)%num in
  let efficiency := ((power_dc / power_ac) * c_100)%num in
  let cp := calculate_power_coefficient power_ac (WSD s)
              air_density rotor_diameter rotor_height in
  mk_Row s power_dc power_ac efficiency cp None None.

Section ReadAndProcess.
(** [pd.to_datetime(df['TM'], format='%H:%M:%S').dt.time] on one cell;
    [None] when pandas raises on it. *)
Variable to_datetime_HMS : tm_cell -> option tm_cell.

(** The sheet is what [pd.read_excel(file_path)] returns. *)
Definition read_and_process_data (sheet : list Sample)
    (air_density rotor_diameter rotor_height : num) : result Frame :=
  let df := map (derive air_density rotor_diameter rotor_height) sheet in
  rbind (py_index (map (fun r => TM (sample r)) df) 0) (fun first =>
  if is_str first then
    rbind (rmap (fun r => of_option ValueError (to_datetime_HMS (TM (sample r)))) df)
      (fun tm => Ok (assign (fun r c => set_sample r (set_TM (sample r) c)) df tm))
  else Ok df).
End ReadAndProcess.

(** One line of the table that [process_wind_speed_data] returns. *)
Record WindGroup : Type := mk_WindGroup {
  wg_WSD_rounded : num;
  wg_Power_DC : num;
  wg_Power_AC : num;
  wg_Cp : num
}.

Definition wind_agg (g : num * list (num * Row)) : WindGroup :=
  let rows := map snd (snd g) in
  mk_WindGroup (fst g)
               (Pandas.mean (map Power_DC rows))
               (Pandas.mean (map Power_AC rows))
               (Pandas.mean (map Cp rows)).

(** [process_wind_speed_data] (lines 53-61).  [round(series)] is
    [series.round(0)]; the column is assigned on the frame received. *)
Definition process_wind_speed_data (df : ref) : M (list WindGroup) :=
  d <- Store.load df ;;
  Store.save df
    (assign set_WSD_rounded d
       (map (fun r => (round_decimals 0 (WSD (sample r) * c_10) / c_10)%num) d)) ;;;
  d <- Store.load df ;;
  keys <- Store.lift (column WSD_rounded d) ;;
  Store.ret (map wind_agg
               (Pandas.groupby Num.ltb (fun kr => Pandas.num_key (fst kr))
                  (combine keys d))).

(** One line of the table that [process_time_data] returns. *)
Record TimeGroup : Type := mk_TimeGroup {
  tg_minute : Z;
  tg_Power_DC : num;
  tg_Power_AC : num;
  tg_WSD : num;
  tg_Cp : num
}.

Definition time_agg (g : Z * list (Z * Row)) : TimeGroup :=
  let rows := map snd (snd g) in
  mk_TimeGroup (fst g)
               (Pandas.mean (map Power_DC rows))
               (Pandas.mean (map Power_AC rows))
               (Pandas.mean (map (fun r => WSD (sample r)) rows))
               (Pandas.mean (map Cp rows)).

Section TimeData.
(** [today i] is the date of the [i]-th evaluation of
    [datetime.today()] during the call. *)
Variable today : nat -> Z.
(** [pd.to_datetime] on one cell, [None] when pandas raises on it. *)
Variable pd_to_datetime : tm_cell -> option Z.

Definition combine_time (i : nat) (x : tm_cell) : result Z :=
  match x with
  | TM_time t => Ok (datetime_combine (today i) t)
  | _ => Raise TypeError
  end.

Definition combine_datetime (i : nat) (x : tm_cell) : result Z :=
  match x with
  | TM_datetime d => Ok (datetime_combine (today i) (time_of d))
  | _ => Raise AttributeError
  end.

(** [process_time_data] (lines 62-96), on a copy of the frame received. *)
Definition process_time_data (df : ref) : M (list TimeGroup) :=
  Store.reraise (
    d <- Store.load df ;;
    df_copy <- Store.alloc d ;;
    d <- Store.load df_copy ;;
    first <- Store.lift (py_index (map (fun r => TM (sample r)) d) 0) ;;
    minutes <- Store.lift
      (if is_time first then
         rmapi combine_time (map (fun r => TM (sample r)) d)
       else if is_datetime first then
         rmapi combine_datetime (map (fun r => TM (sample r)) d)
       else
         rmap (fun r => of_option ValueError (pd_to_datetime (TM (sample r)))) d) ;;
    Store.save df_copy (assign set_minute d minutes) ;;;
    d <- Store.load df_copy ;;
    minutes <- Store.lift (column col_minute d) ;;
    Store.save df_copy
      (assign set_minute d (map (dt_round ns_per_minute) minutes)) ;;;
    d <- Store.load df_copy ;;
    keys <- Store.lift (column col_minute d) ;;
    Store.ret (map time_agg
                 (Pandas.groupby Z.ltb (fun kr => Some (fst kr))
                    (combine keys d)))).
End TimeData.

(** The state of the loop of [find_error_time_ranges]. *)
Record scan : Type := mk_scan {
  error_ranges : list (Z * list (option tm_cell * tm_cell));
  current_code : option Z;
  start_time : option tm_cell
}.

Definition differs (code : Z) (current : option Z) : bool :=
  match current with
  | None => true
  | Some c => negb (code =? c)
  end.

Definition active (current : option Z) : option Z :=
  match current with
  | Some c => if negb (c =? 16) then Some c else None
  | None => None
  end.

(** The body of the [for] loop at index [i]. *)
Definition scan_step (times : list tm_cell) (codes : list Z)
    (st : scan) (i : nat) : result scan :=
  rbind (py_index codes (Z.of_nat i)) (fun code =>
  if differs code (current_code st) then
    rbind
      (match active (current_code st) with
       | Some c =>
           rbind (py_index times (Z.of_nat i - 1)) (fun t =>
           Ok (dd_append c (start_time st, t) (error_ranges st)))
       | None => Ok (error_ranges st)
       end) (fun ranges =>
    rbind
      (if negb (code =? 16)
       then rbind (py_index times (Z.of_nat i)) (fun t => Ok (Some t))
       else Ok (start_time st)) (fun start =>
    Ok (mk_scan ranges (Some code) start)))
  else Ok st).

Fixpoint scan_loop (times : list tm_cell) (codes : list Z)
    (st : scan) (range : list nat) : result scan :=
  match range with
  | [] => Ok st
  | i :: rest =>
      rbind (scan_step times codes st i) (fun st' =>
      scan_loop times codes st' rest)
  end.

(** [find_error_time_ranges] (lines 212-235); it only reads the frame. *)
Definition find_error_time_ranges (df : Frame) (error_codes : list (Z * string))
  : result (list (Z * list (option tm_cell * tm_cell))) :=
  let times := map (fun r => TM (sample r)) df in
  let codes := map (fun r => CODE_1 (sample r)) df in
  rbind (scan_loop times codes (mk_scan [] None None) (seq 0 (length df)))
    (fun st =>
  match active (current_code st) with
  | Some c =>
      rbind (py_index times (-1)) (fun t =>
      Ok (dd_append c (start_time st, t) (error_ranges st)))
  | None => Ok (error_ranges st)
  end).

(** [x.strftime('%H:%M:%S')], kept as the time of day to the second. *)
Definition strftime_HMS (x : option tm_cell) : result time :=
  match x with
  | Some (TM_time t) => Ok (mk_time (hour t) (minute t) (second t) 0)
  | Some (TM_datetime d) =>
      let t := time_of d in Ok (mk_time (hour t) (minute t) (second t) 0)
  | _ => Raise AttributeError
  end.

(** One entry of the timeline: code, description, formatted ranges. *)
Definition timeline_entry : Type := (Z * string * list (time * time))%type.

(** What [error_analysis] returns: the text built from the average
    efficiency and the timeline, or the error text of the [except]. *)
Inductive analysis : Type :=
| Analysis (avg_efficiency : num) (timeline : list timeline_entry)
| Error_in_analysis (e : exn).

(** Lines 293-294. *)
Definition avg_efficiency_of (d : Frame) : num :=
  let valid_efficiency :=
    map Efficiency
        (filter (fun r => (Efficiency r <? c_100)%num && (Power_AC r >? c_0)%num) d) in
  if (0 <? Z.of_nat (length valid_efficiency))
  then Pandas.mean valid_efficiency else c_0.

Definition format_range (se : option tm_cell * tm_cell) : result (time * time) :=
  rbind (strftime_HMS (fst se)) (fun s =>
  rbind (strftime_HMS (Some (snd se))) (fun e => Ok (s, e))).

Definition timeline_of (ranges : list (Z * list (option tm_cell * tm_cell)))
  : result (list timeline_entry) :=
  rmap (fun code =>
          rbind (of_option KeyError (dict_get code ranges)) (fun rs =>
          rbind (rmap format_range rs) (fun texts =>
          Ok (code,
              match dict_get code error_codes with
              | Some name => name
              | None => "Unknown"%string
              end,
              texts))))
       (filter (fun code => negb (code =? 16)) (sorted (map fst ranges))).

(** [error_analysis] (lines 237-312).  The column ['CODE 1'] is part of
    every frame here, so the early return for a frame without it is not
    taken; whatever the [try] block raises becomes the error text. *)
Definition error_analysis (df : ref) : M analysis :=
  fun s =>
    match
      (d <- Store.load df ;;
       ranges <- Store.lift (find_error_time_ranges d error_codes) ;;
       let avg_efficiency := avg_efficiency_of d in
       timeline <- Store.lift (timeline_of ranges) ;;
       Store.ret (Analysis avg_efficiency timeline)) s
    with
    | (Ok a, s') => (Ok a, s')
    | (Raise e, s') => (Ok (Error_in_analysis e), s')
    end.

(** The body of [main] once a file is uploaded (lines 345-359), without
    the calls that draw: the three results handed to the display. *)
Section Main.
Variable to_datetime_HMS : tm_cell -> option tm_cell.
Variable today : nat -> Z.
Variable pd_to_datetime : tm_cell -> option Z.

Definition main (sheet : list Sample) (air_density rotor_diameter rotor_height : num)
  : M (list WindGroup * list TimeGroup * analysis) :=
  frame <- Store.lift (read_and_process_data to_datetime_HMS sheet
                         air_density rotor_diameter rotor_height) ;;
  df <- Store.alloc frame ;;
  wind_speed_groups <- process_wind_speed_data df ;;
  time_groups <- process_time_data today pd_to_datetime df ;;
  error_message <- error_analysis df ;;
  Store.ret (wind_speed_groups, time_groups, error_message).
End Main.

End WA.

(* ================================================================== *)
(** ** power_power_factor.py *)

Module PPF.

(** A row of the frame that [read_and_process_data] returns.  The last
    four columns exist only once a function has assigned them;
    [Error_Name] is the column ['Error Name'], whose cell is empty for a
    code outside the catalogue. *)
Record Row : Type := mk_Row {
  sample : Sample;
  Power_DC : num;
  Power_AC : num;
  Efficiency : num;
  WSD_rounded : option num;
  Error_Name : option (option string);
  WSD_interval : option num;
  PWo_PWi : option num
}.

Definition Frame : Type := list Row.

Definition set_sample (r : Row) (s : Sample) : Row :=
  mk_Row s (Power_DC r) (Power_AC r) (Efficiency r)
         (WSD_rounded r) (Error_Name r) (WSD_interval r) (PWo_PWi r).

Definition set_WSD_rounded (r : Row) (x : num) : Row :=
  mk_Row (sample r) (Power_DC r) (Power_AC r) (Efficiency r)
         (Some x) (Error_Name r) (WSD_interval r) (PWo_PWi r).

Definition set_Error_Name (r : Row) (x : option string) : Row :=
  mk_Row (sample r) (Power_DC r) (Power_AC r) (Efficiency r)
         (WSD_rounded r) (Some x) (WSD_interval r) (PWo_PWi r).

Definition set_WSD_interval (r : Row) (x : num) : Row :=
  mk_Row (sample r) (Power_DC r) (Power_AC r) (Efficiency r)
         (WSD_rounded r) (Error_Name r) (Some x) (PWo_PWi r).

Definition set_PWo_PWi (r : Row) (x : num) : Row :=
  mk_Row (sample r) (Power_DC r) (Power_AC r) (Efficiency r)
         (WSD_rounded r) (Error_Name r) (WSD_interval r) (Some x).

Definition M : Type -> Type := Store.M Frame.
Definition ref : Type := Store.ref.

(** The derived columns of one row (lines 8-10). *)
Definition derive (s : Sample) : Row :=
  let power_dc := (Vdc s * Idc s / c_1000)%num in
  let power_ac :=
    (((Euv s * Iu s + Evw s * Iv s + Ewu s * Iw s) / c_3) * np_sqrt3 / c_1000)%num in
  let efficiency := ((power_dc / power_ac) * c_100)%num in
  mk_Row s power_dc power_ac efficiency None None None None.

Section ReadAndProcess.
(** [pd.to_datetime(df['TM'], format='%H:%M:%S').dt.time] on one cell;
    [None] when pandas raises on it. *)
Variable to_datetime_HMS : tm_cell -> option tm_cell.

Definition read_and_process_data (sheet : list Sample) : result Frame :=
  let df := map derive sheet in
  rbind (py_index (map (fun r => TM (sample r)) df) 0) (fun first =>
  if is_str first then
    rbind (rmap (fun r => of_option ValueError (to_datetime_HMS (TM (sample r)))) df)
      (fun tm => Ok (assign (fun r c => set_sample r (set_TM (sample r) c)) df tm))
  else Ok df).
End ReadAndProcess.

Record WindGroup : Type := mk_WindGroup {
  wg_WSD_rounded : num;
  wg_Power_DC : num;
  wg_Power_AC : num
}.

Definition wind_agg (g : num * list (num * Row)) : WindGroup :=
  let rows := map snd (snd g) in
  mk_WindGroup (fst g)
               (Pandas.mean (map Power_DC rows))
               (Pandas.mean (map Power_AC rows)).

(** [process_wind_speed_data] (lines 17-25).  [df = df[mask]] binds the
    name to a new frame, and the column is assigned on that one. *)
Definition process_wind_speed_data (df : ref) : M (list WindGroup) :=
  d <- Store.load df ;;
  df <- Store.alloc (filter (fun r => (WSD (sample r) >=? c_3)%num) d) ;;
  d <- Store.load df ;;
  Store.save df
    (assign set_WSD_rounded d (map (fun r => round_decimals 1 (WSD (sample r))) d)) ;;;
  d <- Store.load df ;;
  keys <- Store.lift (column WSD_rounded d) ;;
  Store.ret (map wind_agg
               (Pandas.groupby Num.ltb (fun kr => Pandas.num_key (fst kr))
                  (List.combine keys d))).

Definition code_name_eqb (a b : Z * option string) : bool :=
  (fst a =? fst b) &&
  match snd a, snd b with
  | Some x, Some y => String.eqb x y
  | None, None => true
  | _, _ => false
  end.

(** [error_analysis] (lines 51-103): the column ['Error Name'] is assigned
    on the frame received; the result is the table of distinct
    (code, name) pairs. *)
Definition error_analysis (df : ref) : M (list (Z * option string)) :=
  d <- Store.load df ;;
  Store.save df
    (assign set_Error_Name d
       (map (fun r => dict_get (CODE_1 (sample r)) error_codes) d)) ;;;
  d <- Store.load df ;;
  names <- Store.lift (column Error_Name d) ;;
  let unique_errors :=
    Pandas.drop_duplicates code_name_eqb
      (List.combine (map (fun r => CODE_1 (sample r)) d) names) in
  Store.ret unique_errors.

Record FactorGroup : Type := mk_FactorGroup {
  fg_WSD_interval : num;
  fg_PWo_PWi : num
}.

Definition factor_agg (g : num * list (num * Row)) : result FactorGroup :=
  rbind (column PWo_PWi (map snd (snd g))) (fun ratios =>
  Ok (mk_FactorGroup (fst g) (Pandas.mean ratios))).

(** [calculate_power_factors] (lines 105-114), on selections of the frame
    received. *)
Definition calculate_power_factors (df : ref) : M (list FactorGroup) :=
  d <- Store.load df ;;
  df <- Store.alloc
          (filter (fun r => (WSD (sample r) >=? c_3)%num
                            && (Power_DC r >? c_0)%num
                            && (Power_AC r >? c_0)%num) d) ;;
  d <- Store.load df ;;
  Store.save df
    (assign set_WSD_interval d (map (fun r => Num.floor (WSD (sample r))) d)) ;;;
  d <- Store.load df ;;
  Store.save df
    (assign set_PWo_PWi d (map (fun r => (Power_DC r / Power_AC r)%num) d)) ;;;
  d <- Store.load df ;;
  ratios <- Store.lift (column PWo_PWi d) ;;
  df <- Store.alloc
          (map snd (filter (fun xr => (fst xr <? c_1)%num) (List.combine ratios d))) ;;
  d <- Store.load df ;;
  keys <- Store.lift (column WSD_interval d) ;;
  Store.lift
    (rmap factor_agg
          (Pandas.groupby Num.ltb (fun kr => Pandas.num_key (fst kr))
             (List.combine keys d))).

End PPF.

(* ================================================================== *)
(** ** Definitions that the statements below use *)

(** The row [r] with its [TM] and ['CODE 1'] cells replaced. *)
Definition entry (r : WA.Row) (t : tm_cell) (code : Z) : WA.Row :=
  let s := WA.sample r in
  WA.set_sample r
    (mk_Sample (Vdc s) (Idc s) (Euv s) (Evw s) (Ewu s) (Iu s) (Iv s) (Iw s)
               (WSD s) t code).

(** The specification's status intervals.  A run is a maximal block of
    consecutive samples with one status code, with the times of its first
    and its last sample. *)
Definition push_run (c : Z) (s e : tm_cell) (rs : list (Z * (tm_cell * tm_cell)))
  : list (Z * (tm_cell * tm_cell)) :=
  match rs with
  | (c', (_, e')) :: more =>
      if c =? c' then (c, (s, e')) :: more else (c, (s, e)) :: rs
  | [] => [(c, (s, e))]
  end.

Fixpoint runs (l : list (tm_cell * Z)) : list (Z * (tm_cell * tm_cell)) :=
  match l with
  | [] => []
  | (t, c) :: rest => push_run c t t (runs rest)
  end.

(** No two neighbours carry the same code. *)
Fixpoint neighbours_differ (cs : list Z) : Prop :=
  match cs with
  | a :: (b :: _) as rest => a <> b /\ neighbours_differ rest
  | _ => True
  end.

(** Record one run in the mapping, unless it is a run of the nominal
    code 16. *)
Definition add_run (d : list (Z * list (option tm_cell * tm_cell)))
    (run : Z * (tm_cell * tm_cell)) : list (Z * list (option tm_cell * tm_cell)) :=
  if fst run =? 16 then d
  else dd_append (fst run) (Some (fst (snd run)), snd (snd run)) d.

(** The mapping from each non-nominal code to its runs, codes in order of
    first occurrence. *)
Definition status_intervals (l : list (tm_cell * Z))
  : list (Z * list (option tm_cell * tm_cell)) :=
  fold_left add_run (runs l) [].

(** The time groups with every minute key moved by [delta] nanoseconds. *)
Definition shift_minutes (delta : Z) (gs : list WA.TimeGroup) : list WA.TimeGroup :=
  map (fun g => WA.mk_TimeGroup (WA.tg_minute g + delta) (WA.tg_Power_DC g)
                  (WA.tg_Power_AC g) (WA.tg_WSD g) (WA.tg_Cp g)) gs.

Definition result_map {A B} (f : A -> B) (r : result A) : result B :=
  match r with
  | Ok a => Ok (f a)
  | Raise e => Raise e
  end.

(** The loop of [find_error_time_ranges] read over the list of
    (time, code) pairs, the time of the previous sample at hand. *)
Definition walk_step (st : WA.scan) (prev : option tm_cell) (tc : tm_cell * Z)
  : WA.scan :=
  if WA.differs (snd tc) (WA.current_code st) then
    WA.mk_scan
      (match WA.active (WA.current_code st), prev with
       | Some c, Some p => dd_append c (WA.start_time st, p) (WA.error_ranges st)
       | _, _ => WA.error_ranges st
       end)
      (Some (snd tc))
      (if negb (snd tc =? 16) then Some (fst tc) else WA.start_time st)
  else st.

Fixpoint walk (st : WA.scan) (prev : option tm_cell) (l : list (tm_cell * Z))
  : WA.scan :=
  match l with
  | [] => st
  | tc :: rest => walk (walk_step st prev tc) (Some (fst tc)) rest
  end.

Definition last_time (l : list (tm_cell * Z)) : option tm_cell :=
  match rev l with
  | [] => None
  | tc :: _ => Some (fst tc)
  end.

(** The time of the last pair of [l], or [p] when [l] is empty. *)
Definition last_or (p : tm_cell) (l : list (tm_cell * Z)) : tm_cell :=
  fold_left (fun _ tc => fst tc) l p.

(** The step after the loop: close the run that is still open. *)
Definition close (st : WA.scan) (last : option tm_cell)
  : list (Z * list (option tm_cell * tm_cell)) :=
  match WA.active (WA.current_code st), last with
  | Some c, Some t => dd_append c (WA.start_time st, t) (WA.error_ranges st)
  | _, _ => WA.error_ranges st
  end.

(** The (time, code) pairs of a frame. *)
Definition timeline_input (df : WA.Frame) : list (tm_cell * Z) :=
  map (fun r => (TM (WA.sample r), CODE_1 (WA.sample r))) df.

(** *** Wind-speed buckets *)

(** The bucket key of a row in each script, and the cut-in test. *)
Definition ppf_wind_key (r : PPF.Row) : option num :=
  Pandas.num_key (round_decimals 1 (WSD (PPF.sample r))).

Definition wa_wind_value (r : WA.Row) : num :=
  (round_decimals 0 (WSD (WA.sample r) * c_10) / c_10)%num.

Definition wa_wind_key (r : WA.Row) : option num :=
  Pandas.num_key (wa_wind_value r).

Definition ppf_cut_in (r : PPF.Row) : bool := (WSD (PPF.sample r) >=? c_3)%num.

(** The line of the result for one group of rows. *)
Definition ppf_wind_group (g : num * list PPF.Row) : PPF.WindGroup :=
  PPF.mk_WindGroup (fst g)
    (Pandas.mean (map PPF.Power_DC (snd g)))
    (Pandas.mean (map PPF.Power_AC (snd g))).

Definition wa_wind_group (g : num * list WA.Row) : WA.WindGroup :=
  WA.mk_WindGroup (fst g)
    (Pandas.mean (map WA.Power_DC (snd g)))
    (Pandas.mean (map WA.Power_AC (snd g)))
    (Pandas.mean (map WA.Cp (snd g))).

(** The members of the bucket [key]: in power_power_factor.py the rows at
    or above the cut-in speed whose rounded wind speed is [key], in
    wind_analysis.py all rows whose rounded wind speed is [key]. *)
Definition ppf_members (d : PPF.Frame) (key : num) : list PPF.Row :=
  filter (Pandas.has_key Num.ltb ppf_wind_key key) (filter ppf_cut_in d).

Definition wa_members (d : WA.Frame) (key : num) : list WA.Row :=
  filter (Pandas.has_key Num.ltb wa_wind_key key) d.

(** A frame of wind_analysis.py with one sample, at 2 m/s. *)
Definition calm_sample : Sample :=
  mk_Sample (Fin 400) (Fin 10) (Fin 230) (Fin 230) (Fin 230)
            (Fin 6) (Fin 6) (Fin 6) (Fin 2)
            (TM_time (mk_time 10 0 29 0)) 16.

Definition calm_frame : WA.Frame :=
  [WA.derive (Fin (1225 # 1000)) (Fin 10) (Fin 10) calm_sample].

(** A sample with no current on the AC side, and its row. *)
Definition idle_sample : Sample :=
  mk_Sample (Fin 400) (Fin 0) (Fin 230) (Fin 230) (Fin 230)
            (Fin 0) (Fin 0) (Fin 0) (Fin 1)
            (TM_time (mk_time 10 2 0 0)) 0.

Definition idle_row : WA.Row :=
  WA.derive (Fin (1225 # 1000)) (Fin 10) (Fin 10) idle_sample.

(** *** Power factors *)

(** The first filter of [calculate_power_factors], the ratio of a row, the
    second filter and the bucket key. *)
Definition ppf_producing (r : PPF.Row) : bool :=
  (WSD (PPF.sample r) >=? c_3)%num && (PPF.Power_DC r >? c_0)%num
  && (PPF.Power_AC r >? c_0)%num.

Definition ppf_ratio (r : PPF.Row) : num := (PPF.Power_DC r / PPF.Power_AC r)%num.

Definition ppf_below_one (r : PPF.Row) : bool := (ppf_ratio r <? c_1)%num.

Definition ppf_factor_key (r : PPF.Row) : option num :=
  Pandas.num_key (Num.floor (WSD (PPF.sample r))).

Definition ppf_factor_group (g : num * list PPF.Row) : PPF.FactorGroup :=
  PPF.mk_FactorGroup (fst g) (Pandas.mean (map ppf_ratio (snd g))).

(** The members of the bucket [key]. *)
Definition ppf_factor_members (d : PPF.Frame) (key : num) : list PPF.Row :=
  filter (Pandas.has_key Num.ltb ppf_factor_key key)
         (filter ppf_below_one (filter ppf_producing d)).

(** The columns that [calculate_power_factors] assigns on its own frame. *)
Definition ppf_with_factor_columns (r : PPF.Row) : PPF.Row :=
  PPF.set_PWo_PWi (PPF.set_WSD_interval r (Num.floor (WSD (PPF.sample r))))
                  (ppf_ratio r).

(** A frame of power_power_factor.py with one producing sample. *)
Definition breeze_sample : Sample :=
  mk_Sample (Fin 200) (Fin 10) (Fin 230) (Fin 230) (Fin 230)
            (Fin 6) (Fin 6) (Fin 6) (Fin (37 # 10))
            (TM_time (mk_time 10 0 29 0)) 5.

Definition breeze_frame : PPF.Frame := [PPF.derive breeze_sample].

(** The row of wind_analysis.py for the same sample. *)
Definition breeze_row : WA.Row :=
  WA.derive (Fin (1225 # 1000)) (Fin 10) (Fin 10) breeze_sample.

(** *** Reading the sheet *)

(** How a row [r] of the frame that [read_and_process_data] returns comes
    from the sample [s] of the sheet: the derived columns of [s], and a
    [TM] cell that is the conversion of the cell of [s] when the column was
    converted and the cell of [s] itself otherwise. *)
Definition wa_read_row (to_datetime_HMS : tm_cell -> option tm_cell)
    (converted : bool) (air_density rotor_diameter rotor_height : num)
    (s : Sample) (r : WA.Row) : Prop :=
  exists c,
    r = WA.set_sample (WA.derive air_density rotor_diameter rotor_height s)
                      (set_TM s c) /\
    if converted then to_datetime_HMS (TM s) = Some c else c = TM s.

Definition ppf_read_row (to_datetime_HMS : tm_cell -> option tm_cell)
    (converted : bool) (s : Sample) (r : PPF.Row) : Prop :=
  exists c,
    r = PPF.set_sample (PPF.derive s) (set_TM s c) /\
    if converted then to_datetime_HMS (TM s) = Some c else c = TM s.

(** Whether the first [TM] cell of a sheet is a string. *)
Definition first_is_str (sheet : list Sample) : bool :=
  match sheet with
  | s :: _ => is_str (TM s)
  | [] => false
  end.

(** A converter for the statements at concrete sheets: strings in the
    strict form ["HH:MM:SS"] become times, any other cell fails. *)
Definition strict_HMS (c : tm_cell) : option tm_cell :=
  match c with
  | TM_str s => option_map TM_time (parse_HMS s)
  | _ => None
  end.

(** A sheet whose [TM] column mixes a time and a string, and one whose
    [TM] column holds strings. *)
Definition mixed_sheet : list Sample :=
  [calm_sample; set_TM breeze_sample (TM_str "10:00:31")].

Definition text_sheet : list Sample :=
  [set_TM calm_sample (TM_str "10:00:29");
   set_TM breeze_sample (TM_str "10:00:31")].

(** *** Minutes *)

(** The instants that [process_time_data] assigns to the column ['minute']
    before rounding (lines 68-80). *)
Definition wa_instants (today : nat -> Z) (pd_to_datetime : tm_cell -> option Z)
    (d : WA.Frame) : result (list Z) :=
  rbind (py_index (map (fun r => TM (WA.sample r)) d) 0) (fun first =>
  if is_time first then
    rmapi (WA.combine_time today) (map (fun r => TM (WA.sample r)) d)
  else if is_datetime first then
    rmapi (WA.combine_datetime today) (map (fun r => TM (WA.sample r)) d)
  else
    rmap (fun r => of_option ValueError (pd_to_datetime (TM (WA.sample r)))) d).

(** The rounded instant of a pair of a row and its instant. *)
Definition rounded_minute (rv : WA.Row * Z) : option Z :=
  Some (dt_round ns_per_minute (snd rv)).

(** The line of the result for one group of rows with their instants. *)
Definition wa_time_group (g : Z * list (WA.Row * Z)) : WA.TimeGroup :=
  let rows := map fst (snd g) in
  WA.mk_TimeGroup (fst g)
    (Pandas.mean (map WA.Power_DC rows))
    (Pandas.mean (map WA.Power_AC rows))
    (Pandas.mean (map (fun r => WSD (WA.sample r)) rows))
    (Pandas.mean (map WA.Cp rows)).

(** The instant of a row whose [TM] cell is a time of day or a datetime,
    on the day [day]. *)
Definition wa_instant (day : Z) (r : WA.Row) : Z :=
  match TM (WA.sample r) with
  | TM_time t => datetime_combine day t
  | TM_datetime dt => datetime_combine day (time_of dt)
  | _ => 0
  end.

(** The members of the minute [key] on the day [day]. *)
Definition wa_minute_members (day : Z) (d : WA.Frame) (key : Z) : list WA.Row :=
  filter (fun r => dt_round ns_per_minute (wa_instant day r) =? key) d.

(** Two samples, at 10:00:29 and at 10:00:30.4. *)
Definition half_past_sample : Sample :=
  set_TM breeze_sample (TM_time (mk_time 10 0 30 400000)).

Definition two_times_frame : WA.Frame :=
  map (WA.derive (Fin (1225 # 1000)) (Fin 10) (Fin 10))
      [calm_sample; half_past_sample].

(** *** The whole pipeline *)

(** The [TM] column of a frame starts with a time of day or a datetime:
    the two cases in which [process_time_data] reads the clock. *)
Definition clock_column (d : WA.Frame) : bool :=
  match d with
  | [] => true
  | r :: _ => is_time (TM (WA.sample r)) || is_datetime (TM (WA.sample r))
  end.

(** The results of [main] with the minute keys moved by [delta]. *)
Definition shift_output (delta : Z)
    (out : list WA.WindGroup * list WA.TimeGroup * WA.analysis)
  : list WA.WindGroup * list WA.TimeGroup * WA.analysis :=
  (fst (fst out), shift_minutes delta (snd (fst out)), snd out).

(** A sheet with the samples at 10:00:29 and 10:00:30.4. *)
Definition two_times_sheet : list Sample := [calm_sample; half_past_sample].

(** *** Definitions for the further properties *)

(** The frame of power_power_factor.py with the sample at 2 m/s. *)
Definition calm_ppf_frame : PPF.Frame := [PPF.derive calm_sample].

(** *** The time column *)

(** Whether [process_time_data] can place every row: the frame is not
    empty, and every [TM] cell is of the kind that the branch chosen on the
    first cell handles. *)
Definition time_column_ok (pd_to_datetime : tm_cell -> option Z) (d : WA.Frame) : bool :=
  match d with
  | [] => false
  | r :: _ =>
      if is_time (TM (WA.sample r)) then
        forallb (fun r => is_time (TM (WA.sample r))) d
      else if is_datetime (TM (WA.sample r)) then
        forallb (fun r => is_datetime (TM (WA.sample r))) d
      else
        forallb (fun r => match pd_to_datetime (TM (WA.sample r)) with
                          | Some _ => true
                          | None => false
                          end) d
  end.

(** The exception that the branch chosen on the first cell meets on a cell
    it cannot handle. *)
Definition time_column_error (d : WA.Frame) : exn :=
  match d with
  | [] => IndexError
  | r :: _ =>
      if is_time (TM (WA.sample r)) then TypeError
      else if is_datetime (TM (WA.sample r)) then AttributeError
      else ValueError
  end.

(** The row with the date of its [TM] cell dropped. *)
Definition without_date (r : WA.Row) : WA.Row :=
  match TM (WA.sample r) with
  | TM_datetime dt => WA.set_sample r (set_TM (WA.sample r) (TM_time (time_of dt)))
  | _ => r
  end.

(** A frame whose [TM] column starts with a time of day and goes on with a
    string. *)
Definition mixed_frame : WA.Frame :=
  map (WA.derive (Fin (1225 # 1000)) (Fin 10) (Fin 10)) mixed_sheet.

(** A frame with one sample, stamped with a full date. *)
Definition dated_frame : WA.Frame :=
  [WA.derive (Fin (1225 # 1000)) (Fin 10) (Fin 10)
     (set_TM breeze_sample (TM_datetime (mk_datetime 19000 (mk_time 10 0 31 0))))].

(** *** The timeline *)

(** A frame with one sample, of code 5. *)
Definition fault_frame : WA.Frame := [breeze_row].

(** The parts of one line of the timeline of [error_analysis]. *)
Definition line_code (en : WA.timeline_entry) : Z := fst (fst en).
Definition line_name (en : WA.timeline_entry) : string := snd (fst en).
Definition line_ranges (en : WA.timeline_entry) : list (time * time) := snd en.

(** [error_codes.get(code, 'Unknown')]. *)
Definition code_name (code : Z) : string :=
  match dict_get code error_codes with
  | Some name => name
  | None => "Unknown"%string
  end.

(** A cell that has a [strftime]: a time of day or a datetime. *)
Definition is_clock (c : tm_cell) : bool := is_time c || is_datetime c.

(** *** The table of codes of power_power_factor.py *)

(** The row with the name of its code in the column ['Error Name']. *)
Definition ppf_named (r : PPF.Row) : PPF.Row :=
  PPF.set_Error_Name r (dict_get (CODE_1 (PPF.sample r)) error_codes).

(** A code with its name in the catalogue, if it has one. *)
Definition with_name (code : Z) : Z * option string :=
  (code, dict_get code error_codes).

(** ** [main] of power_power_factor.py *)

Module PPFMain.
Section Main.
Variable to_datetime_HMS : tm_cell -> option tm_cell.

(** The body of [main] once a file is uploaded (lines 125-136), without
    the calls that draw: the three tables handed to the display. *)
Definition main (sheet : list Sample)
  : PPF.M (list PPF.WindGroup * list (Z * option string) * list PPF.FactorGroup) :=
  frame <- Store.lift (PPF.read_and_process_data to_datetime_HMS sheet) ;;
  df <- Store.alloc frame ;;
  wind_speed_groups <- PPF.process_wind_speed_data df ;;
  error_data <- PPF.error_analysis df ;;
  power_factors <- PPF.calculate_power_factors df ;;
  Store.ret (wind_speed_groups, error_data, power_factors).
End Main.
End PPFMain.

(** *** The steps of the two pipelines *)

(** The row of wind_analysis.py with its rounded wind speed in the column
    ['WSD_rounded']. *)
Definition wa_rounded (r : WA.Row) : WA.Row :=
  WA.set_WSD_rounded r (wa_wind_value r).

(** A sheet with one producing sample. *)
Definition breeze_sheet : list Sample := [breeze_sample].

(* ================================================================== *)
(** * Properties *)

Unset Implicit Arguments.

(** ** Numbers *)

Section NumFacts.

Lemma Qlt_bool_iff (a b : Q) : Qlt_bool a b = true <-> (a < b)%Q.
Proof.
  unfold Qlt_bool. rewrite negb_true_iff.
  destruct (Qle_bool b a) eqn:E.
  - apply Qle_bool_iff in E. split; [discriminate | intro H; exfalso; lra].
  - split; [intros _ | reflexivity].
    destruct (Qlt_le_dec a b) as [H | H]; [exact H |].
    apply Qle_bool_iff in H. congruence.
Qed.

Lemma Qlt_bool_false_iff (a b : Q) : Qlt_bool a b = false <-> (b <= a)%Q.
Proof.
  destruct (Qlt_bool a b) eqn:E.
  - apply Qlt_bool_iff in E. split; [discriminate | intro; exfalso; lra].
  - split; [intros _ | reflexivity].
    destruct (Qlt_le_dec a b) as [H | H]; [| exact H].
    apply Qlt_bool_iff in H. congruence.
Qed.

Lemma Qeq_bool_false_iff (a b : Q) : Qeq_bool a b = false <-> ~ (a == b)%Q.
Proof.
  split; [apply Qeq_bool_neq |].
  intro H. destruct (Qeq_bool a b) eqn:E; [| reflexivity].
  apply Qeq_bool_iff in E. contradiction.
Qed.

Lemma pow3_Fin (v : Q) : Num.pow (Fin v) 3 = Fin (v * (v * v)).
Proof. reflexivity. Qed.

Lemma clip_Fin (x lo hi : Q) :
  (lo <= hi)%Q ->
  exists c, clip (Fin x) (Fin lo) (Fin hi) = Fin c /\
            (c == Qmin (Qmax x lo) hi)%Q /\ (lo <= c <= hi)%Q.
Proof.
  intro Hb. unfold clip, maximum, minimum, Num.ltb.
  destruct (Q.max_spec x lo) as [[H1 H2] | [H1 H2]];
    destruct (Qlt_bool x lo) eqn:E1;
    try (apply Qlt_bool_iff in E1); try (apply Qlt_bool_false_iff in E1);
    try (exfalso; lra).
  - destruct (Q.min_spec (Qmax x lo) hi) as [[H3 H4] | [H3 H4]];
      destruct (Qlt_bool hi lo) eqn:E2;
      try (apply Qlt_bool_iff in E2); try (apply Qlt_bool_false_iff in E2);
      try (exfalso; lra); eexists; (split; [reflexivity |]); split; lra.
  - destruct (Q.min_spec (Qmax x lo) hi) as [[H3 H4] | [H3 H4]];
      destruct (Qlt_bool hi x) eqn:E2;
      try (apply Qlt_bool_iff in E2); try (apply Qlt_bool_false_iff in E2);
      try (exfalso; lra); eexists; (split; [reflexivity |]); split; lra.
Qed.

Lemma ltb_irrefl (x : num) : Num.ltb x x = false.
Proof.
  destruct x; cbn; try reflexivity.
  apply Qlt_bool_false_iff. lra.
Qed.

Lemma ltb_trans (a b c : num) :
  Num.ltb a b = true -> Num.ltb b c = true -> Num.ltb a c = true.
Proof.
  destruct a, b, c; cbn; try discriminate; try reflexivity.
  rewrite !Qlt_bool_iff. lra.
Qed.

Lemma geb_Fin (a b : Q) : Num.geb (Fin a) (Fin b) = true <-> (b <= a)%Q.
Proof.
  unfold Num.geb, Num.leb. cbn. rewrite orb_true_iff, Qlt_bool_iff, Qeq_bool_iff.
  split; [intros [H | H]; lra |].
  intro H. destruct (Qlt_le_dec b a); [left; assumption | right; lra].
Qed.

Lemma Qrint_bounds (a : Q) : Qfloor a <= Qrint a <= Qfloor a + 1.
Proof.
  unfold Qrint.
  destruct (Qlt_bool _ _); [lia |].
  destruct (Qlt_bool _ _); [lia |].
  destruct (Z.even _); lia.
Qed.

Lemma Qrint_comp (a b : Q) : (a == b)%Q -> Qrint a = Qrint b.
Proof.
  intro H. unfold Qrint. rewrite (Qfloor_comp _ _ H).
  set (f := Qfloor b).
  assert (E1 : Qlt_bool (a - inject_Z f) (1 # 2) = Qlt_bool (b - inject_Z f) (1 # 2)).
  { unfold Qlt_bool. f_equal. apply Qleb_comp; [reflexivity | rewrite H; reflexivity]. }
  assert (E2 : Qlt_bool (1 # 2) (a - inject_Z f) = Qlt_bool (1 # 2) (b - inject_Z f)).
  { unfold Qlt_bool. f_equal. apply Qleb_comp; [rewrite H; reflexivity | reflexivity]. }
  rewrite E1, E2. reflexivity.
Qed.

Lemma Qrint_ge (a : Q) (n : Z) : (inject_Z n <= a)%Q -> n <= Qrint a.
Proof.
  intro H. pose proof (Qrint_bounds a) as [Hb _].
  apply Qfloor_resp_le in H. rewrite Qfloor_Z in H. lia.
Qed.

(** Rounding to one decimal never takes a wind speed of 3 or more below 3. *)
Lemma round_decimals_1_ge_3 (w : num) :
  Num.geb w c_3 = true -> Num.geb (round_decimals 1 w) c_3 = true.
Proof.
  destruct w as [q | | |]; try discriminate; [| reflexivity].
  unfold c_3. rewrite geb_Fin. intro H.
  unfold round_decimals, rint, of_Z. cbn [Num.mul].
  change (10 ^ Z.of_nat 1) with 10.
  unfold Num.div. change (Qeq_bool (inject_Z 10) 0) with false. cbv iota.
  apply geb_Fin.
  assert (Hz : 30 <= Qrint (q * inject_Z 10)).
  { apply Qrint_ge. change (inject_Z 30) with (30 # 1)%Q.
    change (inject_Z 10) with (10 # 1)%Q. lra. }
  assert (Hq : (inject_Z 30 <= inject_Z (Qrint (q * inject_Z 10)))%Q)
    by (rewrite <- Zle_Qle; exact Hz).
  change (inject_Z 30) with (30 # 1)%Q in Hq.
  change (inject_Z 10) with (10 # 1)%Q in *.
  apply Qle_shift_div_l; lra.
Qed.

(** The key of wind_analysis.py, [round(w * 10) / 10], is [w] rounded to
    one decimal. *)
Lemma round_times_10_equiv (w : num) :
  Num.equiv (round_decimals 0 (w * c_10) / c_10)%num (round_decimals 1 w).
Proof.
  destruct w as [q | | |]; try exact I.
  unfold round_decimals, rint, of_Z, c_10. cbn [Num.mul].
  change (10 ^ Z.of_nat 1) with 10. change (10 ^ Z.of_nat 0) with 1.
  unfold Num.div.
  change (Qeq_bool (inject_Z 10) 0) with false.
  change (Qeq_bool (inject_Z 1) 0) with false.
  change (Qeq_bool 10 0) with false. cbv iota. cbn [Num.equiv].
  rewrite (@Qrint_comp (q * 10 * inject_Z 1) (q * inject_Z 10)).
  - change (inject_Z 1) with 1%Q. change (inject_Z 10) with 10%Q. field.
  - change (inject_Z 1) with 1%Q. change (inject_Z 10) with 10%Q. ring.
Qed.

End NumFacts.

(** ** The power coefficient *)



(** ** Python indexing *)

Ltac zbool :=
  repeat match goal with
  | |- _ && _ = true => apply andb_true_iff; split
  | |- (_ <=? _) = true => apply Z.leb_le
  | |- (_ <? _) = true => apply Z.ltb_lt
  | |- (_ =? _) = true => apply Z.eqb_eq
  | |- (_ <=? _) = false => apply Z.leb_gt
  | |- (_ <? _) = false => apply Z.ltb_ge
  | |- (_ =? _) = false => apply Z.eqb_neq
  end; try lia.

Section Indexing.
Variable A : Type.

Lemma py_index_middle (pre : list A) (x : A) (suf : list A) :
  py_index (pre ++ x :: suf) (Z.of_nat (length pre)) = Ok x.
Proof.
  unfold py_index. rewrite length_app. cbn [length].
  replace ((0 <=? Z.of_nat (length pre)) &&
           (Z.of_nat (length pre) <? Z.of_nat (length pre + S (length suf))))
    with true by (symmetry; zbool).
  rewrite Nat2Z.id, nth_error_app2, Nat.sub_diag by lia. reflexivity.
Qed.

Lemma py_index_previous (pre : list A) (p x : A) (suf : list A) :
  py_index ((pre ++ [p]) ++ x :: suf) (Z.of_nat (length (pre ++ [p])) - 1) = Ok p.
Proof.
  rewrite <- app_assoc, length_app. cbn [length app].
  replace (Z.of_nat (length pre + 1) - 1) with (Z.of_nat (length pre)) by lia.
  apply py_index_middle.
Qed.

Lemma py_index_last (pre : list A) (x : A) :
  py_index (pre ++ [x]) (-1) = Ok x.
Proof.
  unfold py_index. rewrite length_app. cbn [length].
  replace ((0 <=? -1) && (-1 <? Z.of_nat (length pre + 1))) with false
    by reflexivity.
  replace ((- Z.of_nat (length pre + 1) <=? -1) && (-1 <? 0)) with true
    by (symmetry; zbool).
  replace (Z.to_nat (Z.of_nat (length pre + 1) + -1)) with (length pre) by lia.
  rewrite nth_error_app2, Nat.sub_diag by lia. reflexivity.
Qed.

End Indexing.

(** ** The status timeline *)

Section Timeline.

Lemma last_time_snoc (pre : list (tm_cell * Z)) (tc : tm_cell * Z) :
  last_time (pre ++ [tc]) = Some (fst tc).
Proof. unfold last_time. rewrite rev_app_distr. reflexivity. Qed.

Lemma last_time_None (pre : list (tm_cell * Z)) :
  last_time pre = None -> pre = [].
Proof.
  destruct pre as [| x pre' ] using rev_ind; [reflexivity |].
  rewrite last_time_snoc. discriminate.
Qed.

Lemma last_time_Some (pre : list (tm_cell * Z)) (p : tm_cell) :
  last_time pre = Some p -> exists pre' c, pre = pre' ++ [(p, c)].
Proof.
  destruct pre as [| [t c] pre' _] using rev_ind; [discriminate |].
  rewrite last_time_snoc. intros [= <-]. eauto.
Qed.

(** The loop over indices is the walk over the list. *)
Lemma scan_loop_walk (suf pre : list (tm_cell * Z)) (st : WA.scan) :
  (WA.current_code st <> None -> pre <> []) ->
  WA.scan_loop (map fst (pre ++ suf)) (map snd (pre ++ suf)) st
               (seq (length pre) (length suf))
  = Ok (walk st (last_time pre) suf).
Proof.
  revert pre st. induction suf as [| [t c] suf IH]; intros pre st Hcur.
  - reflexivity.
  - cbn [length seq WA.scan_loop walk].
    assert (Hstep : WA.scan_step (map fst (pre ++ (t, c) :: suf))
                      (map snd (pre ++ (t, c) :: suf)) st (length pre)
                    = Ok (walk_step st (last_time pre) (t, c))).
    { unfold WA.scan_step, walk_step. rewrite !map_app. cbn [map fst snd].
      rewrite <- (length_map snd pre) at 1. rewrite py_index_middle. cbn [rbind].
      destruct (WA.differs c (WA.current_code st)); [| reflexivity].
      assert (Ht : py_index (map fst pre ++ t :: map fst suf)
                     (Z.of_nat (length pre)) = Ok t).
      { rewrite <- (length_map fst pre). apply py_index_middle. }
      destruct (WA.active (WA.current_code st)) as [a |] eqn:Ha.
      - assert (Hne : pre <> []).
        { apply Hcur. destruct (WA.current_code st); [discriminate | discriminate]. }
        destruct (last_time pre) as [p |] eqn:Hl;
          [| apply last_time_None in Hl; contradiction].
        apply last_time_Some in Hl. destruct Hl as (pre' & c' & ->).
        rewrite map_app. cbn [map fst].
        replace (Z.of_nat (length (pre' ++ [(p, c')])))
          with (Z.of_nat (length (map fst pre' ++ [p])))
          by (rewrite !length_app, length_map; reflexivity).
        rewrite py_index_previous. cbn [rbind].
        destruct (negb (c =? 16)); cbn [rbind]; [| reflexivity].
        replace (Z.of_nat (length (map fst pre' ++ [p])))
          with (Z.of_nat (length ((map fst pre' ++ [p]))))
          by reflexivity.
        rewrite py_index_middle. reflexivity.
      - cbn [rbind].
        destruct (negb (c =? 16)); cbn [rbind]; [| destruct (last_time pre); reflexivity].
        rewrite Ht. cbn [rbind]. destruct (last_time pre); reflexivity. }
    rewrite Hstep. cbn [rbind].
    specialize (IH (pre ++ [(t, c)]) (walk_step st (last_time pre) (t, c))).
    rewrite <- app_assoc in IH. cbn [app] in IH.
    rewrite length_app in IH. cbn [length] in IH.
    replace (length pre + 1)%nat with (S (length pre)) in IH by lia.
    rewrite IH.
    + rewrite last_time_snoc. reflexivity.
    + intros _. destruct pre; discriminate.
Qed.

Lemma push_run_same (c : Z) (s p t : tm_cell) rs :
  push_run c s p (push_run c t t rs) = push_run c s t rs.
Proof.
  destruct rs as [| [c2 [s2 e2]] more]; cbn.
  - rewrite Z.eqb_refl. reflexivity.
  - destruct (c =? c2) eqn:E; cbn; [rewrite Z.eqb_refl | rewrite Z.eqb_refl];
      reflexivity.
Qed.

Lemma push_run_other (c c' : Z) (s p t : tm_cell) rs :
  (c =? c') = false ->
  push_run c s p (push_run c' t t rs) = (c, (s, p)) :: push_run c' t t rs.
Proof.
  intro E. destruct rs as [| [c2 [s2 e2]] more]; cbn.
  - rewrite E. reflexivity.
  - destruct (c' =? c2); cbn; rewrite E; reflexivity.
Qed.

(** From a state with an open run, the walk and the closing step record
    the runs of the rest, the first of them merged into the open run. *)
Lemma walk_runs (l : list (tm_cell * Z)) :
  forall R c start s p,
    (c <> 16 -> start = Some s) ->
    close (walk (WA.mk_scan R (Some c) start) (Some p) l) (Some (last_or p l))
    = fold_left add_run (push_run c s p (runs l)) R.
Proof.
  induction l as [| [t c'] rest IH]; intros R c start s p Hs.
  - cbn. unfold close, add_run, WA.active. cbn.
    destruct (c =? 16) eqn:E; cbn; [reflexivity |].
    rewrite Hs by (apply Z.eqb_neq; exact E). reflexivity.
  - cbn [walk runs last_or fold_left fst]. unfold walk_step. cbn [snd fst WA.differs WA.current_code].
    destruct (c' =? c) eqn:E; cbn [negb].
    + apply Z.eqb_eq in E. subst c'. rewrite push_run_same. apply IH. exact Hs.
    + rewrite push_run_other by (rewrite Z.eqb_sym; exact E).
      cbn [fold_left]. cbn [WA.active WA.start_time WA.error_ranges].
      change (fold_left (fun _ tc => fst tc) rest t) with (last_or t rest).
      rewrite (IH _ c' _ t t).
      * f_equal. unfold add_run. cbn [fst snd].
        destruct (c =? 16) eqn:E16; cbn [negb]; [reflexivity |].
        rewrite Hs by (apply Z.eqb_neq; exact E16). reflexivity.
      * intro Hc. apply Z.eqb_neq in Hc. rewrite Hc. reflexivity.
Qed.

Lemma last_or_snoc (p : tm_cell) (pre : list (tm_cell * Z)) (tc : tm_cell * Z) :
  last_or p (pre ++ [tc]) = fst tc.
Proof. unfold last_or. rewrite fold_left_app. reflexivity. Qed.

(** The function computes the specification's status intervals, and it
    never raises. *)
Lemma find_error_time_ranges_status_intervals (df : WA.Frame) (codes : list (Z * string)) :
  WA.find_error_time_ranges df codes = Ok (status_intervals (timeline_input df)).
Proof.
  unfold WA.find_error_time_ranges.
  set (items := timeline_input df).
  assert (Ht : map (fun r => TM (WA.sample r)) df = map fst items)
    by (unfold items, timeline_input; rewrite map_map; reflexivity).
  assert (Hc : map (fun r => CODE_1 (WA.sample r)) df = map snd items)
    by (unfold items, timeline_input; rewrite map_map; reflexivity).
  assert (Hl : length df = length items)
    by (unfold items, timeline_input; rewrite length_map; reflexivity).
  rewrite Ht, Hc, Hl. clearbody items. clear Ht Hc Hl df.
  pose proof (@scan_loop_walk items [] (WA.mk_scan [] None None)) as Hloop.
  cbn [app length] in Hloop. rewrite Hloop by (intro H; contradiction H; reflexivity).
  cbn [rbind]. change (last_time []) with (@None tm_cell).
  destruct items as [| [t c] rest].
  - reflexivity.
  - unfold status_intervals. cbn [runs walk]. unfold walk_step.
    cbn [WA.differs WA.current_code snd fst WA.active WA.error_ranges WA.start_time].
    rewrite <- (@walk_runs rest [] c (if negb (c =? 16) then Some t else None) t t).
    + set (st := walk _ _ rest). unfold close.
      destruct (WA.active (WA.current_code st)) as [a |]; [| reflexivity].
      destruct (@exists_last _ ((t, c) :: rest)) as (pre & x & Hx); [discriminate |].
      rewrite Hx, map_app. cbn [map]. rewrite py_index_last. cbn [rbind].
      do 3 f_equal.
      destruct pre as [| y pre'].
      * cbn in Hx. injection Hx as <- ->. reflexivity.
      * cbn in Hx. injection Hx as _ ->. rewrite last_or_snoc. reflexivity.
    + intro Hc. apply Z.eqb_neq in Hc. rewrite Hc. reflexivity.
Qed.

Lemma dd_append_keys {V} (k : Z) (v : V) (d : list (Z * list V)) (x : Z) :
  In x (map fst (dd_append k v d)) -> x = k \/ In x (map fst d).
Proof.
  induction d as [| [k' vs] t IH]; cbn.
  - intros [H | []]. left. symmetry. exact H.
  - destruct (k =? k'); cbn; intros [H | H]; auto.
    destruct (IH H); auto.
Qed.

Lemma add_run_never_16 rs :
  forall R, ~ In 16 (map fst R) -> ~ In 16 (map fst (fold_left add_run rs R)).
Proof.
  induction rs as [| run rs IH]; intros R HR; [exact HR |].
  cbn [fold_left]. apply IH. unfold add_run.
  destruct (fst run =? 16) eqn:E; [exact HR |].
  intro H. apply dd_append_keys in H. destruct H as [H | H]; [| contradiction].
  apply Z.eqb_neq in E. congruence.
Qed.

Lemma runs_codes (l : list (tm_cell * Z)) (run : Z * (tm_cell * tm_cell)) :
  In run (runs l) -> In (fst run) (map snd l).
Proof.
  revert run. induction l as [| [t c] rest IH]; intros run; cbn [runs]; [intros [] |].
  unfold push_run. destruct (runs rest) as [| [c2 [s2 e2]] more] eqn:E.
  - intros [<- | []]. left. reflexivity.
  - destruct (c =? c2); intros [<- | H].
    + left. reflexivity.
    + right. apply IH. right. exact H.
    + left. reflexivity.
    + right. apply IH. exact H.
Qed.

(** Runs are maximal: two runs that follow each other differ in code. *)
Lemma runs_maximal (l : list (tm_cell * Z)) :
  neighbours_differ (map fst (runs l)).
Proof.
  induction l as [| [t c] rest IH]; cbn [runs]; [exact I |].
  unfold push_run. destruct (runs rest) as [| [c2 [s2 e2]] more]; [exact I |].
  destruct (c =? c2) eqn:E.
  - apply Z.eqb_eq in E. subst c2. exact IH.
  - apply Z.eqb_neq in E. split; [exact E | exact IH].
Qed.

Lemma add_run_all_16 rs :
  (forall run, In run rs -> fst run = 16) ->
  forall R, fold_left add_run rs R = R.
Proof.
  induction rs as [| run rs IH]; intros H R; [reflexivity |].
  cbn [fold_left]. unfold add_run at 2.
  rewrite (H run (or_introl eq_refl)). cbn. apply IH.
  intros run' Hin. apply H. right. exact Hin.
Qed.

End Timeline.

(** C3. [find_error_time_ranges] maps each status code other than 16 to its
    maximal runs of consecutive samples, closed by the times of their first
    and last sample, codes in order of first occurrence (two runs that
    follow each other never share a code); on the codes
    [16,16,5,5,16,3,3,3,16] with times [t0..t8] it returns
    [{5: [(t2,t3)], 3: [(t5,t7)]}]; for every input it returns a mapping,
    and 16 is never one of its keys; a frame whose codes are all 16 yields
    the empty mapping. *)
Theorem find_error_time_ranges_runs :
  (forall (df : WA.Frame) (codes : list (Z * string)),
     WA.find_error_time_ranges df codes = Ok (status_intervals (timeline_input df))) /\
  (forall l : list (tm_cell * Z), neighbours_differ (map fst (runs l))) /\
  (forall (r0 r1 r2 r3 r4 r5 r6 r7 r8 : WA.Row)
          (t0 t1 t2 t3 t4 t5 t6 t7 t8 : tm_cell),
     WA.find_error_time_ranges
       [entry r0 t0 16; entry r1 t1 16; entry r2 t2 5; entry r3 t3 5;
        entry r4 t4 16; entry r5 t5 3; entry r6 t6 3; entry r7 t7 3;
        entry r8 t8 16] error_codes
     = Ok [(5, [(Some t2, t3)]); (3, [(Some t5, t7)])]) /\
  (forall (df : WA.Frame) (codes : list (Z * string)),
     exists ranges, WA.find_error_time_ranges df codes = Ok ranges /\
                    ~ In 16 (map fst ranges)) /\
  (forall (l : list (WA.Row * tm_cell)) (codes : list (Z * string)),
     WA.find_error_time_ranges
       (map (fun rt => entry (fst rt) (snd rt) 16) l) codes = Ok []).
Proof.
  split; [exact find_error_time_ranges_status_intervals |].
  split; [exact runs_maximal |].
  split; [intros; reflexivity |].
  split.
  - intros df codes. eexists. split.
    + apply find_error_time_ranges_status_intervals.
    + apply add_run_never_16. intros [].
  - intros l codes. rewrite find_error_time_ranges_status_intervals.
    f_equal. unfold status_intervals. apply add_run_all_16.
    intros run Hin. apply runs_codes in Hin.
    unfold timeline_input in Hin. rewrite !map_map in Hin. cbn in Hin.
    apply in_map_iff in Hin. destruct Hin as (x & Hx & _). symmetry. exact Hx.
Qed.

(** ** Frames and the store *)

Section FrameFacts.
Variables R A : Type.

Lemma assign_map (set : R -> A -> R) (f : R -> A) (d : list R) :
  assign set d (map f d) = map (fun r => set r (f r)) d.
Proof.
  unfold assign. induction d as [| r d IH]; cbn; [reflexivity |].
  f_equal. exact IH.
Qed.

Lemma column_map (get : R -> option A) (g : R -> R) (f : R -> A) (d : list R) :
  (forall r, get (g r) = Some (f r)) ->
  column get (map g d) = Ok (map f d).
Proof.
  intro H. unfold column. induction d as [| r d IH]; cbn; [reflexivity |].
  rewrite H, IH. reflexivity.
Qed.

End FrameFacts.

Section StoreFacts.
Variable Frame : Type.
Implicit Types (s : Store.store Frame) (f g : Frame).

Lemma nth_error_update_same s r f :
  (r < length s)%nat -> nth_error (Store.update s r f) r = Some f.
Proof.
  revert r. induction s as [| h t IH]; intros [| r] H; cbn in *; try lia.
  - reflexivity.
  - apply IH. lia.
Qed.

Lemma update_new s f g :
  Store.update (s ++ [f]) (length s) g = s ++ [g].
Proof. induction s as [| h t IH]; cbn; [reflexivity | f_equal; exact IH]. Qed.

Lemma nth_error_new s f : nth_error (s ++ [f]) (length s) = Some f.
Proof. rewrite nth_error_app2, Nat.sub_diag by lia. reflexivity. Qed.

Lemma nth_error_old s r f g :
  nth_error s r = Some g -> nth_error (s ++ [f]) r = Some g.
Proof.
  intro H. rewrite nth_error_app1; [exact H |].
  apply nth_error_Some. congruence.
Qed.

Lemma nth_error_valid s r g :
  nth_error s r = Some g -> (r < length s)%nat.
Proof. intro H. apply nth_error_Some. congruence. Qed.

End StoreFacts.

(** ** Grouping *)

Section GroupByFacts.
Variables K A : Type.
Variable klt : K -> K -> bool.
Hypothesis klt_irrefl : forall k, klt k k = false.
Hypothesis klt_trans :
  forall a b c, klt a b = true -> klt b c = true -> klt a c = true.

Lemma insert_key_In (k x : K) (ks : list K) :
  In x (Pandas.insert_key klt k ks) -> x = k \/ In x ks.
Proof.
  induction ks as [| h t IH]; cbn.
  - intros [H | []]. left. symmetry. exact H.
  - destruct (klt k h).
    + intros [H | H]; [left; symmetry; exact H | right; exact H].
    + destruct (klt h k).
      * intros [H | H]; [right; left; exact H |].
        destruct (IH H); [left | right; right]; assumption.
      * intro H. right. exact H.
Qed.

Lemma unique_sorted_In (x : K) (ks : list K) :
  In x (Pandas.unique_sorted klt ks) -> In x ks.
Proof.
  induction ks as [| k ks IH]; cbn; [intros [] |].
  intro H. apply insert_key_In in H. destruct H as [-> | H]; [left | right]; auto.
Qed.

Lemma insert_key_sorted (k : K) (ks : list K) :
  StronglySorted (fun a b => klt a b = true) ks ->
  StronglySorted (fun a b => klt a b = true) (Pandas.insert_key klt k ks).
Proof.
  induction ks as [| h t IH]; intro Hs; cbn.
  - constructor; constructor.
  - inversion Hs as [| ? ? Ht Hh]; subst.
    destruct (klt k h) eqn:E1.
    + constructor; [exact Hs |]. constructor; [exact E1 |].
      eapply Forall_impl; [| exact Hh]. intros a Ha. eapply klt_trans; eauto.
    + destruct (klt h k) eqn:E2; [| exact Hs].
      constructor; [apply IH; exact Ht |].
      apply Forall_forall. intros x Hx. apply insert_key_In in Hx.
      destruct Hx as [-> | Hx]; [exact E2 |].
      rewrite Forall_forall in Hh. apply Hh. exact Hx.
Qed.

Lemma unique_sorted_sorted (ks : list K) :
  StronglySorted (fun a b => klt a b = true) (Pandas.unique_sorted klt ks).
Proof.
  induction ks as [| k ks IH]; cbn; [constructor |].
  apply insert_key_sorted. exact IH.
Qed.

Lemma keys_of_In (key : A -> option K) (rows : list A) (k : K) :
  In k (Pandas.keys_of key rows) <-> exists r, In r rows /\ key r = Some k.
Proof.
  unfold Pandas.keys_of. rewrite in_flat_map. split.
  - intros (r & Hr & Hk). exists r. split; [exact Hr |].
    destruct (key r) as [k' |]; [| contradiction].
    destruct Hk as [-> | []]. reflexivity.
  - intros (r & Hr & Hk). exists r. split; [exact Hr |].
    rewrite Hk. left. reflexivity.
Qed.

Lemma insert_key_keeps (k x : K) (ks : list K) :
  In x ks -> In x (Pandas.insert_key klt k ks).
Proof.
  induction ks as [| h t IH]; cbn; [intros [] |].
  intro H. destruct (klt k h); [right; exact H |].
  destruct (klt h k); [| exact H].
  destruct H as [-> | H]; [left; reflexivity | right; apply IH; exact H].
Qed.

Lemma insert_key_covers (k : K) (ks : list K) :
  exists y, In y (Pandas.insert_key klt k ks) /\ Pandas.keq klt k y = true.
Proof.
  induction ks as [| h t IH]; cbn.
  - exists k. split; [left; reflexivity |].
    unfold Pandas.keq. rewrite klt_irrefl. reflexivity.
  - destruct (klt k h) eqn:E1.
    + exists k. split; [left; reflexivity |].
      unfold Pandas.keq. rewrite klt_irrefl. reflexivity.
    + destruct (klt h k) eqn:E2.
      * destruct IH as (y & Hy & Hk). exists y. split; [right; exact Hy | exact Hk].
      * exists h. split; [left; reflexivity |].
        unfold Pandas.keq. rewrite E1, E2. reflexivity.
Qed.

Lemma unique_sorted_covers (x : K) (ks : list K) :
  In x ks ->
  exists y, In y (Pandas.unique_sorted klt ks) /\ Pandas.keq klt x y = true.
Proof.
  induction ks as [| k ks IH]; cbn; [intros [] |].
  intros [-> | H].
  - apply insert_key_covers.
  - destruct (IH H) as (y & Hy & Hk). exists y.
    split; [apply insert_key_keeps; exact Hy | exact Hk].
Qed.

(** Every row with a key is in one of the groups. *)
Lemma groupby_covers (key : A -> option K) (rows : list A) (r : A) (k : K) :
  In r rows -> key r = Some k ->
  exists g, In g (Pandas.groupby klt key rows) /\
            In r (filter (Pandas.has_key klt key (fst g)) rows).
Proof.
  intros Hr Hk.
  destruct (@unique_sorted_covers k (Pandas.keys_of key rows)) as (y & Hy & Hky).
  { apply keys_of_In. exists r. split; assumption. }
  exists (y, filter (Pandas.has_key klt key y) rows). split.
  - unfold Pandas.groupby. apply in_map_iff. exists y. split; [reflexivity | exact Hy].
  - cbn [fst]. apply filter_In. split; [exact Hr |].
    unfold Pandas.has_key. rewrite Hk. exact Hky.
Qed.

(** Every group of a [groupby] has the key of one of its rows, holds
    exactly the rows with that key, and is not empty. *)
Lemma groupby_group (key : A -> option K) (rows : list A) (g : K * list A) :
  In g (Pandas.groupby klt key rows) ->
  snd g = filter (Pandas.has_key klt key (fst g)) rows /\
  exists r, In r (snd g) /\ In r rows /\ key r = Some (fst g).
Proof.
  unfold Pandas.groupby. intro H. apply in_map_iff in H.
  destruct H as (k & <- & Hk). cbn [fst snd]. split; [reflexivity |].
  apply unique_sorted_In, keys_of_In in Hk. destruct Hk as (r & Hr & Hkey).
  exists r. split; [| split; assumption].
  apply filter_In. split; [exact Hr |].
  unfold Pandas.has_key, Pandas.keq. rewrite Hkey, klt_irrefl. reflexivity.
Qed.

(** The keys of a [groupby] ascend strictly. *)
Lemma groupby_sorted (key : A -> option K) (rows : list A) :
  StronglySorted (fun a b => klt a b = true)
                 (map fst (Pandas.groupby klt key rows)).
Proof.
  unfold Pandas.groupby. rewrite map_map. cbn [fst]. rewrite map_id.
  apply unique_sorted_sorted.
Qed.

End GroupByFacts.

Section GroupByCombine.
Variables K A B : Type.
Variable klt : K -> K -> bool.

(** Grouping the rows zipped with a key column is grouping the rows by
    the function that computed the column. *)
Lemma groupby_combine_map (X : Type) (key : X -> option K)
    (k : A -> X) (g : A -> B) (d : list A) :
  Pandas.groupby klt (fun kr => key (fst kr)) (List.combine (map k d) (map g d))
  = map (fun kg => (fst kg, map (fun r => (k r, g r)) (snd kg)))
        (Pandas.groupby klt (fun r => key (k r)) d).
Proof.
  unfold Pandas.groupby. rewrite map_map. cbn [fst snd].
  assert (Hk : Pandas.keys_of (fun kr : X * B => key (fst kr))
                 (List.combine (map k d) (map g d))
               = Pandas.keys_of (fun r => key (k r)) d).
  { unfold Pandas.keys_of. induction d as [| r d IH]; cbn; [reflexivity |].
    rewrite IH. reflexivity. }
  rewrite Hk. clear Hk. apply map_ext. intro x. f_equal.
  unfold Pandas.has_key. induction d as [| r d IH]; cbn; [reflexivity |].
  destruct (key (k r)) as [k' |]; [destruct (Pandas.keq klt k' x) |];
    cbn; rewrite IH; reflexivity.
Qed.

End GroupByCombine.

(** ** The mean of finite values *)

Section FiniteMean.

Lemma sum_Fin (qs : list Q) (a : Q) :
  fold_left Num.add (map Fin qs) (Fin a) = Fin (fold_left Qplus qs a).
Proof.
  revert a. induction qs as [| q qs IH]; intro a; cbn; [reflexivity | apply IH].
Qed.

(** On finite values [mean] is the sum over the count. *)
Lemma mean_Fin (q : Q) (qs : list Q) :
  Pandas.mean (map Fin (q :: qs))
  = Fin (fold_left Qplus (q :: qs) 0%Q / inject_Z (Z.of_nat (length (q :: qs)))).
Proof.
  unfold Pandas.mean.
  assert (Hd : Pandas.dropna (map Fin (q :: qs)) = map Fin (q :: qs)).
  { generalize (q :: qs). intro l. induction l as [| x l IH]; cbn; [reflexivity |].
    f_equal. exact IH. }
  rewrite Hd. cbn [map]. unfold Pandas.sum.
  change (Fin q :: map Fin qs) with (map Fin (q :: qs)).
  rewrite sum_Fin, length_map. cbn [map].
  unfold Num.div, of_Z.
  assert (E : Qeq_bool (inject_Z (Z.of_nat (length (q :: qs)))) 0%Q = false).
  { apply Qeq_bool_false_iff. intro H.
    assert (Hpos : (0 < inject_Z (Z.of_nat (length (q :: qs))))%Q).
    { change 0%Q with (inject_Z 0). rewrite <- Zlt_Qlt. cbn [length]. lia. }
    lra. }
  rewrite E. reflexivity.
Qed.

End FiniteMean.

(** ** Wind-speed aggregation *)

Ltac run_store :=
  unfold PPF.Frame, WA.Frame in *;
  unfold Store.bind, Store.load, Store.alloc, Store.save, Store.lift, Store.ret;
  repeat first
    [ rewrite nth_error_new
    | rewrite update_new
    | rewrite assign_map
    | progress cbn [of_option fst snd] ].

Section WindSpeed.

Lemma ppf_process_wind_speed_data_run (s : Store.store PPF.Frame) (df : PPF.ref)
    (d : PPF.Frame) :
  nth_error s df = Some d ->
  PPF.process_wind_speed_data df s
  = (Ok (map ppf_wind_group
           (Pandas.groupby Num.ltb ppf_wind_key (filter ppf_cut_in d))),
     s ++ [map (fun r => PPF.set_WSD_rounded r (round_decimals 1 (WSD (PPF.sample r))))
               (filter ppf_cut_in d)]).
Proof.
  intro Hd. unfold PPF.process_wind_speed_data. run_store. rewrite Hd. run_store.
  fold ppf_cut_in.
  rewrite (@column_map _ _ PPF.WSD_rounded _
             (fun r => round_decimals 1 (WSD (PPF.sample r)))) by reflexivity.
  run_store.
  rewrite groupby_combine_map, map_map. do 2 f_equal.
  apply map_ext. intros [k rows]. unfold PPF.wind_agg, ppf_wind_group. cbn [fst snd].
  rewrite !map_map. reflexivity.
Qed.

Lemma wa_process_wind_speed_data_run (s : Store.store WA.Frame) (df : WA.ref)
    (d : WA.Frame) :
  nth_error s df = Some d ->
  WA.process_wind_speed_data df s
  = (Ok (map wa_wind_group (Pandas.groupby Num.ltb wa_wind_key d)),
     Store.update s df (map (fun r => WA.set_WSD_rounded r (wa_wind_value r)) d)).
Proof.
  intro Hd. unfold WA.process_wind_speed_data. run_store. rewrite Hd. run_store.
  rewrite nth_error_update_same by (eapply nth_error_valid; exact Hd).
  run_store.
  rewrite (@column_map _ _ WA.WSD_rounded _ wa_wind_value) by reflexivity.
  run_store.
  rewrite groupby_combine_map, map_map. do 2 f_equal.
  apply map_ext. intros [k rows]. unfold WA.wind_agg, wa_wind_group. cbn [fst snd].
  rewrite !map_map. reflexivity.
Qed.

Lemma isnan_num_key (x : num) : isnan x = false -> Pandas.num_key x = Some x.
Proof. unfold Pandas.num_key. intros ->. reflexivity. Qed.

Lemma num_key_Some (x k : num) : Pandas.num_key x = Some k -> k = x.
Proof. unfold Pandas.num_key. destruct (isnan x); [discriminate | congruence]. Qed.

Lemma wa_wind_value_not_nan (r : WA.Row) :
  isnan (WSD (WA.sample r)) = false -> isnan (wa_wind_value r) = false.
Proof.
  unfold wa_wind_value. destruct (WSD (WA.sample r)); try discriminate;
    intros _; reflexivity.
Qed.

End WindSpeed.




(** ** Means *)

Section MeanFacts.

Lemma dropna_finite (l : list num) :
  (forall x, In x l -> exists q, x = Fin q) -> Pandas.dropna l = l.
Proof.
  induction l as [| x l IH]; intro H; cbn; [reflexivity |].
  destruct (H x (or_introl eq_refl)) as (q & ->). cbn. f_equal.
  apply IH. intros y Hy. apply H. right. exact Hy.
Qed.

Lemma sum_bound (b : Q) (l : list num) :
  (forall x, In x l -> exists q, x = Fin q /\ (q < b)%Q) ->
  forall a, exists t, fold_left Num.add l (Fin a) = Fin t /\
                      (t <= a + inject_Z (Z.of_nat (length l)) * b)%Q.
Proof.
  induction l as [| x l IH]; intros H a; cbn [fold_left length].
  - exists a. split; [reflexivity |]. change (inject_Z (Z.of_nat 0)) with 0%Q. lra.
  - destruct (H x (or_introl eq_refl)) as (q & -> & Hq). cbn [Num.add].
    destruct (IH (fun y Hy => H y (or_intror Hy)) (a + q)%Q) as (t & Ht & Hb).
    exists t. split; [exact Ht |].
    rewrite Nat2Z.inj_succ, <- Z.add_1_r, inject_Z_plus.
    change (inject_Z 1) with 1%Q. lra.
Qed.

(** The mean of finite values below [b], at least one, is finite and
    below [b]. *)
Lemma mean_below (b : Q) (l : list num) :
  l <> [] ->
  (forall x, In x l -> exists q, x = Fin q /\ (q < b)%Q) ->
  exists m, Pandas.mean l = Fin m /\ (m < b)%Q.
Proof.
  intros Hne H. unfold Pandas.mean.
  rewrite dropna_finite by (intros x Hx; destruct (H x Hx) as (q & -> & _); eauto).
  destruct l as [| x l]; [contradiction |].
  destruct (H x (or_introl eq_refl)) as (q & -> & Hq).
  unfold Pandas.sum. cbn [fold_left Num.add].
  destruct (sum_bound b l (fun y Hy => H y (or_intror Hy)) (0 + q)%Q) as (t & -> & Hb).
  set (n := inject_Z (Z.of_nat (length (Fin q :: l)))).
  assert (Hn : (n == inject_Z (Z.of_nat (length l)) + 1)%Q).
  { unfold n. cbn [length]. rewrite Nat2Z.inj_succ, <- Z.add_1_r, inject_Z_plus.
    reflexivity. }
  assert (Hpos : (0 <= inject_Z (Z.of_nat (length l)))%Q).
  { change 0%Q with (inject_Z 0). rewrite <- Zle_Qle. lia. }
  unfold Num.div, of_Z. fold n.
  assert (E : Qeq_bool n 0 = false) by (apply Qeq_bool_false_iff; lra).
  rewrite E. eexists. split; [reflexivity |].
  apply Qlt_shift_div_r; [lra |]. rewrite Hn. lra.
Qed.

End MeanFacts.

(** ** Power factors *)

Section PowerFactors.

Lemma rmap_total {A B} (f : A -> result B) (h : A -> B) (l : list A) :
  (forall x, f x = Ok (h x)) -> rmap f l = Ok (map h l).
Proof.
  intro H. induction l as [| x l IH]; cbn; [reflexivity |].
  rewrite H, IH. reflexivity.
Qed.

Lemma rmap_map {A B C} (f : B -> result C) (g : A -> B) (l : list A) :
  rmap f (map g l) = rmap (fun x => f (g x)) l.
Proof.
  induction l as [| x l IH]; cbn; [reflexivity |]. rewrite IH. reflexivity.
Qed.

Lemma filter_combine_map {A X B} (p : X -> bool) (k : A -> X) (g : A -> B)
    (d : list A) :
  filter (fun kr => p (fst kr)) (List.combine (map k d) (map g d))
  = map (fun r => (k r, g r)) (filter (fun r => p (k r)) d).
Proof.
  induction d as [| r d IH]; cbn; [reflexivity |].
  destruct (p (k r)); cbn; rewrite IH; reflexivity.
Qed.

Lemma calculate_power_factors_run (s : Store.store PPF.Frame) (df : PPF.ref)
    (d : PPF.Frame) :
  nth_error s df = Some d ->
  PPF.calculate_power_factors df s
  = (Ok (map ppf_factor_group
           (Pandas.groupby Num.ltb ppf_factor_key
              (filter ppf_below_one (filter ppf_producing d)))),
     (s ++ [map ppf_with_factor_columns (filter ppf_producing d)])
       ++ [map ppf_with_factor_columns
               (filter ppf_below_one (filter ppf_producing d))]).
Proof.
  intro Hd. unfold PPF.calculate_power_factors. run_store. rewrite Hd. run_store.
  fold ppf_producing. set (d1 := filter ppf_producing d).
  rewrite map_map.
  rewrite (column_map _ _ PPF.PWo_PWi _ ppf_ratio) by reflexivity.
  run_store.
  change (fun x : PPF.Row =>
            PPF.set_PWo_PWi (PPF.set_WSD_interval x (floor (WSD (PPF.sample x))))
              (PPF.Power_DC (PPF.set_WSD_interval x (floor (WSD (PPF.sample x)))) /
               PPF.Power_AC (PPF.set_WSD_interval x (floor (WSD (PPF.sample x)))))%num)
    with ppf_with_factor_columns.
  rewrite (filter_combine_map (fun x => (x <? c_1)%num) ppf_ratio
             ppf_with_factor_columns d1).
  fold ppf_below_one. rewrite map_map. cbn [snd].
  set (d2 := filter ppf_below_one d1).
  rewrite (column_map _ _ PPF.WSD_interval _
             (fun r => floor (WSD (PPF.sample r)))) by reflexivity.
  rewrite groupby_combine_map, rmap_map.
  erewrite rmap_total; [reflexivity |].
  intros [k rows]. unfold PPF.factor_agg, ppf_factor_group. cbn [fst snd].
  rewrite map_map. cbn [snd].
  rewrite (column_map _ _ PPF.PWo_PWi _ ppf_ratio) by reflexivity.
  reflexivity.
Qed.

(** The ratio of a producing row that passes the second filter is a finite
    number below one. *)
Lemma ratio_below_one (r : PPF.Row) :
  ppf_producing r = true -> ppf_below_one r = true ->
  exists q, ppf_ratio r = Fin q /\ (q < 1)%Q.
Proof.
  unfold ppf_producing, ppf_below_one, ppf_ratio, c_0, c_1.
  rewrite !andb_true_iff. intros [[_ Hdc] Hac].
  destruct (PPF.Power_DC r) as [a | | |], (PPF.Power_AC r) as [b | | |];
    try discriminate; cbn in Hdc, Hac |- *.
  - apply Qlt_bool_iff in Hac.
    assert (E : Qeq_bool b 0 = false) by (apply Qeq_bool_false_iff; lra).
    rewrite E. cbn. intro H. apply Qlt_bool_iff in H. eauto.
  - intros _. exists 0%Q. split; [reflexivity | lra].
  - apply Qlt_bool_iff in Hac.
    assert (E : Qlt_bool b 0 = false) by (apply Qlt_bool_false_iff; lra).
    rewrite E. discriminate.
Qed.

End PowerFactors.



(** ** Efficiency *)

Section Efficiency.

Lemma eqb_zero (x : num) :
  Num.eqb x c_0 = true -> exists q, x = Fin q /\ (q == 0)%Q.
Proof.
  destruct x as [q | | |]; try discriminate. cbn. intro H.
  apply Qeq_bool_iff in H. eauto.
Qed.

(** A quotient by zero, scaled by 100, is [inf] or [nan]. *)
Lemma div_zero_not_finite (x y : num) :
  Num.eqb y c_0 = true -> isfinite (x / y * c_100)%num = false.
Proof.
  intro H. apply eqb_zero in H. destruct H as (q & -> & Hq).
  assert (E : Qeq_bool q 0 = true) by (apply Qeq_bool_iff; exact Hq).
  assert (L : Qlt_bool q 0 = false) by (apply Qlt_bool_false_iff; lra).
  destruct x as [a | | |]; cbn; rewrite ?E, ?L; try reflexivity.
  destruct (Qsign a); reflexivity.
Qed.

Lemma zero_power_excluded (r : WA.Row) :
  Num.eqb (WA.Power_AC r) c_0 = true ->
  (WA.Efficiency r <? c_100)%num && (WA.Power_AC r >? c_0)%num = false.
Proof.
  intro H. apply eqb_zero in H. destruct H as (q & -> & Hq).
  apply andb_false_iff. right. cbn. apply Qlt_bool_false_iff. lra.
Qed.

Lemma error_analysis_run (s : Store.store WA.Frame) (df : WA.ref) (d : WA.Frame) :
  nth_error s df = Some d ->
  WA.error_analysis df s
  = (Ok match WA.timeline_of (status_intervals (timeline_input d)) with
        | Ok timeline => WA.Analysis (WA.avg_efficiency_of d) timeline
        | Raise e => WA.Error_in_analysis e
        end, s).
Proof.
  intro Hd. unfold WA.error_analysis. run_store. rewrite Hd. run_store.
  rewrite find_error_time_ranges_status_intervals.
  destruct (WA.timeline_of _); reflexivity.
Qed.

End Efficiency.



(** ** Reading the sheet *)

Section Reading.

Lemma py_index_head {A} (x : A) (l : list A) : py_index (x :: l) 0 = Ok x.
Proof. exact (py_index_middle A [] x l). Qed.

Lemma set_TM_same (s : Sample) : set_TM s (TM s) = s.
Proof. destruct s; reflexivity. Qed.

Lemma rmap_raise {A B} (f : A -> result B) (l : list A) (x : A) (e : exn) :
  In x l -> f x = Raise e -> exists e', rmap f l = Raise e'.
Proof.
  induction l as [| y l IH]; [intros [] |].
  intros [-> | Hin] Hx; cbn.
  - rewrite Hx. cbn. eauto.
  - destruct (f y); cbn; [| eauto].
    destruct (IH Hin Hx) as (e' & ->). cbn. eauto.
Qed.

Lemma rmap_defined {A B} (f : A -> result B) (l : list A) :
  (forall x, In x l -> exists y, f x = Ok y) -> exists ys, rmap f l = Ok ys.
Proof.
  induction l as [| x l IH]; intro H; cbn; [eauto |].
  destruct (H x (or_introl eq_refl)) as (y & ->).
  destruct (IH (fun z Hz => H z (or_intror Hz))) as (ys & ->). cbn. eauto.
Qed.

Lemma Forall2_nth_error {A B} (P : A -> B -> Prop) (l : list A) (l' : list B) :
  Forall2 P l l' ->
  forall i x, nth_error l i = Some x -> exists y, nth_error l' i = Some y /\ P x y.
Proof.
  induction 1 as [| a b l l' Hab _ IH]; intros [| i] x; cbn; try discriminate.
  - intros [= <-]. eauto.
  - apply IH.
Qed.

Lemma wa_converted_rows conv rho dia h (sheet : list Sample) (tm : list tm_cell) :
  rmap (fun r => of_option ValueError (conv (TM (WA.sample r))))
       (map (WA.derive rho dia h) sheet) = Ok tm ->
  Forall2 (wa_read_row conv true rho dia h) sheet
          (assign (fun r c => WA.set_sample r (set_TM (WA.sample r) c))
                  (map (WA.derive rho dia h) sheet) tm).
Proof.
  revert tm. induction sheet as [| s sheet IH]; intros tm; cbn.
  - intros [= <-]. constructor.
  - destruct (conv (TM s)) as [c |] eqn:Ec; [| discriminate]. cbn.
    destruct (rmap _ (map (WA.derive rho dia h) sheet)) as [tm' |]; [| discriminate].
    cbn. intros [= <-]. unfold assign. cbn. constructor.
    + exists c. split; [reflexivity | exact Ec].
    + apply IH. reflexivity.
Qed.

Lemma wa_plain_rows conv rho dia h (sheet : list Sample) :
  Forall2 (wa_read_row conv false rho dia h) sheet (map (WA.derive rho dia h) sheet).
Proof.
  induction sheet as [| s sheet IH]; cbn; constructor; [| exact IH].
  exists (TM s). split; [| reflexivity]. rewrite set_TM_same. reflexivity.
Qed.

(** The frame that [read_and_process_data] returns, row by row. *)
Lemma wa_read_rows conv (sheet : list Sample) rho dia h (df : WA.Frame) :
  WA.read_and_process_data conv sheet rho dia h = Ok df ->
  Forall2 (wa_read_row conv (first_is_str sheet) rho dia h) sheet df.
Proof.
  unfold WA.read_and_process_data. destruct sheet as [| s0 rest]; [discriminate |].
  cbn [map]. rewrite py_index_head. cbn [rbind WA.derive WA.sample first_is_str].
  destruct (is_str (TM s0)).
  - destruct (rmap _ _) as [tm |] eqn:E; [| discriminate]. cbn [rbind].
    intros [= <-]. apply (wa_converted_rows conv rho dia h (s0 :: rest) tm). exact E.
  - intros [= <-]. apply (wa_plain_rows conv rho dia h (s0 :: rest)).
Qed.

Lemma ppf_converted_rows conv (sheet : list Sample) (tm : list tm_cell) :
  rmap (fun r => of_option ValueError (conv (TM (PPF.sample r))))
       (map PPF.derive sheet) = Ok tm ->
  Forall2 (ppf_read_row conv true) sheet
          (assign (fun r c => PPF.set_sample r (set_TM (PPF.sample r) c))
                  (map PPF.derive sheet) tm).
Proof.
  revert tm. induction sheet as [| s sheet IH]; intros tm; cbn.
  - intros [= <-]. constructor.
  - destruct (conv (TM s)) as [c |] eqn:Ec; [| discriminate]. cbn.
    destruct (rmap _ (map PPF.derive sheet)) as [tm' |]; [| discriminate].
    cbn. intros [= <-]. unfold assign. cbn. constructor.
    + exists c. split; [reflexivity | exact Ec].
    + apply IH. reflexivity.
Qed.

Lemma ppf_plain_rows conv (sheet : list Sample) :
  Forall2 (ppf_read_row conv false) sheet (map PPF.derive sheet).
Proof.
  induction sheet as [| s sheet IH]; cbn; constructor; [| exact IH].
  exists (TM s). split; [| reflexivity]. rewrite set_TM_same. reflexivity.
Qed.

Lemma ppf_read_rows conv (sheet : list Sample) (df : PPF.Frame) :
  PPF.read_and_process_data conv sheet = Ok df ->
  Forall2 (ppf_read_row conv (first_is_str sheet)) sheet df.
Proof.
  unfold PPF.read_and_process_data. destruct sheet as [| s0 rest]; [discriminate |].
  cbn [map]. rewrite py_index_head. cbn [rbind PPF.derive PPF.sample first_is_str].
  destruct (is_str (TM s0)).
  - destruct (rmap _ _) as [tm |] eqn:E; [| discriminate]. cbn [rbind].
    intros [= <-]. apply (ppf_converted_rows conv (s0 :: rest) tm). exact E.
  - intros [= <-]. apply (ppf_plain_rows conv (s0 :: rest)).
Qed.

(** [np.sqrt(3)] squares to 3 within [10^-15]. *)
Lemma sqrt3_square : (Qabs (sqrt3 * sqrt3 - 3) < 1 # 1000000000000000)%Q.
Proof. reflexivity. Qed.

End Reading.



(** C10. Whether [read_and_process_data] converts the [TM] column is
    decided by its first cell alone, in both scripts.  When the first cell
    is a string the conversion is applied to the cell of every row, and the
    read fails as a whole if it fails on one of them; when the first cell
    is not a string no cell of any row is converted, so a column that mixes
    strings with times of day stays as it is. *)
Theorem tm_column_conversion :
  forall conv (s0 : Sample) (rest : list Sample) rho dia h,
    let sheet := s0 :: rest in
    (is_str (TM s0) = true ->
       ((forall s, In s sheet -> conv (TM s) <> None) ->
          (exists df, WA.read_and_process_data conv sheet rho dia h = Ok df /\
             Forall2 (fun s r => conv (TM s) = Some (TM (WA.sample r))) sheet df) /\
          (exists df, PPF.read_and_process_data conv sheet = Ok df /\
             Forall2 (fun s r => conv (TM s) = Some (TM (PPF.sample r))) sheet df)) /\
       (forall s, In s sheet -> conv (TM s) = None ->
          (exists e, WA.read_and_process_data conv sheet rho dia h = Raise e) /\
          (exists e, PPF.read_and_process_data conv sheet = Raise e))) /\
    (is_str (TM s0) = false ->
       (exists df, WA.read_and_process_data conv sheet rho dia h = Ok df /\
          map (fun r => TM (WA.sample r)) df = map TM sheet) /\
       (exists df, PPF.read_and_process_data conv sheet = Ok df /\
          map (fun r => TM (PPF.sample r)) df = map TM sheet)).
Proof.
  intros conv s0 rest rho dia h sheet. split.
  - intro Hstr. split.
    + intro Hall. split.
      * destruct (rmap_defined
                    (fun r => of_option ValueError (conv (TM (WA.sample r))))
                    (map (WA.derive rho dia h) sheet)) as (tm & Htm).
        { intros r Hr. apply in_map_iff in Hr. destruct Hr as (s & <- & Hs).
          cbn [WA.derive WA.sample]. specialize (Hall s Hs).
          destruct (conv (TM s)); [cbn; eauto | contradiction]. }
        assert (Hread : WA.read_and_process_data conv sheet rho dia h
                        = Ok (assign (fun r c => WA.set_sample r (set_TM (WA.sample r) c))
                                (map (WA.derive rho dia h) sheet) tm)).
        { unfold WA.read_and_process_data, sheet in *. cbn [map].
          rewrite py_index_head. cbn [rbind WA.derive WA.sample].
          rewrite Hstr. cbn [map WA.derive WA.sample] in Htm. rewrite Htm.
          reflexivity. }
        eexists. split; [exact Hread |].
        eapply Forall2_impl; [| exact (wa_read_rows conv sheet rho dia h _ Hread)].
        intros s r (c & -> & Hc). cbn [first_is_str sheet] in Hc.
        rewrite Hstr in Hc. exact Hc.
      * destruct (rmap_defined
                    (fun r => of_option ValueError (conv (TM (PPF.sample r))))
                    (map PPF.derive sheet)) as (tm & Htm).
        { intros r Hr. apply in_map_iff in Hr. destruct Hr as (s & <- & Hs).
          cbn [PPF.derive PPF.sample]. specialize (Hall s Hs).
          destruct (conv (TM s)); [cbn; eauto | contradiction]. }
        assert (Hread : PPF.read_and_process_data conv sheet
                        = Ok (assign (fun r c => PPF.set_sample r (set_TM (PPF.sample r) c))
                                (map PPF.derive sheet) tm)).
        { unfold PPF.read_and_process_data, sheet in *. cbn [map].
          rewrite py_index_head. cbn [rbind PPF.derive PPF.sample].
          rewrite Hstr. cbn [map PPF.derive PPF.sample] in Htm. rewrite Htm.
          reflexivity. }
        eexists. split; [exact Hread |].
        eapply Forall2_impl; [| exact (ppf_read_rows conv sheet _ Hread)].
        intros s r (c & -> & Hc). cbn [first_is_str sheet] in Hc.
        rewrite Hstr in Hc. exact Hc.
    + intros s Hs Hnone. split.
      * destruct (rmap_raise
                    (fun r => of_option ValueError (conv (TM (WA.sample r))))
                    (map (WA.derive rho dia h) sheet) (WA.derive rho dia h s) ValueError)
          as (e & He).
        { apply in_map. exact Hs. }
        { cbn [WA.derive WA.sample]. rewrite Hnone. reflexivity. }
        exists e. unfold WA.read_and_process_data, sheet in *. cbn [map].
        rewrite py_index_head. cbn [rbind WA.derive WA.sample].
        rewrite Hstr. cbn [map WA.derive WA.sample] in He. rewrite He. reflexivity.
      * destruct (rmap_raise
                    (fun r => of_option ValueError (conv (TM (PPF.sample r))))
                    (map PPF.derive sheet) (PPF.derive s) ValueError)
          as (e & He).
        { apply in_map. exact Hs. }
        { cbn [PPF.derive PPF.sample]. rewrite Hnone. reflexivity. }
        exists e. unfold PPF.read_and_process_data, sheet in *. cbn [map].
        rewrite py_index_head. cbn [rbind PPF.derive PPF.sample].
        rewrite Hstr. cbn [map PPF.derive PPF.sample] in He. rewrite He. reflexivity.
  - intro Hstr. split.
    + exists (map (WA.derive rho dia h) sheet). split.
      * unfold WA.read_and_process_data, sheet. cbn [map].
        rewrite py_index_head. cbn [rbind WA.derive WA.sample].
        rewrite Hstr. reflexivity.
      * rewrite map_map. reflexivity.
    + exists (map PPF.derive sheet). split.
      * unfold PPF.read_and_process_data, sheet. cbn [map].
        rewrite py_index_head. cbn [rbind PPF.derive PPF.sample].
        rewrite Hstr. reflexivity.
      * rewrite map_map. reflexivity.
Qed.


(** The statement at a column of strings, at a column that starts with a
    time of day and goes on with a string, and at a column that starts with
    a string and goes on with a time of day. *)
Lemma tm_column_conversion_witness :
  (exists df,
     WA.read_and_process_data strict_HMS text_sheet
       (Fin (1225 # 1000)) (Fin 10) (Fin 10) = Ok df /\
     Forall2 (fun s r => strict_HMS (TM s) = Some (TM (WA.sample r))) text_sheet df) /\
  (exists df,
     WA.read_and_process_data strict_HMS mixed_sheet
       (Fin (1225 # 1000)) (Fin 10) (Fin 10) = Ok df /\
     map (fun r => TM (WA.sample r)) df = map TM mixed_sheet) /\
  (exists e,
     PPF.read_and_process_data strict_HMS (rev mixed_sheet) = Raise e).
Proof.
  split; [| split].
  - refine (proj1 (proj1 (proj1
      (tm_column_conversion strict_HMS (set_TM calm_sample (TM_str "10:00:29"))
         [set_TM breeze_sample (TM_str "10:00:31")]
         (Fin (1225 # 1000)) (Fin 10) (Fin 10))
      eq_refl) _)).
    intros s [<- | [<- | []]]; discriminate.
  - exact (proj1 (proj2
      (tm_column_conversion strict_HMS calm_sample
         [set_TM breeze_sample (TM_str "10:00:31")]
         (Fin (1225 # 1000)) (Fin 10) (Fin 10))
      eq_refl)).
  - exact (proj2 (proj2 (proj1
      (tm_column_conversion strict_HMS (set_TM breeze_sample (TM_str "10:00:31"))
         [calm_sample] (Fin (1225 # 1000)) (Fin 10) (Fin 10))
      eq_refl) calm_sample (or_intror (or_introl eq_refl)) eq_refl)).
Defined.

(** ** Minutes *)

Section Minutes.

Lemma groupby_map {K A B} (klt : K -> K -> bool) (key : B -> option K)
    (h : A -> B) (l : list A) :
  Pandas.groupby klt key (map h l)
  = map (fun kg => (fst kg, map h (snd kg)))
        (Pandas.groupby klt (fun x => key (h x)) l).
Proof.
  unfold Pandas.groupby. rewrite map_map. cbn [fst snd].
  assert (Hk : Pandas.keys_of key (map h l) = Pandas.keys_of (fun x => key (h x)) l).
  { unfold Pandas.keys_of. induction l as [| x l IH]; cbn; [reflexivity |].
    rewrite IH. reflexivity. }
  rewrite Hk. clear Hk. apply map_ext. intro k. f_equal.
  unfold Pandas.has_key. induction l as [| x l IH]; cbn; [reflexivity |].
  destruct (key (h x)) as [k' |]; [destruct (Pandas.keq klt k' k) |];
    cbn; rewrite IH; reflexivity.
Qed.

Lemma column_maps {R A X} (get : R -> option A) (g : X -> R) (f : X -> A)
    (zs : list X) :
  (forall z, get (g z) = Some (f z)) -> column get (map g zs) = Ok (map f zs).
Proof.
  intro H. unfold column. induction zs as [| z zs IH]; cbn; [reflexivity |].
  rewrite H, IH. reflexivity.
Qed.

Lemma assign_maps {R A Z'} (set : R -> A -> R) (g : Z' -> R) (f : Z' -> A)
    (zs : list Z') :
  assign set (map g zs) (map f zs) = map (fun z => set (g z) (f z)) zs.
Proof.
  unfold assign. induction zs as [| z zs IH]; cbn; [reflexivity |].
  f_equal. exact IH.
Qed.

Lemma process_time_data_run today pd (s : Store.store WA.Frame) (df : WA.ref)
    (d : WA.Frame) :
  nth_error s df = Some d ->
  WA.process_time_data today pd df s
  = match wa_instants today pd d with
    | Ok instants =>
        (Ok (map wa_time_group
               (Pandas.groupby Z.ltb rounded_minute (List.combine d instants))),
         s ++ [map (fun rv => WA.set_minute (WA.set_minute (fst rv) (snd rv))
                                (dt_round ns_per_minute (snd rv)))
                   (List.combine d instants)])
    | Raise e => (Raise (Exception_ e), s ++ [d])
    end.
Proof.
  intro Hd. unfold WA.process_time_data, Store.reraise, wa_instants.
  run_store. rewrite Hd. run_store.
  destruct (py_index _ 0) as [first | e]; cbn [rbind]; [| reflexivity].
  match goal with
  | |- context [match ?b with Ok _ => _ | Raise _ => _ end] =>
      match b with
      | (if is_time first then _ else _) => destruct b as [instants | e]
      end
  end; [| reflexivity].
  change (assign WA.set_minute d instants)
    with (map (fun rv : WA.Row * Z => WA.set_minute (fst rv) (snd rv))
              (List.combine d instants)).
  set (zs := List.combine d instants).
  run_store.
  rewrite (column_maps WA.col_minute
             (fun rv : WA.Row * Z => WA.set_minute (fst rv) (snd rv))
             snd zs) by reflexivity.
  rewrite map_map.
  rewrite (assign_maps WA.set_minute
             (fun rv : WA.Row * Z => WA.set_minute (fst rv) (snd rv))
             (fun rv => dt_round ns_per_minute (snd rv)) zs).
  run_store.
  rewrite (column_maps WA.col_minute
             (fun rv : WA.Row * Z =>
                WA.set_minute (WA.set_minute (fst rv) (snd rv))
                  (dt_round ns_per_minute (snd rv)))
             (fun rv => dt_round ns_per_minute (snd rv)) zs) by reflexivity.
  rewrite (groupby_combine_map _ _ _ Z.ltb _ (fun k : Z => Some k)), map_map.
  do 2 f_equal. apply map_ext. intros [k rows].
  unfold WA.time_agg, wa_time_group. cbn [fst snd]. rewrite !map_map. reflexivity.
Qed.

Lemma even_half (u : Z) : Z.even u = true -> u = 2 * (u / 2).
Proof.
  intro H. apply Z.even_spec in H. destruct H as (m & ->).
  rewrite (Z.mul_comm 2 m), Z.div_mul by lia. lia.
Qed.

Lemma dt_round_multiple (u x : Z) : 0 < u -> dt_round u x mod u = 0.
Proof. intro H. unfold dt_round. apply Z.mod_mul. lia. Qed.

Lemma dt_round_nearest (u x : Z) :
  0 < u -> Z.even u = true -> 2 * Z.abs (dt_round u x - x) <= u.
Proof.
  intros Hu He. unfold dt_round.
  pose proof (Z.div_mod x u ltac:(lia)) as Hx.
  pose proof (Z.mod_pos_bound x u Hu) as Hr.
  pose proof (even_half u He) as Hh.
  set (q := x / u) in *. set (r := x mod u) in *. set (h := u / 2) in *.
  destruct (h <? r) eqn:E1; cbn [orb].
  - apply Z.ltb_lt in E1. nia.
  - apply Z.ltb_ge in E1. destruct (r =? h) eqn:E2; cbn [andb].
    + apply Z.eqb_eq in E2. destruct (Z.odd q); nia.
    + nia.
Qed.

Lemma dt_round_tie (u x : Z) :
  0 < u -> x mod u = u / 2 -> Z.even (dt_round u x / u) = true.
Proof.
  intros Hu Ht. unfold dt_round. rewrite Ht, Z.ltb_irrefl, Z.eqb_refl. cbn [orb andb].
  destruct (Z.odd (x / u)) eqn:E; rewrite Z.div_mul by lia.
  - rewrite Z.add_1_r, Z.even_succ. exact E.
  - rewrite <- Z.negb_odd, E. reflexivity.
Qed.

(** Rounding commutes with a move by an even number of units. *)
Lemma dt_round_shift (u x m : Z) :
  0 < u -> dt_round u (x + 2 * m * u) = dt_round u x + 2 * m * u.
Proof.
  intro Hu. unfold dt_round.
  rewrite Z.div_add, Z.mod_add by lia.
  replace (x / u + 2 * m) with (x / u + 2 * m) by reflexivity.
  rewrite Z.odd_add_mul_2.
  destruct ((u / 2 <? x mod u) || ((x mod u =? u / 2) && Z.odd (x / u))); ring.
Qed.

Lemma dt_round_day (day : Z) (t : time) :
  dt_round ns_per_minute (datetime_combine day t)
  = datetime_combine day (mk_time 0 0 0 0) + dt_round ns_per_minute (time_ns t).
Proof.
  unfold datetime_combine.
  replace (day * ns_per_day + time_ns t)
    with (time_ns t + 2 * (720 * day) * ns_per_minute)
    by (unfold ns_per_day, ns_per_minute; ring).
  rewrite dt_round_shift by reflexivity.
  unfold ns_per_day, ns_per_minute, time_ns. cbn [hour minute second microsecond].
  ring.
Qed.

Lemma dt_round_time (day : Z) (t t' : time) :
  dt_round ns_per_minute (time_ns t) = time_ns t' ->
  dt_round ns_per_minute (datetime_combine day t) = datetime_combine day t'.
Proof.
  intro H. rewrite dt_round_day, H. unfold datetime_combine.
  unfold time_ns at 1. cbn [hour minute second microsecond]. ring.
Qed.

Lemma keq_Z (a b : Z) : Pandas.keq Z.ltb a b = (a =? b).
Proof.
  unfold Pandas.keq.
  destruct (Z.ltb_spec a b), (Z.ltb_spec b a), (Z.eqb_spec a b);
    cbn; try reflexivity; lia.
Qed.

Lemma Zltb_trans (a b c : Z) : (a <? b) = true -> (b <? c) = true -> (a <? c) = true.
Proof. rewrite !Z.ltb_lt. lia. Qed.

Lemma sorted_ltb_lt (l : list Z) :
  StronglySorted (fun a b => (a <? b) = true) l -> StronglySorted Z.lt l.
Proof.
  induction 1 as [| a l _ IH Hall]; constructor; [exact IH |].
  eapply Forall_impl; [| exact Hall]. intros b Hb. apply Z.ltb_lt. exact Hb.
Qed.

Lemma combine_map_r {A B} (f : A -> B) (l : list A) :
  List.combine l (map f l) = map (fun x => (x, f x)) l.
Proof. induction l as [| x l IH]; cbn; [reflexivity | rewrite IH; reflexivity]. Qed.

Lemma rmapi_times (day : Z) (d : WA.Frame) :
  Forall (fun r => is_time (TM (WA.sample r)) = true) d ->
  forall i, rmapi_from i (WA.combine_time (fun _ => day))
                       (map (fun r => TM (WA.sample r)) d)
            = Ok (map (wa_instant day) d).
Proof.
  induction 1 as [| r d Hr _ IH]; intro i; cbn; [reflexivity |].
  unfold wa_instant at 1. destruct (TM (WA.sample r)); try discriminate.
  cbn. rewrite IH. reflexivity.
Qed.

Lemma wa_instants_times (day : Z) pd (d : WA.Frame) :
  d <> [] ->
  Forall (fun r => is_time (TM (WA.sample r)) = true) d ->
  wa_instants (fun _ => day) pd d = Ok (map (wa_instant day) d).
Proof.
  intros Hne Hall. unfold wa_instants.
  destruct d as [| r d']; [contradiction |].
  cbn [map]. rewrite py_index_head. cbn [rbind].
  inversion Hall as [| ? ? Hr _]; subst. rewrite Hr.
  apply (rmapi_times day (r :: d') Hall).
Qed.

(** The groups of [process_time_data] when every instant is known. *)
Lemma time_groups_of_instants (f : WA.Row -> Z) (d : WA.Frame) :
  map wa_time_group
      (Pandas.groupby Z.ltb rounded_minute (List.combine d (map f d)))
  = map (fun kg : Z * list WA.Row =>
           WA.mk_TimeGroup (fst kg)
             (Pandas.mean (map WA.Power_DC (snd kg)))
             (Pandas.mean (map WA.Power_AC (snd kg)))
             (Pandas.mean (map (fun r => WSD (WA.sample r)) (snd kg)))
             (Pandas.mean (map WA.Cp (snd kg))))
        (Pandas.groupby Z.ltb (fun r => Some (dt_round ns_per_minute (f r))) d).
Proof.
  rewrite combine_map_r, groupby_map, map_map.
  apply map_ext. intros [k rows]. unfold wa_time_group. cbn [fst snd].
  rewrite !map_map. reflexivity.
Qed.

End Minutes.





(** ** The clock *)

Section ClockFacts.

Lemma combine_map_snd {A B C} (g : B -> C) (l : list A) (l' : list B) :
  List.combine l (map g l') = map (fun p => (fst p, g (snd p))) (List.combine l l').
Proof.
  revert l'. induction l as [| x l IH]; intros [| y l']; cbn; try reflexivity.
  rewrite IH. reflexivity.
Qed.

Lemma insert_key_shift (delta k : Z) (ks : list Z) :
  Pandas.insert_key Z.ltb (k + delta) (map (fun x => x + delta) ks)
  = map (fun x => x + delta) (Pandas.insert_key Z.ltb k ks).
Proof.
  induction ks as [| h t IH]; cbn; [reflexivity |].
  replace (k + delta <? h + delta) with (k <? h)
    by (destruct (Z.ltb_spec k h), (Z.ltb_spec (k + delta) (h + delta)); lia).
  replace (h + delta <? k + delta) with (h <? k)
    by (destruct (Z.ltb_spec h k), (Z.ltb_spec (h + delta) (k + delta)); lia).
  destruct (k <? h); [reflexivity |].
  destruct (h <? k); [cbn; rewrite IH |]; reflexivity.
Qed.

Lemma unique_sorted_shift (delta : Z) (ks : list Z) :
  Pandas.unique_sorted Z.ltb (map (fun x => x + delta) ks)
  = map (fun x => x + delta) (Pandas.unique_sorted Z.ltb ks).
Proof.
  unfold Pandas.unique_sorted.
  induction ks as [| k ks IH]; cbn [map fold_right]; [reflexivity |].
  rewrite IH. apply insert_key_shift.
Qed.

Lemma groupby_ext {K A} (klt : K -> K -> bool) (key key' : A -> option K)
    (l : list A) :
  (forall x, key x = key' x) ->
  Pandas.groupby klt key l = Pandas.groupby klt key' l.
Proof.
  intro H. unfold Pandas.groupby.
  assert (Hk : Pandas.keys_of key l = Pandas.keys_of key' l).
  { unfold Pandas.keys_of. induction l as [| x l IH]; cbn; [reflexivity |].
    rewrite H, IH. reflexivity. }
  rewrite Hk. apply map_ext. intro k. f_equal.
  apply filter_ext. intro x. unfold Pandas.has_key. rewrite H. reflexivity.
Qed.

(** Moving every key by [delta] moves the groups and changes nothing else. *)
Lemma groupby_shift {A} (delta : Z) (k : A -> Z) (l : list A) :
  Pandas.groupby Z.ltb (fun x => Some (k x + delta)) l
  = map (fun kg => (fst kg + delta, snd kg))
        (Pandas.groupby Z.ltb (fun x => Some (k x)) l).
Proof.
  unfold Pandas.groupby. rewrite map_map. cbn [fst snd].
  assert (Hk : Pandas.keys_of (fun x => Some (k x + delta)) l
               = map (fun x => x + delta) (Pandas.keys_of (fun x => Some (k x)) l)).
  { unfold Pandas.keys_of. induction l as [| x l IH]; cbn; [reflexivity |].
    rewrite IH. reflexivity. }
  rewrite Hk, unique_sorted_shift, map_map. apply map_ext. intro y. f_equal.
  apply filter_ext. intro x. unfold Pandas.has_key. rewrite !keq_Z.
  destruct (Z.eqb_spec (k x + delta) (y + delta)), (Z.eqb_spec (k x) y);
    try reflexivity; lia.
Qed.

Lemma rmapi_time_shift (day1 day2 : Z) (cells : list tm_cell) :
  forall i,
    rmapi_from i (WA.combine_time (fun _ => day2)) cells
    = result_map (map (fun x => x + (day2 - day1) * ns_per_day))
                 (rmapi_from i (WA.combine_time (fun _ => day1)) cells).
Proof.
  induction cells as [| c cells IH]; intro i; cbn; [reflexivity |].
  destruct c; cbn; try reflexivity.
  rewrite IH. destruct (rmapi_from _ _ cells); cbn; [| reflexivity].
  unfold datetime_combine. do 2 f_equal.
  change ns_per_day with 86400000000000. ring.
Qed.

Lemma rmapi_datetime_shift (day1 day2 : Z) (cells : list tm_cell) :
  forall i,
    rmapi_from i (WA.combine_datetime (fun _ => day2)) cells
    = result_map (map (fun x => x + (day2 - day1) * ns_per_day))
                 (rmapi_from i (WA.combine_datetime (fun _ => day1)) cells).
Proof.
  induction cells as [| c cells IH]; intro i; cbn; [reflexivity |].
  destruct c; cbn; try reflexivity.
  rewrite IH. destruct (rmapi_from _ _ cells); cbn; [| reflexivity].
  unfold datetime_combine. do 2 f_equal.
  change ns_per_day with 86400000000000. ring.
Qed.

Lemma wa_instants_shift (day1 day2 : Z) pd (d : WA.Frame) :
  clock_column d = true ->
  wa_instants (fun _ => day2) pd d
  = result_map (map (fun x => x + (day2 - day1) * ns_per_day))
               (wa_instants (fun _ => day1) pd d).
Proof.
  unfold wa_instants, clock_column. destruct d as [| r d]; [reflexivity |].
  cbn [map]. rewrite py_index_head. cbn [rbind]. intro H.
  destruct (is_time (TM (WA.sample r))).
  - apply (rmapi_time_shift day1 day2 (TM (WA.sample r) :: _)).
  - cbn in H. rewrite H.
    apply (rmapi_datetime_shift day1 day2 (TM (WA.sample r) :: _)).
Qed.

(** The time groups of two instants columns that differ by whole days. *)
Lemma time_groups_shift (days : Z) (d : WA.Frame) (instants : list Z) :
  map wa_time_group
      (Pandas.groupby Z.ltb rounded_minute
         (List.combine d (map (fun x => x + days * ns_per_day) instants)))
  = shift_minutes (days * ns_per_day)
      (map wa_time_group
           (Pandas.groupby Z.ltb rounded_minute (List.combine d instants))).
Proof.
  rewrite combine_map_snd, groupby_map.
  unfold rounded_minute. cbn [snd].
  rewrite (groupby_ext Z.ltb _
             (fun x : WA.Row * Z =>
                Some (dt_round ns_per_minute (snd x) + days * ns_per_day))).
  2:{ intro x.
      replace (days * ns_per_day) with (2 * (720 * days) * ns_per_minute)
        by (unfold ns_per_day, ns_per_minute; ring).
      rewrite dt_round_shift by reflexivity. reflexivity. }
  rewrite groupby_shift. unfold shift_minutes. rewrite !map_map.
  apply map_ext. intros [k rows]. unfold wa_time_group. cbn [fst snd].
  rewrite !map_map. reflexivity.
Qed.

End ClockFacts.

(** ** The whole pipeline *)

Section Pipeline.

Lemma main_run conv today pd (sheet : list Sample) rho dia h
    (s : Store.store WA.Frame) :
  fst (WA.main conv today pd sheet rho dia h s)
  = match WA.read_and_process_data conv sheet rho dia h with
    | Raise e => Raise e
    | Ok frame =>
        let d := map (fun r => WA.set_WSD_rounded r (wa_wind_value r)) frame in
        match wa_instants today pd d with
        | Raise e => Raise (Exception_ e)
        | Ok instants =>
            Ok (map wa_wind_group (Pandas.groupby Num.ltb wa_wind_key frame),
                map wa_time_group
                    (Pandas.groupby Z.ltb rounded_minute (List.combine d instants)),
                match WA.timeline_of (status_intervals (timeline_input d)) with
                | Ok timeline => WA.Analysis (WA.avg_efficiency_of d) timeline
                | Raise e => WA.Error_in_analysis e
                end)
        end
    end.
Proof.
  unfold WA.main.
  unfold Store.bind at 1. unfold Store.lift at 1.
  destruct (WA.read_and_process_data conv sheet rho dia h) as [frame | e];
    [| reflexivity].
  unfold Store.bind at 1. unfold Store.alloc at 1.
  unfold Store.bind at 1.
  rewrite (wa_process_wind_speed_data_run (s ++ [frame]) (length s) frame
             (nth_error_new _ s frame)).
  rewrite update_new. cbv beta iota.
  set (d := map (fun r => WA.set_WSD_rounded r (wa_wind_value r)) frame).
  unfold Store.bind at 1.
  rewrite (process_time_data_run today pd _ _ d) by apply nth_error_new.
  cbv zeta.
  destruct (wa_instants today pd d) as [instants | e]; [| reflexivity].
  cbv beta iota. unfold Store.bind at 1.
  rewrite (error_analysis_run _ (length s) d).
  - reflexivity.
  - apply nth_error_old. apply nth_error_new.
Qed.

End Pipeline.

(** C8, counterexample.  The same sheet and constants, read on two
    different days, give two different outputs. *)
Lemma main_depends_on_the_day :
  fst (WA.main strict_HMS (fun _ => 20000) (fun _ => None) two_times_sheet
         (Fin (1225 # 1000)) (Fin 10) (Fin 10) [])
  <> fst (WA.main strict_HMS (fun _ => 20001) (fun _ => None) two_times_sheet
            (Fin (1225 # 1000)) (Fin 10) (Fin 10) []).
Proof. intro H. vm_compute in H. discriminate H. Qed.

(** C8, amended.  The output of the pipeline is a function of the sheet,
    the turbine constants and the date that [datetime.today()] returns
    while [process_time_data] runs.  On a sheet whose [TM] column holds
    times of day or datetimes, two runs that read the dates [day1] and
    [day2] return the same wind-speed table and the same analysis, and
    time tables that differ only in the minute keys, all moved by
    [day2 - day1] days; they fail on the same sheets with the same
    exception. *)
Theorem main_up_to_the_day :
  forall conv pd (sheet : list Sample) rho dia h (s : Store.store WA.Frame)
         (day1 day2 : Z),
    (forall frame, WA.read_and_process_data conv sheet rho dia h = Ok frame ->
                   clock_column frame = true) ->
    fst (WA.main conv (fun _ => day2) pd sheet rho dia h s)
    = result_map (shift_output ((day2 - day1) * ns_per_day))
        (fst (WA.main conv (fun _ => day1) pd sheet rho dia h s)).
Proof.
  intros conv pd sheet rho dia h s day1 day2 Hclock.
  rewrite !main_run.
  destruct (WA.read_and_process_data conv sheet rho dia h) as [frame | e];
    [| reflexivity].
  specialize (Hclock frame eq_refl). cbv zeta.
  set (d := map (fun r => WA.set_WSD_rounded r (wa_wind_value r)) frame).
  assert (Hd : clock_column d = true).
  { unfold d. destruct frame; [reflexivity | exact Hclock]. }
  rewrite (wa_instants_shift day1 day2 pd d Hd).
  destruct (wa_instants (fun _ => day1) pd d) as [instants | e]; [| reflexivity].
  cbn [result_map]. unfold shift_output. cbn [fst snd].
  rewrite time_groups_shift. reflexivity.
Qed.

(** The statement at the sheet with the samples at 10:00:29 and
    10:00:30.4, read on the days 20000 and 20001. *)
Lemma main_up_to_the_day_witness :
  fst (WA.main strict_HMS (fun _ => 20001) (fun _ => None) two_times_sheet
         (Fin (1225 # 1000)) (Fin 10) (Fin 10) [])
  = result_map (shift_output ((20001 - 20000) * ns_per_day))
      (fst (WA.main strict_HMS (fun _ => 20000) (fun _ => None) two_times_sheet
              (Fin (1225 # 1000)) (Fin 10) (Fin 10) [])).
Proof.
  apply (main_up_to_the_day strict_HMS (fun _ => None) two_times_sheet
           (Fin (1225 # 1000)) (Fin 10) (Fin 10) [] 20000 20001).
  intros frame H. vm_compute in H. injection H as <-. reflexivity.
Defined.


(** ** The caller's frame *)

Section CallerFrame.

(** The functions that work on a copy or on a selection leave the frame
    of the caller as it was. *)
Lemma frames_left_alone :
  (forall today pd (s : Store.store WA.Frame) (df : WA.ref) (d : WA.Frame),
     nth_error s df = Some d ->
     nth_error (snd (WA.process_time_data today pd df s)) df = Some d /\
     nth_error (snd (WA.error_analysis df s)) df = Some d) /\
  (forall (s : Store.store PPF.Frame) (df : PPF.ref) (d : PPF.Frame),
     nth_error s df = Some d ->
     nth_error (snd (PPF.process_wind_speed_data df s)) df = Some d /\
     nth_error (snd (PPF.calculate_power_factors df s)) df = Some d).
Proof.
  split.
  - intros today pd s df d Hd. split.
    + rewrite (process_time_data_run today pd s df d Hd).
      destruct (wa_instants today pd d); cbn [snd]; apply nth_error_old; exact Hd.
    + rewrite (error_analysis_run s df d Hd). exact Hd.
  - intros s df d Hd. split.
    + rewrite (ppf_process_wind_speed_data_run s df d Hd). cbn [snd].
      apply nth_error_old. exact Hd.
    + rewrite (calculate_power_factors_run s df d Hd). cbn [snd].
      apply nth_error_old, nth_error_old. exact Hd.
Qed.

(** The two functions that assign a column on the frame they receive
    change the frame of the caller. *)
Lemma frames_assigned :
  (forall (s : Store.store WA.Frame) (df : WA.ref) (d : WA.Frame),
     nth_error s df = Some d ->
     nth_error (snd (WA.process_wind_speed_data df s)) df
     = Some (map (fun r => WA.set_WSD_rounded r (wa_wind_value r)) d)) /\
  (forall (s : Store.store PPF.Frame) (df : PPF.ref) (d : PPF.Frame),
     nth_error s df = Some d ->
     nth_error (snd (PPF.error_analysis df s)) df
     = Some (map (fun r => PPF.set_Error_Name r
                             (dict_get (CODE_1 (PPF.sample r)) error_codes)) d)).
Proof.
  split.
  - intros s df d Hd. rewrite (wa_process_wind_speed_data_run s df d Hd). cbn [snd].
    apply nth_error_update_same. eapply nth_error_valid. exact Hd.
  - intros s df d Hd. unfold PPF.error_analysis. run_store. rewrite Hd. run_store.
    rewrite nth_error_update_same by (eapply nth_error_valid; exact Hd).
    run_store.
    rewrite (column_map _ _ PPF.Error_Name _
               (fun r => dict_get (CODE_1 (PPF.sample r)) error_codes))
      by reflexivity.
    cbn [snd]. apply nth_error_update_same. eapply nth_error_valid. exact Hd.
Qed.

End CallerFrame.

(** C9.  Two functions do change the frame they receive: after
    [process_wind_speed_data] of wind_analysis.py the frame of the caller
    has the column ['WSD_rounded'], which it did not have before, and after
    [error_analysis] of power_power_factor.py it has the column
    ['Error Name']. *)
Theorem caller_frame_gains_columns :
  (map WA.WSD_rounded calm_frame = [None] /\
   exists d, nth_error (snd (WA.process_wind_speed_data 0%nat [calm_frame])) 0
             = Some d /\
             map WA.WSD_rounded d = [Some (Fin (20 # 10))] /\
             d <> calm_frame) /\
  (map PPF.Error_Name breeze_frame = [None] /\
   exists d, nth_error (snd (PPF.error_analysis 0%nat [breeze_frame])) 0
             = Some d /\
             map PPF.Error_Name d
             = [Some (Some "Overcurrent during motor operation"%string)] /\
             d <> breeze_frame).
Proof.
  split.
  - split; [reflexivity |].
    eexists. split; [vm_compute; reflexivity |]. split; [reflexivity |].
    discriminate.
  - split; [reflexivity |].
    eexists. split; [vm_compute; reflexivity |]. split; [reflexivity |].
    discriminate.
Qed.

(* ================================================================== *)
(** * Further properties of the two scripts *)

(** ** The power coefficient on every input *)

Section PowerCoefficient.

Lemma clip_betz (x : num) :
  clip x c_0 c_0_593 = NaN \/
  exists c, clip x c_0 c_0_593 = Fin c /\ (0 <= c <= 593 # 1000)%Q.
Proof.
  destruct x as [q | | |].
  - right. destruct (clip_Fin q 0 (593 # 1000)) as (c & Hc & _ & Hb); [lra |].
    exists c. split; [exact Hc | exact Hb].
  - right. exists (593 # 1000)%Q. split; [reflexivity | lra].
  - right. exists 0%Q. split; [reflexivity | lra].
  - left. reflexivity.
Qed.

(** With a finite power the value that is clamped is a non-negative
    multiple of the power; the factor depends on the wind speed and the
    constants only. *)
Lemma cp_linear (w rho dia h : num) :
  exists k : Q, (0 <= k)%Q /\
    forall a : Q, exists x : Q,
      calculate_power_coefficient (Fin a) w rho dia h = clip (Fin x) c_0 c_0_593 /\
      (x == a * k)%Q.
Proof.
  unfold calculate_power_coefficient.
  set (den := (c_0_5 * rho * (h * dia) * np_where (w <? c_0_1)%num c_0_1 w ** 3)%num).
  unfold np_where at 1. unfold Num.gtb, c_0, c_1000.
  destruct den as [d | | |]; cbn [Num.ltb Num.mul].
  - destruct (Qlt_bool 0 d) eqn:E.
    + apply Qlt_bool_iff in E. exists (1000 / d)%Q. split.
      * apply Qle_shift_div_l; lra.
      * intro a. unfold Num.div.
        assert (E0 : Qeq_bool d 0 = false) by (apply Qeq_bool_false_iff; lra).
        rewrite E0. eexists. split; [reflexivity |]. field. lra.
    + exists 0%Q. split; [lra |]. intro a. exists 0%Q. split; [reflexivity | ring].
  - exists 0%Q. split; [lra |]. intro a. exists 0%Q. split; [reflexivity | ring].
  - exists 0%Q. split; [lra |]. intro a. exists 0%Q. split; [reflexivity | ring].
  - exists 0%Q. split; [lra |]. intro a. exists 0%Q. split; [reflexivity | ring].
Qed.

Lemma gtb_zero_denominator (den : num) :
  (den = NaN \/ exists d, den = Fin d /\ (d == 0)%Q) -> (den >? c_0)%num = false.
Proof.
  intros [-> | (d & -> & Hd)]; [reflexivity |].
  cbn. apply Qlt_bool_false_iff. lra.
Qed.

(** A product with a factor that is [nan] or zero is [nan] or zero. *)
Lemma mul_null_l (x y : num) :
  (x = NaN \/ exists d, x = Fin d /\ Qnum d = 0) ->
  (x * y)%num = NaN \/ exists d, (x * y)%num = Fin d /\ Qnum d = 0.
Proof.
  intros [-> | (d & -> & Hd)]; [left; reflexivity |].
  destruct y as [q | | |]; cbn.
  - right. eexists. split; [reflexivity |]. cbn. rewrite Hd. reflexivity.
  - left. unfold Qsign. rewrite Hd. reflexivity.
  - left. unfold Qsign. rewrite Hd. reflexivity.
  - left. reflexivity.
Qed.

Lemma mul_null_r (x y : num) :
  (y = NaN \/ exists d, y = Fin d /\ Qnum d = 0) ->
  (x * y)%num = NaN \/ exists d, (x * y)%num = Fin d /\ Qnum d = 0.
Proof.
  intros [-> | (d & -> & Hd)]; [left; destruct x; reflexivity |].
  destruct x as [q | | |]; cbn.
  - right. eexists. split; [reflexivity |]. cbn. rewrite Hd. lia.
  - left. unfold Qsign. rewrite Hd. reflexivity.
  - left. unfold Qsign. rewrite Hd. reflexivity.
  - left. reflexivity.
Qed.

Lemma null_not_positive (den : num) :
  (den = NaN \/ exists d, den = Fin d /\ Qnum d = 0) -> (den >? c_0)%num = false.
Proof.
  intro H. apply gtb_zero_denominator.
  destruct H as [-> | (d & -> & Hd)]; [left; reflexivity |].
  right. exists d. split; [reflexivity |]. unfold Qeq. cbn. lia.
Qed.

End PowerCoefficient.




(** X3. With an air density, a rotor diameter or a rotor height of zero
    (the least value the sidebar accepts) the power coefficient is 0 for
    every power and every wind speed: the division by the zero denominator
    is computed and dropped, nothing raises and no [inf] comes out. *)
Theorem power_coefficient_zero_constants :
  forall p w x y : num,
    calculate_power_coefficient p w (Fin 0) x y = Fin 0 /\
    calculate_power_coefficient p w x (Fin 0) y = Fin 0 /\
    calculate_power_coefficient p w x y (Fin 0) = Fin 0.
Proof.
  intros p w x y. unfold calculate_power_coefficient.
  set (v := (np_where (w <? c_0_1)%num c_0_1 w ** 3)%num).
  assert (Hz : forall den, (den = NaN \/ exists d, den = Fin d /\ Qnum d = 0) ->
             clip (np_where (den >? c_0)%num (p * c_1000 / den)%num c_0) c_0 c_0_593
             = Fin 0).
  { intros den H. rewrite (null_not_positive den H). reflexivity. }
  assert (Z0 : Fin 0 = NaN \/ exists d, Fin 0 = Fin d /\ Qnum d = 0)
    by (right; exists 0%Q; split; reflexivity).
  repeat split; apply Hz.
  - apply mul_null_l, mul_null_l, mul_null_r. exact Z0.
  - apply mul_null_l, mul_null_r, mul_null_r. exact Z0.
  - apply mul_null_l, mul_null_r, mul_null_l. exact Z0.
Qed.

(** ** Reading the sheet: success, failure and the derived columns *)

Section ReadingMore.

Lemma rmap_Ok_all {A B} (f : A -> result B) (l : list A) (ys : list B) :
  rmap f l = Ok ys -> forall x, In x l -> exists y, f x = Ok y.
Proof.
  revert ys. induction l as [| a l IH]; intros ys H x; [intros [] |].
  cbn in H. destruct (f a) as [b |] eqn:Ea; [| discriminate]. cbn in H.
  destruct (rmap f l) as [bs |] eqn:El; [| discriminate].
  intros [<- | Hin]; [eauto | exact (IH bs eq_refl x Hin)].
Qed.

Lemma rmap_first_error {A B} (f : A -> result B) (e0 : exn) (l : list A) :
  (forall x e, f x = Raise e -> e = e0) ->
  forall e, rmap f l = Raise e -> e = e0.
Proof.
  intro Hf. induction l as [| a l IH]; intros e; cbn; [discriminate |].
  destruct (f a) as [b |] eqn:Ea; cbn.
  - destruct (rmap f l) as [bs |]; cbn; [discriminate |].
    intros [= <-]. apply IH. reflexivity.
  - intros [= <-]. exact (Hf a _ Ea).
Qed.

Lemma wa_read_cases conv (sheet : list Sample) rho dia h :
  WA.read_and_process_data conv sheet rho dia h
  = match sheet with
    | [] => Raise IndexError
    | s0 :: _ =>
        if is_str (TM s0) then
          rbind (rmap (fun r => of_option ValueError (conv (TM (WA.sample r))))
                      (map (WA.derive rho dia h) sheet))
                (fun tm => Ok (assign (fun r c => WA.set_sample r (set_TM (WA.sample r) c))
                                 (map (WA.derive rho dia h) sheet) tm))
        else Ok (map (WA.derive rho dia h) sheet)
    end.
Proof.
  unfold WA.read_and_process_data. destruct sheet as [| s0 rest]; [reflexivity |].
  cbn [map]. rewrite py_index_head. reflexivity.
Qed.

Lemma ppf_read_cases conv (sheet : list Sample) :
  PPF.read_and_process_data conv sheet
  = match sheet with
    | [] => Raise IndexError
    | s0 :: _ =>
        if is_str (TM s0) then
          rbind (rmap (fun r => of_option ValueError (conv (TM (PPF.sample r))))
                      (map PPF.derive sheet))
                (fun tm => Ok (assign (fun r c => PPF.set_sample r (set_TM (PPF.sample r) c))
                                 (map PPF.derive sheet) tm))
        else Ok (map PPF.derive sheet)
    end.
Proof.
  unfold PPF.read_and_process_data. destruct sheet as [| s0 rest]; [reflexivity |].
  cbn [map]. rewrite py_index_head. reflexivity.
Qed.

End ReadingMore.

(** X4. [read_and_process_data] of wind_analysis.py returns a frame exactly
    when the sheet has a row and either its first [TM] cell is not a string
    or the conversion succeeds on the [TM] cell of every row.  On an empty
    sheet it raises [IndexError], otherwise the error of the conversion. *)
Theorem wa_read_succeeds_iff :
  forall conv (sheet : list Sample) rho dia h,
    ((exists df, WA.read_and_process_data conv sheet rho dia h = Ok df) <->
     (sheet <> [] /\
      (first_is_str sheet = false \/ forall s, In s sheet -> conv (TM s) <> None))) /\
    (sheet = [] -> WA.read_and_process_data conv sheet rho dia h = Raise IndexError) /\
    (forall e, sheet <> [] ->
               WA.read_and_process_data conv sheet rho dia h = Raise e ->
               e = ValueError).
Proof.
  intros conv sheet rho dia h. rewrite wa_read_cases.
  destruct sheet as [| s0 rest].
  - split; [| split].
    + split; [intros (df & H); discriminate | intros (H & _); contradiction].
    + reflexivity.
    + intros e H. contradiction.
  - cbn [first_is_str]. destruct (is_str (TM s0)) eqn:Hstr.
    + split; [| split].
      * split.
        -- intros (df & H). split; [discriminate |]. right. intros s Hs.
           destruct (rmap _ (map (WA.derive rho dia h) (s0 :: rest))) as [tm |] eqn:E;
             [| discriminate].
           destruct (rmap_Ok_all _ _ _ E (WA.derive rho dia h s) (in_map _ _ _ Hs))
             as (y & Hy).
           cbn [WA.derive WA.sample] in Hy. destruct (conv (TM s)); [discriminate | discriminate].
        -- intros (_ & [H | H]); [discriminate |].
           destruct (rmap_defined
                       (fun r => of_option ValueError (conv (TM (WA.sample r))))
                       (map (WA.derive rho dia h) (s0 :: rest))) as (tm & ->).
           { intros r Hr. apply in_map_iff in Hr. destruct Hr as (s & <- & Hs).
             cbn [WA.derive WA.sample]. specialize (H s Hs).
             destruct (conv (TM s)); [cbn; eauto | contradiction]. }
           cbn [rbind]. eauto.
      * discriminate.
      * intros e _ H.
        destruct (rmap _ (map (WA.derive rho dia h) (s0 :: rest))) as [tm |] eqn:E;
          [discriminate |].
        cbn [rbind] in H. injection H as <-.
        apply (rmap_first_error _ ValueError _) in E; [exact E |].
        intros r e'. destruct (conv (TM (WA.sample r))); cbn; [discriminate |].
        intros [= <-]. reflexivity.
    + split; [| split].
      * split; [intros _; split; [discriminate | left; reflexivity] | eauto].
      * discriminate.
      * intros e _ H. discriminate.
Qed.

(** The statement at the sheet of strings, at the empty sheet and at a
    sheet whose second cell does not convert. *)
Lemma wa_read_succeeds_iff_witness :
  (exists df, WA.read_and_process_data strict_HMS text_sheet
                (Fin (1225 # 1000)) (Fin 10) (Fin 10) = Ok df) /\
  WA.read_and_process_data strict_HMS [] (Fin (1225 # 1000)) (Fin 10) (Fin 10)
  = Raise IndexError /\
  WA.read_and_process_data strict_HMS (rev mixed_sheet)
    (Fin (1225 # 1000)) (Fin 10) (Fin 10) = Raise ValueError.
Proof.
  split; [| split].
  - apply (proj1 (wa_read_succeeds_iff strict_HMS text_sheet
                    (Fin (1225 # 1000)) (Fin 10) (Fin 10))).
    split; [discriminate |]. right.
    intros s [<- | [<- | []]]; discriminate.
  - exact (proj1 (proj2 (wa_read_succeeds_iff strict_HMS []
                           (Fin (1225 # 1000)) (Fin 10) (Fin 10))) eq_refl).
  - destruct (WA.read_and_process_data strict_HMS (rev mixed_sheet)
                (Fin (1225 # 1000)) (Fin 10) (Fin 10)) as [df | e] eqn:E.
    + vm_compute in E. discriminate E.
    + f_equal.
      exact (proj2 (proj2 (wa_read_succeeds_iff strict_HMS (rev mixed_sheet)
                             (Fin (1225 # 1000)) (Fin 10) (Fin 10)))
               e ltac:(discriminate) E).
Defined.

(** X5. In the frame that [read_and_process_data] of wind_analysis.py
    returns there is one row per row of the sheet, in the same order; the
    row keeps every cell of its sample but the [TM] cell, its efficiency is
    [Power_DC / Power_AC * 100], its [Cp] is
    [calculate_power_coefficient] of its own [Power_AC] and wind speed and
    so [nan] or within [[0, 0.593]], and it has no column ['WSD_rounded']
    or ['minute'] yet. *)
Theorem wa_read_rows_derived :
  forall conv (sheet : list Sample) rho dia h (df : WA.Frame),
    WA.read_and_process_data conv sheet rho dia h = Ok df ->
    length df = length sheet /\
    forall i s, nth_error sheet i = Some s ->
      exists r, nth_error df i = Some r /\
        set_TM (WA.sample r) (TM s) = s /\
        WA.Efficiency r = (WA.Power_DC r / WA.Power_AC r * c_100)%num /\
        WA.Cp r = calculate_power_coefficient (WA.Power_AC r) (WSD s) rho dia h /\
        (WA.Cp r = NaN \/
         exists c, WA.Cp r = Fin c /\ (0 <= c <= 593 # 1000)%Q) /\
        WA.WSD_rounded r = None /\ WA.col_minute r = None.
Proof.
  intros conv sheet rho dia h df Hread.
  pose proof (wa_read_rows conv sheet rho dia h df Hread) as Hrows.
  split; [symmetry; exact (Forall2_length Hrows) |].
  intros i s Hs.
  destruct (Forall2_nth_error _ _ _ Hrows i s Hs) as (r & Hr & c & -> & _).
  eexists. split; [exact Hr |].
  cbn [WA.set_sample WA.derive WA.sample WA.Efficiency WA.Power_DC WA.Power_AC
       WA.Cp WA.WSD_rounded WA.col_minute].
  split; [destruct s; reflexivity |].
  split; [reflexivity |]. split; [reflexivity |].
  split; [| split; reflexivity].
  unfold calculate_power_coefficient. apply clip_betz.
Qed.

(** The statement at the sheet of strings. *)
Lemma wa_read_rows_derived_witness :
  exists df,
    WA.read_and_process_data strict_HMS text_sheet
      (Fin (1225 # 1000)) (Fin 10) (Fin 10) = Ok df /\
    length df = length text_sheet.
Proof.
  destruct (WA.read_and_process_data strict_HMS text_sheet
              (Fin (1225 # 1000)) (Fin 10) (Fin 10)) as [df |] eqn:E;
    [| vm_compute in E; discriminate E].
  exists df. split; [reflexivity |].
  exact (proj1 (wa_read_rows_derived strict_HMS text_sheet _ _ _ df E)).
Defined.

(** ** Buckets: repetition, emptiness, keys and disjointness *)

Section BucketsMore.

Lemma update_update {F} (s : Store.store F) (r : Store.ref) (a b : F) :
  Store.update (Store.update s r a) r b = Store.update s r b.
Proof.
  revert r. induction s as [| x s IH]; intros [| r]; cbn; try reflexivity.
  rewrite IH. reflexivity.
Qed.

Lemma insert_key_not_nil {K} (klt : K -> K -> bool) (k : K) (ks : list K) :
  Pandas.insert_key klt k ks <> [].
Proof.
  destruct ks as [| h t]; cbn; [discriminate |].
  destruct (klt k h); [discriminate |]. destruct (klt h k); discriminate.
Qed.

Lemma insert_key_length {K} (klt : K -> K -> bool) (k : K) (ks : list K) :
  (length (Pandas.insert_key klt k ks) <= S (length ks))%nat.
Proof.
  induction ks as [| h t IH]; cbn; [lia |].
  destruct (klt k h); cbn; [lia |]. destruct (klt h k); cbn; lia.
Qed.

Lemma groupby_length {K A} (klt : K -> K -> bool) (key : A -> option K)
    (rows : list A) :
  (length (Pandas.groupby klt key rows) <= length rows)%nat.
Proof.
  unfold Pandas.groupby. rewrite length_map.
  assert (H1 : (length (Pandas.keys_of key rows) <= length rows)%nat).
  { unfold Pandas.keys_of. induction rows as [| r rows IH]; cbn; [lia |].
    destruct (key r); cbn; lia. }
  assert (H2 : forall ks, (length (Pandas.unique_sorted klt ks) <= length ks)%nat).
  { induction ks as [| k ks IH]; cbn; [lia |].
    pose proof (insert_key_length klt k (Pandas.unique_sorted klt ks)). 
    unfold Pandas.unique_sorted in *. lia. }
  specialize (H2 (Pandas.keys_of key rows)). lia.
Qed.

Lemma groupby_nil_iff {K A} (klt : K -> K -> bool) (key : A -> option K)
    (rows : list A) :
  Pandas.groupby klt key rows = [] <-> forall r, In r rows -> key r = None.
Proof.
  unfold Pandas.groupby. split.
  - intro H. apply map_eq_nil in H.
    assert (Hk : Pandas.keys_of key rows = []).
    { destruct (Pandas.keys_of key rows) as [| k ks]; [reflexivity |].
      cbn in H. apply insert_key_not_nil in H. contradiction. }
    intros r Hr. destruct (key r) as [k |] eqn:E; [| reflexivity].
    assert (Hin : In k (Pandas.keys_of key rows)).
    { unfold Pandas.keys_of. apply in_flat_map. exists r. split; [exact Hr |].
      rewrite E. left. reflexivity. }
    rewrite Hk in Hin. contradiction.
  - intro H.
    assert (Hk : Pandas.keys_of key rows = []).
    { unfold Pandas.keys_of. induction rows as [| r rows IH]; [reflexivity |].
      cbn. rewrite (H r (or_introl eq_refl)). cbn. apply IH.
      intros r' Hr'. apply H. right. exact Hr'. }
    rewrite Hk. reflexivity.
Qed.

Lemma sorted_trichotomy {K} (R : K -> K -> Prop) (l : list K) :
  StronglySorted R l ->
  forall a b, In a l -> In b l -> a = b \/ R a b \/ R b a.
Proof.
  induction 1 as [| x l Hs IH Hall]; intros a b Ha Hb; [contradiction |].
  rewrite Forall_forall in Hall.
  destruct Ha as [<- | Ha], Hb as [<- | Hb]; auto.
Qed.

Lemma ltb_cotrans (a b c : num) :
  Num.ltb a c = true -> isnan b = false ->
  Num.ltb a b = true \/ Num.ltb b c = true.
Proof.
  destruct a as [x | | |], b as [y | | |], c as [z | | |]; cbn;
    try discriminate; auto.
  rewrite !Qlt_bool_iff. intros H _.
  destruct (Qlt_le_dec x y); [left; assumption | right; lra].
Qed.

End BucketsMore.

(** X6. [process_wind_speed_data] of wind_analysis.py can be repeated: a
    second call on the same frame returns the same table as the first and
    leaves the store as the first call left it. *)
Theorem wa_process_wind_speed_data_twice :
  forall (s : Store.store WA.Frame) (df : WA.ref) (d : WA.Frame),
    nth_error s df = Some d ->
    let first := WA.process_wind_speed_data df s in
    let second := WA.process_wind_speed_data df (snd first) in
    fst second = fst first /\ snd second = snd first.
Proof.
  intros s df d Hd first second. unfold second, first.
  rewrite (wa_process_wind_speed_data_run s df d Hd). cbn [fst snd].
  set (g := fun r => WA.set_WSD_rounded r (wa_wind_value r)).
  rewrite (wa_process_wind_speed_data_run _ df (map g d))
    by (apply nth_error_update_same; eapply nth_error_valid; exact Hd).
  cbn [fst snd]. split.
  - f_equal. rewrite groupby_map, map_map.
    apply map_ext. intros [k rows]. unfold wa_wind_group. cbn [fst snd].
    rewrite !map_map. reflexivity.
  - rewrite update_update, map_map. reflexivity.
Qed.

(** The statement at the frame with one sample at 2 m/s. *)
Lemma wa_process_wind_speed_data_twice_witness :
  fst (WA.process_wind_speed_data 0%nat
         (snd (WA.process_wind_speed_data 0%nat [calm_frame])))
  = fst (WA.process_wind_speed_data 0%nat [calm_frame]).
Proof.
  exact (proj1 (wa_process_wind_speed_data_twice [calm_frame] 0%nat calm_frame eq_refl)).
Defined.

(** X7. A selection that keeps no sample gives an empty table, not an
    error, and only then: [process_wind_speed_data] of
    power_power_factor.py returns the empty table exactly when no sample
    has [wind_speed >= 3], and [calculate_power_factors] exactly when no
    sample passes both of its filters. *)
Theorem empty_selection_empty_table :
  forall (s : Store.store PPF.Frame) (df : PPF.ref) (d : PPF.Frame),
    nth_error s df = Some d ->
    (fst (PPF.process_wind_speed_data df s) = Ok [] <->
     forall r, In r d -> (WSD (PPF.sample r) >=? c_3)%num = false) /\
    (fst (PPF.calculate_power_factors df s) = Ok [] <->
     forall r, In r d -> ppf_producing r && ppf_below_one r = false).
Proof.
  intros s df d Hd. split.
  - rewrite (ppf_process_wind_speed_data_run s df d Hd). cbn [fst]. split.
    + intros [= H]. apply map_eq_nil in H.
      intros r Hr. destruct (WSD (PPF.sample r) >=? c_3)%num eqn:E; [| reflexivity].
      pose proof (proj1 (groupby_nil_iff _ _ _) H r) as Hnone.
      assert (Hin : In r (filter ppf_cut_in d)) by (apply filter_In; split; assumption).
      specialize (Hnone Hin). unfold ppf_wind_key in Hnone.
      pose proof (round_decimals_1_ge_3 _ E) as Hge.
      destruct (round_decimals 1 (WSD (PPF.sample r))); discriminate.
    + intro H. f_equal.
      assert (E : filter ppf_cut_in d = []).
      { clear Hd. induction d as [| r d' IH]; [reflexivity |]. cbn.
        unfold ppf_cut_in at 1. rewrite (H r (or_introl eq_refl)).
        apply IH. intros r' Hr'. apply H. right. exact Hr'. }
      rewrite E. reflexivity.
  - rewrite (calculate_power_factors_run s df d Hd). cbn [fst]. split.
    + intros [= H]. apply map_eq_nil in H.
      intros r Hr.
      destruct (ppf_producing r) eqn:Ep; [| reflexivity].
      destruct (ppf_below_one r) eqn:Eb; [| reflexivity].
      pose proof (proj1 (groupby_nil_iff _ _ _) H r) as Hnone.
      assert (Hin : In r (filter ppf_below_one (filter ppf_producing d))).
      { apply filter_In. split; [apply filter_In; split; assumption | exact Eb]. }
      specialize (Hnone Hin). unfold ppf_factor_key in Hnone.
      unfold ppf_producing in Ep. rewrite !andb_true_iff in Ep.
      destruct Ep as [[Hw _] _].
      destruct (WSD (PPF.sample r)); discriminate.
    + intro H. f_equal.
      assert (E : filter ppf_below_one (filter ppf_producing d) = []).
      { clear Hd. induction d as [| r d' IH]; [reflexivity |]. cbn.
        specialize (H r (or_introl eq_refl)) as Hr.
        destruct (ppf_producing r); cbn.
        - cbn in Hr. rewrite Hr. apply IH. intros r' Hr'. apply H. right. exact Hr'.
        - apply IH. intros r' Hr'. apply H. right. exact Hr'. }
      rewrite E. reflexivity.
Qed.

(** The statement at the frame with one sample at 2 m/s. *)
Lemma empty_selection_empty_table_witness :
  fst (PPF.process_wind_speed_data 0%nat [calm_ppf_frame]) = Ok [] /\
  fst (PPF.calculate_power_factors 0%nat [calm_ppf_frame]) = Ok [].
Proof.
  destruct (empty_selection_empty_table [calm_ppf_frame] 0%nat calm_ppf_frame eq_refl)
    as (H1 & H2).
  split.
  - apply (proj2 H1). intros r [<- | []]. reflexivity.
  - apply (proj2 H2). intros r [<- | []]. reflexivity.
Defined.

Section KeysMore.

Lemma Qrint_near (a : Q) : (Qabs (inject_Z (Qrint a) - a) <= 1 # 2)%Q.
Proof.
  pose proof (Qfloor_le a) as Hlo. pose proof (Qlt_floor a) as Hhi.
  rewrite inject_Z_plus in Hhi. change (inject_Z 1) with 1%Q in Hhi.
  unfold Qrint. set (f := Qfloor a) in *.
  apply Qabs_Qle_condition.
  destruct (Qlt_bool (a - inject_Z f) (1 # 2)) eqn:E1.
  - apply Qlt_bool_iff in E1. split; lra.
  - apply Qlt_bool_false_iff in E1.
    assert (Hup : (inject_Z (f + 1) == inject_Z f + 1)%Q)
      by (rewrite inject_Z_plus; reflexivity).
    destruct (Qlt_bool (1 # 2) (a - inject_Z f)) eqn:E2.
    + rewrite Hup. split; lra.
    + apply Qlt_bool_false_iff in E2.
      destruct (Z.even f); [| rewrite Hup]; split; lra.
Qed.

End KeysMore.


(** X9. In the table of [process_wind_speed_data] of wind_analysis.py no
    sample belongs to two buckets, and there are at most as many buckets as
    samples. *)
Theorem wa_buckets_disjoint :
  forall (s : Store.store WA.Frame) (df : WA.ref) (d : WA.Frame),
    nth_error s df = Some d ->
    exists groups,
      fst (WA.process_wind_speed_data df s) = Ok groups /\
      (length groups <= length d)%nat /\
      forall g1 g2 r,
        In g1 groups -> In g2 groups ->
        In r (wa_members d (WA.wg_WSD_rounded g1)) ->
        In r (wa_members d (WA.wg_WSD_rounded g2)) ->
        g1 = g2.
Proof.
  intros s df d Hd. rewrite (wa_process_wind_speed_data_run s df d Hd). cbn [fst].
  eexists. split; [reflexivity |]. split.
  - rewrite length_map. apply groupby_length.
  - intros g1 g2 r H1 H2 M1 M2.
    apply in_map_iff in H1. destruct H1 as ([k1 rows1] & <- & H1).
    apply in_map_iff in H2. destruct H2 as ([k2 rows2] & <- & H2).
    cbn [wa_wind_group WA.wg_WSD_rounded fst] in M1, M2.
    assert (Hk : k1 = k2).
    { pose proof (groupby_sorted _ _ Num.ltb ltb_trans wa_wind_key d) as Hs.
      destruct (sorted_trichotomy _ _ Hs k1 k2) as [E | [E | E]];
        [apply (in_map fst _ _ H1) | apply (in_map fst _ _ H2) | exact E | |].
      - exfalso. unfold wa_members in M1, M2.
        apply filter_In in M1. destruct M1 as [_ M1].
        apply filter_In in M2. destruct M2 as [_ M2].
        unfold Pandas.has_key in M1, M2.
        destruct (wa_wind_key r) as [x |] eqn:Ex; [| discriminate].
        unfold Pandas.keq in M1, M2.
        apply andb_true_iff in M1. destruct M1 as [A1 B1].
        apply andb_true_iff in M2. destruct M2 as [A2 B2].
        apply negb_true_iff in A1, B1, A2, B2.
        assert (Hx : isnan x = false).
        { unfold wa_wind_key, Pandas.num_key in Ex.
          destruct (isnan (wa_wind_value r)) eqn:En; [discriminate |].
          injection Ex as <-. exact En. }
        destruct (ltb_cotrans k1 x k2 E Hx); congruence.
      - exfalso. unfold wa_members in M1, M2.
        apply filter_In in M1. destruct M1 as [_ M1].
        apply filter_In in M2. destruct M2 as [_ M2].
        unfold Pandas.has_key in M1, M2.
        destruct (wa_wind_key r) as [x |] eqn:Ex; [| discriminate].
        unfold Pandas.keq in M1, M2.
        apply andb_true_iff in M1. destruct M1 as [A1 B1].
        apply andb_true_iff in M2. destruct M2 as [A2 B2].
        apply negb_true_iff in A1, B1, A2, B2.
        assert (Hx : isnan x = false).
        { unfold wa_wind_key, Pandas.num_key in Ex.
          destruct (isnan (wa_wind_value r)) eqn:En; [discriminate |].
          injection Ex as <-. exact En. }
        destruct (ltb_cotrans k2 x k1 E Hx); congruence. }
    subst k2.
    apply (groupby_group _ _ Num.ltb ltb_irrefl) in H1.
    apply (groupby_group _ _ Num.ltb ltb_irrefl) in H2.
    cbn [fst snd] in H1, H2. destruct H1 as [-> _]. destruct H2 as [-> _].
    reflexivity.
Qed.

(** The statement at the frame with one sample at 2 m/s. *)
Lemma wa_buckets_disjoint_witness :
  exists groups,
    fst (WA.process_wind_speed_data 0%nat [calm_frame]) = Ok groups /\
    (length groups <= length calm_frame)%nat.
Proof.
  destruct (wa_buckets_disjoint [calm_frame] 0%nat calm_frame eq_refl)
    as (groups & H & Hl & _).
  exists groups. split; [exact H | exact Hl].
Defined.

(** ** More on the time groups *)

Section TimeColumn.

Lemma forallb_map_eq {A B} (p : B -> bool) (g : A -> B) (l : list A) :
  forallb p (map g l) = forallb (fun x => p (g x)) l.
Proof. induction l as [| x l IH]; cbn; [reflexivity | rewrite IH; reflexivity]. Qed.

Lemma rmapi_from_cases {A B} (f : nat -> A -> result B) (ok : A -> bool) (e : exn)
    (l : list A) :
  (forall i x, ok x = true -> exists y, f i x = Ok y) ->
  (forall i x, ok x = false -> f i x = Raise e) ->
  forall i,
    if forallb ok l
    then exists ys, rmapi_from i f l = Ok ys /\ length ys = length l
    else rmapi_from i f l = Raise e.
Proof.
  intros Hok Hbad. induction l as [| x l IH]; intro i; cbn [forallb rmapi_from].
  - exists []. split; reflexivity.
  - destruct (ok x) eqn:E; cbn [andb].
    + destruct (Hok i x E) as [y ->]. cbn [rbind]. specialize (IH (S i)).
      destruct (forallb ok l).
      * destruct IH as (ys & -> & Hl). cbn [rbind]. exists (y :: ys).
        split; [reflexivity | cbn; rewrite Hl; reflexivity].
      * rewrite IH. reflexivity.
    + rewrite (Hbad i x E). reflexivity.
Qed.

Lemma rmap_rmapi {A B} (f : A -> result B) (l : list A) :
  forall i, rmap f l = rmapi_from i (fun _ => f) l.
Proof.
  induction l as [| x l IH]; intro i; cbn; [reflexivity |].
  rewrite (IH (S i)). reflexivity.
Qed.

Lemma wa_instants_cases today pd (d : WA.Frame) :
  if time_column_ok pd d
  then exists instants, wa_instants today pd d = Ok instants /\
                        length instants = length d
  else wa_instants today pd d = Raise (time_column_error d).
Proof.
  destruct d as [| r d']; [reflexivity |].
  unfold wa_instants, time_column_ok, time_column_error.
  cbn [map]. rewrite py_index_head. cbn [rbind].
  change (TM (WA.sample r) :: map (fun r => TM (WA.sample r)) d')
    with (map (fun r => TM (WA.sample r)) (r :: d')).
  set (l := r :: d').
  destruct (is_time (TM (WA.sample r))); [| destruct (is_datetime (TM (WA.sample r)))].
  - pose proof (rmapi_from_cases (WA.combine_time today) is_time TypeError
                  (map (fun r => TM (WA.sample r)) l)) as H.
    rewrite forallb_map_eq, length_map in H. apply H.
    + intros i [] Hx; try discriminate. eexists. reflexivity.
    + intros i [] Hx; try discriminate; reflexivity.
  - pose proof (rmapi_from_cases (WA.combine_datetime today) is_datetime AttributeError
                  (map (fun r => TM (WA.sample r)) l)) as H.
    rewrite forallb_map_eq, length_map in H. apply H.
    + intros i [] Hx; try discriminate. eexists. reflexivity.
    + intros i [] Hx; try discriminate; reflexivity.
  - rewrite (rmap_rmapi _ l 0%nat).
    apply (rmapi_from_cases
             (fun (_ : nat) r => of_option ValueError (pd (TM (WA.sample r))))
             (fun r => match pd (TM (WA.sample r)) with
                       | Some _ => true
                       | None => false
                       end) ValueError l).
    + intros i x Hx. destruct (pd (TM (WA.sample x))); [| discriminate].
      eexists. reflexivity.
    + intros i x Hx. destruct (pd (TM (WA.sample x))); [discriminate |].
      reflexivity.
Qed.

Lemma combine_map_l {A B C} (g : A -> C) (l : list A) (l' : list B) :
  List.combine (map g l) l' = map (fun p => (g (fst p), snd p)) (List.combine l l').
Proof.
  revert l'. induction l as [| x l IH]; intros [| y l']; cbn; try reflexivity.
  rewrite IH. reflexivity.
Qed.

Lemma rmapi_without_date today (d : WA.Frame) :
  Forall (fun r => is_datetime (TM (WA.sample r)) = true) d ->
  forall i,
    rmapi_from i (WA.combine_time today)
               (map (fun r => TM (WA.sample r)) (map without_date d))
    = rmapi_from i (WA.combine_datetime today) (map (fun r => TM (WA.sample r)) d).
Proof.
  induction 1 as [| r d Hr _ IH]; intro i; cbn [map rmapi_from]; [reflexivity |].
  rewrite IH. unfold without_date.
  destruct (TM (WA.sample r)); try discriminate. reflexivity.
Qed.

End TimeColumn.





(** X12. On a column of datetimes [process_time_data] uses the time of day
    of each cell and nothing of its date: the table is the one it returns
    for the frame whose cells hold those times of day. *)
Theorem process_time_data_without_date :
  forall today pd (s : Store.store WA.Frame) (df : WA.ref) (d : WA.Frame),
    nth_error s df = Some d ->
    Forall (fun r => is_datetime (TM (WA.sample r)) = true) d ->
    fst (WA.process_time_data today pd df s)
    = fst (WA.process_time_data today pd 0%nat [map without_date d]).
Proof.
  intros today pd s df d Hd Hall.
  rewrite (process_time_data_run today pd s df d Hd).
  rewrite (process_time_data_run today pd [map without_date d] 0%nat _ eq_refl).
  assert (Hi : wa_instants today pd (map without_date d) = wa_instants today pd d).
  { destruct d as [| r d']; [reflexivity |].
    unfold wa_instants. cbn [map]. rewrite !py_index_head. cbn [rbind].
    inversion Hall as [| ? ? Hr Hrest]; subst.
    assert (Hw : TM (WA.sample (without_date r))
                 = match TM (WA.sample r) with
                   | TM_datetime dt => TM_time (time_of dt)
                   | c => c
                   end).
    { unfold without_date. destruct (TM (WA.sample r)) eqn:E; cbn; try rewrite E;
        reflexivity. }
    destruct (TM (WA.sample r)) as [| | dt |] eqn:E; try discriminate.
    rewrite Hw. cbn [is_time is_datetime].
    pose proof (rmapi_without_date today (r :: d') Hall 0%nat) as H.
    cbn [map] in H. rewrite Hw, E in H. exact H. }
  rewrite Hi. destruct (wa_instants today pd d) as [instants | e]; [| reflexivity].
  cbn [fst]. f_equal.
  rewrite combine_map_l, groupby_map, map_map.
  apply map_ext. intros [k rows]. unfold wa_time_group. cbn [fst snd].
  rewrite !map_map. cbn [fst].
  assert (HDC : forall r, WA.Power_DC (without_date r) = WA.Power_DC r)
    by (intro r; unfold without_date; destruct (TM (WA.sample r)); reflexivity).
  assert (HAC : forall r, WA.Power_AC (without_date r) = WA.Power_AC r)
    by (intro r; unfold without_date; destruct (TM (WA.sample r)); reflexivity).
  assert (HW : forall r, WSD (WA.sample (without_date r)) = WSD (WA.sample r))
    by (intro r; unfold without_date; destruct (TM (WA.sample r)); reflexivity).
  assert (HCp : forall r, WA.Cp (without_date r) = WA.Cp r)
    by (intro r; unfold without_date; destruct (TM (WA.sample r)); reflexivity).
  f_equal; f_equal; apply map_ext; intro p; auto.
Qed.

(** The statement at a frame with one sample stamped with a full date. *)
Lemma process_time_data_without_date_witness :
  fst (WA.process_time_data (fun _ => 20000) (fun _ => None) 0%nat [dated_frame])
  = fst (WA.process_time_data (fun _ => 20000) (fun _ => None) 0%nat
           [map without_date dated_frame]).
Proof.
  apply (process_time_data_without_date (fun _ => 20000) (fun _ => None)
           [dated_frame] 0%nat dated_frame eq_refl).
  repeat constructor.
Defined.

(** ** More on the status intervals *)

Section RangesMore.

Lemma dd_append_key {V} (k : Z) (v : V) (d : list (Z * list V)) :
  In k (map fst (dd_append k v d)).
Proof.
  induction d as [| [k' vs] d IH]; cbn; [left; reflexivity |].
  destruct (Z.eqb_spec k k') as [-> | N]; cbn; [left; reflexivity | right; exact IH].
Qed.

Lemma dd_append_keeps {V} (k : Z) (v : V) (d : list (Z * list V)) (x : Z) :
  In x (map fst d) -> In x (map fst (dd_append k v d)).
Proof.
  induction d as [| [k' vs] d IH]; cbn; [intros [] |].
  destruct (k =? k'); cbn; intros [H | H]; auto.
Qed.

Lemma dd_append_NoDup {V} (k : Z) (v : V) (d : list (Z * list V)) :
  NoDup (map fst d) -> NoDup (map fst (dd_append k v d)).
Proof.
  induction d as [| [k' vs] d IH]; cbn; intro H.
  - constructor; [intros [] | constructor].
  - inversion H as [| ? ? Hn Hd]; subst.
    destruct (Z.eqb_spec k k') as [-> | N]; cbn.
    + constructor; assumption.
    + constructor; [| apply IH; exact Hd].
      intro Hin. apply dd_append_keys in Hin.
      destruct Hin as [E | Hin]; [congruence | contradiction].
Qed.

Lemma dd_append_In {V} (k : Z) (v : V) (d : list (Z * list V)) (c : Z) (ivs : list V) :
  In (c, ivs) (dd_append k v d) ->
  In (c, ivs) d \/
  (c = k /\ (ivs = [v] \/ exists ivs', In (k, ivs') d /\ ivs = ivs' ++ [v])).
Proof.
  induction d as [| [k' vs] d IH]; cbn.
  - intros [E | []]. injection E as <- <-.
    right. split; [reflexivity | left; reflexivity].
  - destruct (Z.eqb_spec k k') as [-> | N]; cbn; intros [E | H].
    + injection E as <- <-. right. split; [reflexivity |]. right.
      exists vs. split; [left; reflexivity | reflexivity].
    + left. right. exact H.
    + left. left. exact E.
    + destruct (IH H) as [H' | (-> & [-> | (ivs' & Hin & ->)])].
      * left. right. exact H'.
      * right. split; [reflexivity | left; reflexivity].
      * right. split; [reflexivity |]. right.
        exists ivs'. split; [right; exact Hin | reflexivity].
Qed.

(** What every interval of the mapping satisfies, once every run does. *)
Lemma add_runs_invariant (Q : Z -> option tm_cell * tm_cell -> Prop)
    (rs : list (Z * (tm_cell * tm_cell))) :
  (forall run, In run rs -> Q (fst run) (Some (fst (snd run)), snd (snd run))) ->
  forall R,
    NoDup (map fst R) ->
    (forall c ivs, In (c, ivs) R -> ivs <> [] /\ forall iv, In iv ivs -> Q c iv) ->
    NoDup (map fst (fold_left add_run rs R)) /\
    (forall c ivs, In (c, ivs) (fold_left add_run rs R) ->
                   ivs <> [] /\ forall iv, In iv ivs -> Q c iv).
Proof.
  induction rs as [| a rs IH]; intros H R Hnd HR; cbn [fold_left].
  - split; assumption.
  - apply IH.
    + intros run Hin. apply H. right. exact Hin.
    + unfold add_run. destruct (fst a =? 16); [exact Hnd |].
      apply dd_append_NoDup. exact Hnd.
    + intros c ivs Hin. unfold add_run in Hin.
      destruct (fst a =? 16); [apply HR; exact Hin |].
      apply dd_append_In in Hin.
      destruct Hin as [Hin | (-> & [-> | (ivs' & Hin & ->)])].
      * apply HR. exact Hin.
      * split; [discriminate |]. intros iv [<- | []]. apply H. left. reflexivity.
      * split; [destruct ivs'; discriminate |].
        intros iv Hiv. apply in_app_iff in Hiv.
        destruct Hiv as [Hiv | [<- | []]].
        -- apply (HR _ _ Hin). exact Hiv.
        -- apply H. left. reflexivity.
Qed.

Lemma add_runs_keys (rs : list (Z * (tm_cell * tm_cell))) :
  forall R c,
    In c (map fst (fold_left add_run rs R)) <->
    In c (map fst R) \/ (c <> 16 /\ exists run, In run rs /\ fst run = c).
Proof.
  induction rs as [| a rs IH]; intros R c; cbn [fold_left].
  - split; [left; assumption |].
    intros [H | (_ & run & [] & _)]. exact H.
  - rewrite IH. unfold add_run. destruct (Z.eqb_spec (fst a) 16) as [E | N].
    + split; intros [H | (Hc & run & Hin & Hf)].
      * left. exact H.
      * right. split; [exact Hc |]. exists run. split; [right; exact Hin | exact Hf].
      * left. exact H.
      * destruct Hin as [<- | Hin]; [congruence |].
        right. split; [exact Hc |]. exists run. split; [exact Hin | exact Hf].
    + split; intros [H | (Hc & run & Hin & Hf)].
      * apply dd_append_keys in H. destruct H as [-> | H].
        -- right. split; [exact N |]. exists a. split; [left; reflexivity | reflexivity].
        -- left. exact H.
      * right. split; [exact Hc |]. exists run. split; [right; exact Hin | exact Hf].
      * left. apply dd_append_keeps. exact H.
      * destruct Hin as [<- | Hin].
        -- left. rewrite <- Hf. apply dd_append_key.
        -- right. split; [exact Hc |]. exists run. split; [exact Hin | exact Hf].
Qed.

Lemma push_run_codes (c : Z) (s e : tm_cell) rs (x : Z) :
  In x (map fst (push_run c s e rs)) <-> x = c \/ In x (map fst rs).
Proof.
  unfold push_run. destruct rs as [| [c' [s' e']] more]; cbn.
  - split; [intros [H | []]; left; symmetry; exact H | intros [H | []]; left; symmetry; exact H].
  - destruct (Z.eqb_spec c c') as [-> | N]; cbn.
    + split; [intros [H | H]; auto | intros [H | [H | H]]; auto].
    + split; [intros [H | [H | H]]; auto | intros [H | [H | H]]; auto].
Qed.

Lemma runs_codes_iff (l : list (tm_cell * Z)) (x : Z) :
  In x (map fst (runs l)) <-> In x (map snd l).
Proof.
  induction l as [| [t c] l IH]; cbn [runs map snd]; [reflexivity |].
  rewrite push_run_codes, IH. cbn. split; intros [H | H]; auto.
Qed.

(** Both ends of a run are samples of its code. *)
Lemma runs_endpoints (l : list (tm_cell * Z)) (run : Z * (tm_cell * tm_cell)) :
  In run (runs l) ->
  In (fst (snd run), fst run) l /\ In (snd (snd run), fst run) l.
Proof.
  revert run. induction l as [| [t c] l IH]; cbn [runs]; intros run Hin;
    [contradiction |].
  remember (runs l) as rs eqn:E. unfold push_run in Hin.
  destruct rs as [| [c' [s' e']] more].
  - destruct Hin as [<- | []]. cbn. split; left; reflexivity.
  - destruct (Z.eqb_spec c c') as [-> | N].
    + destruct Hin as [<- | Hin].
      * cbn. split; [left; reflexivity |]. right.
        apply (IH (c', (s', e'))). left. reflexivity.
      * destruct (IH run (or_intror Hin)). split; right; assumption.
    + destruct Hin as [<- | Hin]; [cbn; split; left; reflexivity |].
      destruct (IH run Hin). split; right; assumption.
Qed.

Lemma last_default {A} (x : A) (l : list A) (d d' : A) :
  last (x :: l) d = last (x :: l) d'.
Proof.
  revert x. induction l as [| y l IH]; intro x; [reflexivity |].
  change (last (x :: y :: l) d) with (last (y :: l) d).
  change (last (x :: y :: l) d') with (last (y :: l) d').
  apply IH.
Qed.

(** A frame with one code all along is one run. *)
Lemma runs_constant (c : Z) (l : list (tm_cell * Z)) :
  (forall p, In p l -> snd p = c) ->
  forall t0, runs ((t0, c) :: l) = [(c, (t0, last (map fst l) t0))].
Proof.
  induction l as [| [t1 c1] l IH]; intros H t0; [reflexivity |].
  assert (E : c1 = c) by (apply (H (t1, c1)); left; reflexivity).
  subst c1.
  change (runs ((t0, c) :: (t1, c) :: l))
    with (push_run c t0 t0 (runs ((t1, c) :: l))).
  rewrite IH by (intros p Hp; apply H; right; exact Hp).
  unfold push_run. rewrite Z.eqb_refl.
  cbn [map fst].
  change (last (t1 :: map fst l) t0) with (last (t1 :: map fst l) t0).
  destruct l as [| p l']; [reflexivity |].
  cbn [map]. rewrite (last_default (fst p) (map fst l') t1 t0).
  reflexivity.
Qed.

End RangesMore.

Section RangesShape.

Lemma status_intervals_shape (df : WA.Frame) :
  let ranges := status_intervals (timeline_input df) in
  NoDup (map fst ranges) /\
  (forall c, In c (map fst ranges) <->
             c <> 16 /\ In c (map (fun r => CODE_1 (WA.sample r)) df)) /\
  (forall c ivs, In (c, ivs) ranges ->
     ivs <> [] /\
     forall iv, In iv ivs ->
       exists first last,
         In first df /\ In last df /\
         CODE_1 (WA.sample first) = c /\ CODE_1 (WA.sample last) = c /\
         iv = (Some (TM (WA.sample first)), TM (WA.sample last))).
Proof.
  cbv zeta. unfold status_intervals.
  destruct (add_runs_invariant
              (fun c iv =>
                 exists first last,
                   In first df /\ In last df /\
                   CODE_1 (WA.sample first) = c /\ CODE_1 (WA.sample last) = c /\
                   iv = (Some (TM (WA.sample first)), TM (WA.sample last)))
              (runs (timeline_input df))) with (R := @nil (Z * list (option tm_cell * tm_cell)))
    as (Hnd & Hiv).
  - intros run Hin. apply runs_endpoints in Hin. destruct Hin as [H1 H2].
    unfold timeline_input in H1, H2.
    apply in_map_iff in H1. destruct H1 as (r1 & E1 & In1).
    apply in_map_iff in H2. destruct H2 as (r2 & E2 & In2).
    exists r1, r2. injection E1 as Et1 Ec1. injection E2 as Et2 Ec2.
    rewrite Et1, Et2. repeat split; assumption.
  - constructor.
  - intros c ivs [].
  - split; [exact Hnd |]. split; [| exact Hiv].
    intro c. rewrite add_runs_keys. cbn [map]. split.
    + intros [[] | (Hc & run & Hin & Hf)]. split; [exact Hc |].
      assert (H : In c (map fst (runs (timeline_input df))))
        by (rewrite <- Hf; apply in_map; exact Hin).
      apply runs_codes_iff in H. unfold timeline_input in H.
      rewrite map_map in H. exact H.
    + intros [Hc Hin]. right. split; [exact Hc |].
      assert (H : In c (map fst (runs (timeline_input df)))).
      { apply runs_codes_iff. unfold timeline_input. rewrite map_map. exact Hin. }
      apply in_map_iff in H. destruct H as (run & Hf & Hr).
      exists run. split; assumption.
Qed.

End RangesShape.


(** X14. A frame whose samples all carry one code other than 16 gives one
    interval for that code, from the time of the first sample to the time
    of the last one; on a frame of one sample the interval starts and ends
    at that sample. *)
Theorem find_error_time_ranges_one_code :
  forall (r0 : WA.Row) (rest : WA.Frame) (c : Z) (codes : list (Z * string)),
    c <> 16 ->
    (forall r, In r (r0 :: rest) -> CODE_1 (WA.sample r) = c) ->
    WA.find_error_time_ranges (r0 :: rest) codes
    = Ok [(c, [(Some (TM (WA.sample r0)),
                TM (WA.sample (last rest r0)))])].
Proof.
  intros r0 rest c codes Hc Hall.
  rewrite find_error_time_ranges_status_intervals.
  unfold status_intervals, timeline_input. cbn [map].
  rewrite (Hall r0 (or_introl eq_refl)).
  rewrite (runs_constant c).
  - cbn [fold_left]. unfold add_run. cbn [fst snd].
    destruct (Z.eqb_spec c 16) as [E | _]; [contradiction |].
    cbn [dd_append]. do 5 f_equal.
    rewrite map_map. cbn [fst].
    clear Hall. revert r0. induction rest as [| r1 rest IH]; intro r0; [reflexivity |].
    cbn [map]. destruct rest as [| r2 rest']; [reflexivity |].
    change (last (r1 :: r2 :: rest') r0) with (last (r2 :: rest') r0).
    rewrite (last_default r2 rest' r0 r1).
    cbn [map] in IH.
    change (last (TM (WA.sample r1) :: TM (WA.sample r2)
                  :: map (fun x => TM (WA.sample x)) rest') (TM (WA.sample r0)))
      with (last (TM (WA.sample r2) :: map (fun x => TM (WA.sample x)) rest')
                 (TM (WA.sample r0))).
    rewrite (last_default _ _ (TM (WA.sample r0)) (TM (WA.sample r1))).
    apply (IH r1).
  - intros p Hp. apply in_map_iff in Hp. destruct Hp as (r & <- & Hr).
    cbn [snd]. apply Hall. right. exact Hr.
Qed.

(** The statement at the frame with one sample of code 5. *)
Lemma find_error_time_ranges_one_code_witness :
  WA.find_error_time_ranges fault_frame error_codes
  = Ok [(5, [(Some (TM_time (mk_time 10 0 29 0)), TM_time (mk_time 10 0 29 0))])].
Proof.
  apply (find_error_time_ranges_one_code breeze_row [] 5 error_codes).
  - discriminate.
  - intros r [<- | []]. reflexivity.
Defined.

(** ** More on the analysis text *)

Section TimelineText.

Lemma insert_sorted_In (k : Z) (l : list Z) (x : Z) :
  In x (insert_sorted k l) <-> x = k \/ In x l.
Proof.
  induction l as [| h t IH]; cbn.
  - split; [intros [H | []]; left; symmetry; exact H
           | intros [H | []]; left; symmetry; exact H].
  - destruct (k <=? h); cbn.
    + split; [intros [H | H]; auto | intros [H | H]; auto].
    + rewrite IH. split; [intros [H | [H | H]]; auto | intros [H | [H | H]]; auto].
Qed.

Lemma sorted_In (l : list Z) (x : Z) : In x (sorted l) <-> In x l.
Proof.
  induction l as [| k l IH]; cbn; [reflexivity |].
  rewrite insert_sorted_In, IH. split; intros [H | H]; auto.
Qed.

Lemma insert_sorted_strict (k : Z) (l : list Z) :
  StronglySorted Z.lt l -> ~ In k l -> StronglySorted Z.lt (insert_sorted k l).
Proof.
  induction 1 as [| h t Ht IH Hall]; intro Hk; cbn.
  - constructor; constructor.
  - destruct (Z.leb_spec k h) as [Hle | Hgt].
    + assert (Hlt : k < h).
      { destruct (Z.eq_dec k h) as [-> | N]; [exfalso; apply Hk; left; reflexivity | lia]. }
      constructor; [constructor; assumption |].
      constructor; [exact Hlt |].
      eapply Forall_impl; [| exact Hall]. intros b Hb. cbn in Hb. lia.
    + constructor.
      * apply IH. intro Hin. apply Hk. right. exact Hin.
      * apply Forall_forall. intros x Hx. apply insert_sorted_In in Hx.
        destruct Hx as [-> | Hx]; [lia |].
        rewrite Forall_forall in Hall. apply Hall. exact Hx.
Qed.

Lemma sorted_strict (l : list Z) : NoDup l -> StronglySorted Z.lt (sorted l).
Proof.
  induction 1 as [| k l Hk _ IH]; cbn; [constructor |].
  apply insert_sorted_strict; [exact IH |].
  intro Hin. apply Hk. apply (proj1 (sorted_In l k)). exact Hin.
Qed.

Lemma filter_all {A} (p : A -> bool) (l : list A) :
  (forall x, In x l -> p x = true) -> filter p l = l.
Proof.
  induction l as [| x l IH]; intro H; cbn; [reflexivity |].
  rewrite (H x (or_introl eq_refl)). f_equal. apply IH.
  intros y Hy. apply H. right. exact Hy.
Qed.

Lemma dict_get_In {V} (k : Z) (d : list (Z * V)) :
  In k (map fst d) -> exists v, dict_get k d = Some v /\ In (k, v) d.
Proof.
  induction d as [| [k' v'] d IH]; cbn; [intros [] |].
  intro H. destruct (Z.eqb_spec k k') as [-> | N].
  - exists v'. split; [reflexivity | left; reflexivity].
  - destruct H as [E | H]; [congruence |].
    destruct (IH H) as (v & E & Hin). exists v. split; [exact E | right; exact Hin].
Qed.

Lemma format_range_error (iv : option tm_cell * tm_cell) (e : exn) :
  WA.format_range iv = Raise e -> e = AttributeError.
Proof.
  destruct iv as [[[] |] []]; cbn; intro H; congruence.
Qed.

Lemma format_range_clock (t1 t2 : tm_cell) :
  is_clock t1 = true -> is_clock t2 = true ->
  exists text, WA.format_range (Some t1, t2) = Ok text.
Proof.
  destruct t1, t2; cbn; intros H1 H2; try discriminate; eexists; reflexivity.
Qed.

(** The lines that the loop of [error_analysis] builds over a list of codes
    of the mapping. *)
Lemma timeline_lines (ranges : list (Z * list (option tm_cell * tm_cell)))
    (l : list Z) :
  (forall c, In c l -> In c (map fst ranges)) ->
  match
    rmap (fun code =>
            rbind (of_option KeyError (dict_get code ranges)) (fun rs =>
            rbind (rmap WA.format_range rs) (fun texts =>
            Ok (code,
                match dict_get code error_codes with
                | Some name => name
                | None => "Unknown"%string
                end,
                texts)))) l
  with
  | Ok timeline =>
      map line_code timeline = l /\
      forall en, In en timeline ->
        line_name en = code_name (line_code en) /\
        exists ivs, In (line_code en, ivs) ranges /\
                    rmap WA.format_range ivs = Ok (line_ranges en)
  | Raise e =>
      exists c ivs, In (c, ivs) ranges /\ rmap WA.format_range ivs = Raise e
  end.
Proof.
  induction l as [| c l IH]; intro H; cbn [rmap].
  - split; [reflexivity | intros en []].
  - destruct (dict_get_In c ranges (H c (or_introl eq_refl))) as (ivs & -> & Hin).
    cbn [of_option rbind].
    destruct (rmap WA.format_range ivs) as [texts | e] eqn:Et; cbn [rbind].
    + specialize (IH (fun c' Hc' => H c' (or_intror Hc'))).
      match goal with
      | |- context [rbind ?m _] => destruct m as [timeline | e]
      end; cbn [rbind].
      * destruct IH as [Hcodes Hlines]. split.
        -- cbn [map]. rewrite Hcodes. reflexivity.
        -- intros en [<- | Hen]; [| apply Hlines; exact Hen].
           split; [reflexivity |]. exists ivs. split; [exact Hin | exact Et].
      * exact IH.
    + exists c, ivs. split; [exact Hin | exact Et].
Qed.

Lemma timeline_of_lines (ranges : list (Z * list (option tm_cell * tm_cell))) :
  ~ In 16 (map fst ranges) ->
  match WA.timeline_of ranges with
  | Ok timeline =>
      map line_code timeline = sorted (map fst ranges) /\
      forall en, In en timeline ->
        line_name en = code_name (line_code en) /\
        exists ivs, In (line_code en, ivs) ranges /\
                    rmap WA.format_range ivs = Ok (line_ranges en)
  | Raise e =>
      exists c ivs, In (c, ivs) ranges /\ rmap WA.format_range ivs = Raise e
  end.
Proof.
  intro H16. unfold WA.timeline_of.
  rewrite filter_all.
  - apply timeline_lines. intros c Hc. apply (proj1 (sorted_In _ c)). exact Hc.
  - intros c Hc. apply (proj1 (sorted_In _ c)) in Hc.
    destruct (Z.eqb_spec c 16) as [-> | N]; [contradiction | reflexivity].
Qed.

Lemma rmap_length {A B} (f : A -> result B) (l : list A) :
  forall ys, rmap f l = Ok ys -> length ys = length l.
Proof.
  induction l as [| x l IH]; cbn; intros ys H.
  - injection H as <-. reflexivity.
  - destruct (f x) as [y | e]; cbn in H; [| discriminate].
    destruct (rmap f l) as [ys' | e]; cbn in H; [| discriminate].
    injection H as <-. cbn. rewrite (IH ys' eq_refl). reflexivity.
Qed.

End TimelineText.



(** ** The table of codes of power_power_factor.py *)

Section CodeTable.

Lemma combine_maps {A B C} (k : A -> B) (g : A -> C) (l : list A) :
  List.combine (map k l) (map g l) = map (fun x => (k x, g x)) l.
Proof. induction l as [| x l IH]; cbn; [reflexivity | rewrite IH; reflexivity]. Qed.

Lemma ppf_error_analysis_run (s : Store.store PPF.Frame) (df : PPF.ref)
    (d : PPF.Frame) :
  nth_error s df = Some d ->
  PPF.error_analysis df s
  = (Ok (Pandas.drop_duplicates PPF.code_name_eqb
           (map with_name (map (fun r => CODE_1 (PPF.sample r)) d))),
     Store.update s df (map ppf_named d)).
Proof.
  intro Hd. unfold PPF.error_analysis. run_store. rewrite Hd. run_store.
  rewrite nth_error_update_same by (eapply nth_error_valid; exact Hd).
  run_store.
  rewrite (column_map _ _ PPF.Error_Name _
             (fun r => dict_get (CODE_1 (PPF.sample r)) error_codes))
    by reflexivity.
  cbn [rbind].
  rewrite map_map. cbn [PPF.set_Error_Name PPF.sample].
  rewrite combine_maps, map_map. reflexivity.
Qed.

Lemma code_name_eqb_with_name (a b : Z) :
  PPF.code_name_eqb (with_name a) (with_name b) = (a =? b).
Proof.
  unfold PPF.code_name_eqb, with_name. cbn [fst snd].
  destruct (Z.eqb_spec a b) as [-> | N]; [| reflexivity].
  cbn [andb]. destruct (dict_get b error_codes); [apply String.eqb_refl | reflexivity].
Qed.

Lemma existsb_with_name (x : Z) (seen : list Z) :
  existsb (PPF.code_name_eqb (with_name x)) (map with_name seen)
  = existsb (Z.eqb x) seen.
Proof.
  induction seen as [| y seen IH]; cbn; [reflexivity |].
  rewrite code_name_eqb_with_name, IH. reflexivity.
Qed.

Lemma drop_duplicates_with_name (l : list Z) :
  forall seen,
    Pandas.drop_duplicates_aux PPF.code_name_eqb (map with_name seen) (map with_name l)
    = map with_name (Pandas.drop_duplicates_aux Z.eqb seen l).
Proof.
  induction l as [| x l IH]; intro seen; cbn [map Pandas.drop_duplicates_aux];
    [reflexivity |].
  rewrite existsb_with_name. destruct (existsb (Z.eqb x) seen).
  - apply IH.
  - cbn [map]. f_equal. apply (IH (x :: seen)).
Qed.

Lemma existsb_eqb_In (x : Z) (seen : list Z) :
  existsb (Z.eqb x) seen = true <-> In x seen.
Proof.
  rewrite existsb_exists. split.
  - intros (y & Hy & E). apply Z.eqb_eq in E. subst y. exact Hy.
  - intro H. exists x. split; [exact H | apply Z.eqb_refl].
Qed.

Lemma drop_duplicates_aux_In (l : list Z) :
  forall seen x,
    In x (Pandas.drop_duplicates_aux Z.eqb seen l) <-> In x l /\ ~ In x seen.
Proof.
  induction l as [| y l IH]; intros seen x; cbn [Pandas.drop_duplicates_aux].
  - split; [intros [] | intros [[] _]].
  - destruct (existsb (Z.eqb y) seen) eqn:E.
    + apply existsb_eqb_In in E. rewrite IH. split.
      * intros [H1 H2]. split; [right; exact H1 | exact H2].
      * intros [[-> | H1] H2]; [contradiction | split; assumption].
    + assert (Hy : ~ In y seen).
      { intro H. apply existsb_eqb_In in H. congruence. }
      cbn [In]. rewrite IH. cbn [In]. split.
      * intros [<- | [H1 H2]]; [split; [left; reflexivity | exact Hy] |].
        split; [right; exact H1 |]. intro H. apply H2. right. exact H.
      * intros [[-> | H1] H2]; [left; reflexivity |].
        destruct (Z.eq_dec y x) as [-> | N]; [left; reflexivity |].
        right. split; [exact H1 |]. intros [H | H]; [contradiction | contradiction].
Qed.

Lemma drop_duplicates_aux_NoDup (l : list Z) :
  forall seen, NoDup (Pandas.drop_duplicates_aux Z.eqb seen l).
Proof.
  induction l as [| y l IH]; intro seen; cbn [Pandas.drop_duplicates_aux];
    [constructor |].
  destruct (existsb (Z.eqb y) seen); [apply IH |].
  constructor; [| apply IH].
  intro H. apply drop_duplicates_aux_In in H. destruct H as [_ H].
  apply H. left. reflexivity.
Qed.

End CodeTable.

(** X16. [error_analysis] of power_power_factor.py returns one line per
    code of the frame, the codes in the order of their first occurrence
    and none twice (16 is a line like any other), each with the name the
    catalogue gives it, or no name for a code outside the catalogue. *)
Theorem ppf_error_analysis_table :
  forall (s : Store.store PPF.Frame) (df : PPF.ref) (d : PPF.Frame),
    nth_error s df = Some d ->
    exists table,
      fst (PPF.error_analysis df s) = Ok table /\
      map fst table
      = Pandas.drop_duplicates Z.eqb (map (fun r => CODE_1 (PPF.sample r)) d) /\
      NoDup (map fst table) /\
      (forall c, In c (map fst table) <->
                 In c (map (fun r => CODE_1 (PPF.sample r)) d)) /\
      (forall c name, In (c, name) table -> name = dict_get c error_codes).
Proof.
  intros s df d Hd. rewrite (ppf_error_analysis_run s df d Hd). cbn [fst].
  eexists. split; [reflexivity |].
  unfold Pandas.drop_duplicates.
  rewrite (drop_duplicates_with_name _ []).
  rewrite map_map. cbn [with_name fst]. rewrite map_id.
  split; [reflexivity |]. split; [apply drop_duplicates_aux_NoDup |]. split.
  - intro c. rewrite drop_duplicates_aux_In. split; [intros [H _]; exact H |].
    intro H. split; [exact H | intros []].
  - intros c name Hin. apply in_map_iff in Hin.
    destruct Hin as (c' & E & _). unfold with_name in E. injection E as <- <-.
    reflexivity.
Qed.

(** The statement at the frame with one sample of code 5. *)
Lemma ppf_error_analysis_table_witness :
  exists table,
    fst (PPF.error_analysis 0%nat [breeze_frame]) = Ok table /\
    map fst table = [5].
Proof.
  destruct (ppf_error_analysis_table [breeze_frame] 0%nat breeze_frame eq_refl)
    as (table & H & Hcodes & _).
  exists table. split; [exact H | exact Hcodes].
Defined.

(** X17. [error_analysis] of power_power_factor.py can be repeated: a
    second call on the same frame returns the same table and leaves the
    store as the first call left it. *)
Theorem ppf_error_analysis_twice :
  forall (s : Store.store PPF.Frame) (df : PPF.ref) (d : PPF.Frame),
    nth_error s df = Some d ->
    let first := PPF.error_analysis df s in
    let second := PPF.error_analysis df (snd first) in
    fst second = fst first /\ snd second = snd first.
Proof.
  intros s df d Hd first second. unfold second, first.
  rewrite (ppf_error_analysis_run s df d Hd). cbn [fst snd].
  rewrite (ppf_error_analysis_run _ df (map ppf_named d))
    by (apply nth_error_update_same; eapply nth_error_valid; exact Hd).
  cbn [fst snd]. split.
  - rewrite (map_map ppf_named). reflexivity.
  - rewrite update_update, map_map. reflexivity.
Qed.

(** The statement at the frame with one sample of code 5. *)
Lemma ppf_error_analysis_twice_witness :
  snd (PPF.error_analysis 0%nat (snd (PPF.error_analysis 0%nat [breeze_frame])))
  = snd (PPF.error_analysis 0%nat [breeze_frame]).
Proof.
  exact (proj2 (ppf_error_analysis_twice [breeze_frame] 0%nat breeze_frame eq_refl)).
Defined.

(** ** The steps of the two pipelines *)

Section Steps.

Lemma nth_error_update_diff {F} (s : Store.store F) (r r' : Store.ref) (f : F) :
  r <> r' -> nth_error (Store.update s r f) r' = nth_error s r'.
Proof.
  revert r r'. induction s as [| h t IH]; intros [| r] [| r'] H; cbn;
    try reflexivity; try congruence.
  apply IH. congruence.
Qed.

Lemma nth_error_updated {F} (s : Store.store F) (df r : Store.ref) (f g : F) :
  nth_error s r = Some g ->
  nth_error (Store.update s df f) r = Some (if (r =? df)%nat then f else g).
Proof.
  intro H. destruct (Nat.eqb_spec r df) as [-> | N].
  - apply nth_error_update_same. apply nth_error_Some. congruence.
  - rewrite nth_error_update_diff by congruence. exact H.
Qed.

(** The time groups read the four averaged columns of a row and nothing
    else. *)
Lemma time_groups_columns (g : WA.Row -> WA.Row) (d : WA.Frame) (instants : list Z) :
  (forall r, WA.Power_DC (g r) = WA.Power_DC r) ->
  (forall r, WA.Power_AC (g r) = WA.Power_AC r) ->
  (forall r, WSD (WA.sample (g r)) = WSD (WA.sample r)) ->
  (forall r, WA.Cp (g r) = WA.Cp r) ->
  map wa_time_group
      (Pandas.groupby Z.ltb rounded_minute (List.combine (map g d) instants))
  = map wa_time_group
        (Pandas.groupby Z.ltb rounded_minute (List.combine d instants)).
Proof.
  intros HDC HAC HW HCp.
  rewrite combine_map_l, groupby_map, map_map.
  apply map_ext. intros [k rows]. unfold wa_time_group. cbn [fst snd].
  rewrite !map_map. cbn [fst].
  f_equal; f_equal; apply map_ext; intro p; auto.
Qed.

Lemma wa_instants_rounded today pd (frame : WA.Frame) :
  wa_instants today pd (map wa_rounded frame) = wa_instants today pd frame.
Proof.
  unfold wa_instants. rewrite map_map. cbn [wa_rounded WA.set_WSD_rounded WA.sample].
  rewrite (rmap_map _ wa_rounded). reflexivity.
Qed.

Lemma avg_efficiency_rounded (frame : WA.Frame) :
  WA.avg_efficiency_of (map wa_rounded frame) = WA.avg_efficiency_of frame.
Proof.
  unfold WA.avg_efficiency_of. rewrite filter_map_swap, map_map. reflexivity.
Qed.

Lemma ppf_main_run conv (sheet : list Sample) (s : Store.store PPF.Frame) :
  fst (PPFMain.main conv sheet s)
  = match PPF.read_and_process_data conv sheet with
    | Raise e => Raise e
    | Ok frame =>
        Ok (map ppf_wind_group
                (Pandas.groupby Num.ltb ppf_wind_key (filter ppf_cut_in frame)),
            Pandas.drop_duplicates PPF.code_name_eqb
              (map with_name (map (fun r => CODE_1 (PPF.sample r)) frame)),
            map ppf_factor_group
                (Pandas.groupby Num.ltb ppf_factor_key
                   (filter ppf_below_one (filter ppf_producing frame))))
    end.
Proof.
  unfold PPFMain.main.
  unfold Store.bind at 1. unfold Store.lift at 1.
  destruct (PPF.read_and_process_data conv sheet) as [frame | e]; [| reflexivity].
  unfold Store.bind at 1. unfold Store.alloc at 1.
  unfold Store.bind at 1.
  rewrite (ppf_process_wind_speed_data_run (s ++ [frame]) (length s) frame
             (nth_error_new _ s frame)).
  cbv beta iota. unfold Store.bind at 1.
  rewrite (ppf_error_analysis_run _ (length s) frame)
    by (apply nth_error_old; apply nth_error_new).
  cbv beta iota. unfold Store.bind at 1.
  rewrite (calculate_power_factors_run _ (length s) (map ppf_named frame)).
  - cbv beta iota. unfold Store.ret. cbn [fst]. do 2 f_equal.
    rewrite !filter_map_swap, groupby_map, map_map.
    apply map_ext. intros [k rows]. unfold ppf_factor_group. cbn [fst snd].
    rewrite map_map. reflexivity.
  - apply nth_error_update_same. rewrite !length_app. cbn. lia.
Qed.

End Steps.

(** X18. [main] of power_power_factor.py fails only when reading the sheet
    fails, with the error of the reading.  Otherwise its three tables are
    the ones that [process_wind_speed_data], [error_analysis] and
    [calculate_power_factors] return on the frame as read: the selection
    made by the first and the column added by the second change nothing for
    the steps after them. *)
Theorem ppf_main_tables :
  forall conv (sheet : list Sample) (s : Store.store PPF.Frame),
    (forall e, PPF.read_and_process_data conv sheet = Raise e ->
               fst (PPFMain.main conv sheet s) = Raise e) /\
    (forall frame, PPF.read_and_process_data conv sheet = Ok frame ->
       exists wind codes factors,
         fst (PPF.process_wind_speed_data 0%nat [frame]) = Ok wind /\
         fst (PPF.error_analysis 0%nat [frame]) = Ok codes /\
         fst (PPF.calculate_power_factors 0%nat [frame]) = Ok factors /\
         fst (PPFMain.main conv sheet s) = Ok (wind, codes, factors)).
Proof.
  intros conv sheet s. rewrite ppf_main_run. split.
  - intros e ->. reflexivity.
  - intros frame ->.
    rewrite (ppf_process_wind_speed_data_run [frame] 0%nat frame eq_refl).
    rewrite (ppf_error_analysis_run [frame] 0%nat frame eq_refl).
    rewrite (calculate_power_factors_run [frame] 0%nat frame eq_refl).
    cbn [fst]. do 3 eexists. repeat split.
Qed.

(** The statement at the sheet with one producing sample. *)
Lemma ppf_main_tables_witness :
  exists wind codes factors,
    fst (PPFMain.main strict_HMS breeze_sheet []) = Ok (wind, codes, factors) /\
    fst (PPF.calculate_power_factors 0%nat [breeze_frame]) = Ok factors.
Proof.
  destruct (proj2 (ppf_main_tables strict_HMS breeze_sheet []) breeze_frame eq_refl)
    as (wind & codes & factors & _ & _ & Hf & Hm).
  exists wind, codes, factors. split; [exact Hm | exact Hf].
Defined.

(** X19. [main] of wind_analysis.py fails only when reading the sheet
    fails or when [process_time_data] fails, with that error: the error
    analysis cannot stop it.  Otherwise its three results are the ones that
    [process_wind_speed_data], [process_time_data] and [error_analysis]
    return on the frame as read: the column that the first leaves on the
    frame changes nothing for the two steps after it. *)
Theorem wa_main_steps :
  forall conv today pd (sheet : list Sample) rho dia h (s : Store.store WA.Frame),
    (forall e, WA.read_and_process_data conv sheet rho dia h = Raise e ->
               fst (WA.main conv today pd sheet rho dia h s) = Raise e) /\
    (forall frame, WA.read_and_process_data conv sheet rho dia h = Ok frame ->
       exists wind text,
         fst (WA.process_wind_speed_data 0%nat [frame]) = Ok wind /\
         fst (WA.error_analysis 0%nat [frame]) = Ok text /\
         fst (WA.main conv today pd sheet rho dia h s)
         = result_map (fun minutes => (wind, minutes, text))
                      (fst (WA.process_time_data today pd 0%nat [frame]))).
Proof.
  intros conv today pd sheet rho dia h s. rewrite main_run. split.
  - intros e ->. reflexivity.
  - intros frame ->. cbv zeta.
    rewrite (wa_process_wind_speed_data_run [frame] 0%nat frame eq_refl).
    rewrite (error_analysis_run [frame] 0%nat frame eq_refl).
    rewrite (process_time_data_run today pd [frame] 0%nat frame eq_refl).
    cbn [fst]. do 2 eexists. split; [reflexivity |]. split; [reflexivity |].
    fold wa_rounded.
    rewrite wa_instants_rounded.
    destruct (wa_instants today pd frame) as [instants | e]; [| reflexivity].
    cbn [fst result_map]. f_equal. f_equal; [f_equal |].
    + apply time_groups_columns; reflexivity.
    + unfold timeline_input. rewrite map_map. cbn [wa_rounded WA.set_WSD_rounded WA.sample].
      rewrite avg_efficiency_rounded. reflexivity.
Qed.

(** The statement at the sheet with the samples at 10:00:29 and 10:00:30.4,
    read on day 20000. *)
Lemma wa_main_steps_witness :
  exists wind text,
    fst (WA.error_analysis 0%nat [two_times_frame]) = Ok text /\
    fst (WA.main strict_HMS (fun _ => 20000) (fun _ => None) two_times_sheet
           (Fin (1225 # 1000)) (Fin 10) (Fin 10) [])
    = result_map (fun minutes => (wind, minutes, text))
        (fst (WA.process_time_data (fun _ => 20000) (fun _ => None) 0%nat
                [two_times_frame])).
Proof.
  destruct (proj2 (wa_main_steps strict_HMS (fun _ => 20000) (fun _ => None)
                     two_times_sheet (Fin (1225 # 1000)) (Fin 10) (Fin 10) [])
                  two_times_frame eq_refl)
    as (wind & text & _ & Ht & Hm).
  exists wind, text. split; [exact Ht | exact Hm].
Defined.

(** X20. Every frame alive before a call is alive after it, in its place.
    [process_wind_speed_data] of wind_analysis.py and [error_analysis] of
    power_power_factor.py add one column to the frame they are given and
    leave its rows otherwise as they were; the four other functions change
    no frame at all, neither the one they are given nor another. *)
Theorem frames_after_a_call :
  (forall today pd (s : Store.store WA.Frame) (df r : WA.ref) (d g : WA.Frame),
     nth_error s df = Some d ->
     nth_error s r = Some g ->
     nth_error (snd (WA.process_wind_speed_data df s)) r
     = Some (if (r =? df)%nat then map wa_rounded g else g) /\
     nth_error (snd (WA.process_time_data today pd df s)) r = Some g /\
     nth_error (snd (WA.error_analysis df s)) r = Some g) /\
  (forall (s : Store.store PPF.Frame) (df r : PPF.ref) (d g : PPF.Frame),
     nth_error s df = Some d ->
     nth_error s r = Some g ->
     nth_error (snd (PPF.process_wind_speed_data df s)) r = Some g /\
     nth_error (snd (PPF.error_analysis df s)) r
     = Some (if (r =? df)%nat then map ppf_named g else g) /\
     nth_error (snd (PPF.calculate_power_factors df s)) r = Some g).
Proof.
  split.
  - intros today pd s df r d g Hd Hg. split; [| split].
    + rewrite (wa_process_wind_speed_data_run s df d Hd). cbn [snd].
      rewrite (nth_error_updated s df r _ g Hg).
      destruct (Nat.eqb_spec r df) as [-> | N]; [| reflexivity].
      unfold WA.Frame in *. rewrite Hd in Hg. injection Hg as <-. reflexivity.
    + rewrite (process_time_data_run today pd s df d Hd).
      destruct (wa_instants today pd d); cbn [snd]; apply nth_error_old; exact Hg.
    + rewrite (error_analysis_run s df d Hd). exact Hg.
  - intros s df r d g Hd Hg. split; [| split].
    + rewrite (ppf_process_wind_speed_data_run s df d Hd). cbn [snd].
      apply nth_error_old. exact Hg.
    + rewrite (ppf_error_analysis_run s df d Hd). cbn [snd].
      rewrite (nth_error_updated s df r _ g Hg).
      destruct (Nat.eqb_spec r df) as [-> | N]; [| reflexivity].
      unfold PPF.Frame in *. rewrite Hd in Hg. injection Hg as <-. reflexivity.
    + rewrite (calculate_power_factors_run s df d Hd). cbn [snd].
      apply nth_error_old, nth_error_old. exact Hg.
Qed.

(** The statement at a store of two frames, the call on the second. *)
Lemma frames_after_a_call_witness :
  nth_error (snd (WA.process_wind_speed_data 1%nat [calm_frame; fault_frame])) 0
  = Some calm_frame /\
  nth_error (snd (WA.process_wind_speed_data 1%nat [calm_frame; fault_frame])) 1
  = Some (map wa_rounded fault_frame).
Proof.
  split.
  - exact (proj1 (proj1 frames_after_a_call (fun _ => 0) (fun _ => None)
                    [calm_frame; fault_frame] 1%nat 0%nat fault_frame calm_frame
                    eq_refl eq_refl)).
  - exact (proj1 (proj1 frames_after_a_call (fun _ => 0) (fun _ => None)
                    [calm_frame; fault_frame] 1%nat 1%nat fault_frame fault_frame
                    eq_refl eq_refl)).
Defined.

(** ** Ranges of the averaged columns *)

Section Ranges.

Lemma sum_between (a b : Q) (l : list num) :
  (forall x, In x l -> exists q, x = Fin q /\ (a <= q <= b)%Q) ->
  forall acc, exists t,
    fold_left Num.add l (Fin acc) = Fin t /\
    (acc + inject_Z (Z.of_nat (length l)) * a <= t
     <= acc + inject_Z (Z.of_nat (length l)) * b)%Q.
Proof.
  induction l as [| x l IH]; intros H acc; cbn [fold_left length].
  - exists acc. split; [reflexivity |]. change (inject_Z (Z.of_nat 0)) with 0%Q. lra.
  - destruct (H x (or_introl eq_refl)) as (q & -> & Hq). cbn [Num.add].
    destruct (IH (fun y Hy => H y (or_intror Hy)) (acc + q)%Q) as (t & Ht & Hb).
    exists t. split; [exact Ht |].
    rewrite Nat2Z.inj_succ, <- Z.add_1_r, inject_Z_plus.
    change (inject_Z 1) with 1%Q. lra.
Qed.

(** The mean of finite values within [[a, b]], at least one, is finite and
    within [[a, b]]. *)
Lemma mean_between (a b : Q) (l : list num) :
  l <> [] ->
  (forall x, In x l -> exists q, x = Fin q /\ (a <= q <= b)%Q) ->
  exists m, Pandas.mean l = Fin m /\ (a <= m <= b)%Q.
Proof.
  intros Hne H. unfold Pandas.mean.
  rewrite dropna_finite by (intros x Hx; destruct (H x Hx) as (q & -> & _); eauto).
  destruct l as [| x l]; [contradiction |].
  destruct (H x (or_introl eq_refl)) as (q & -> & Hq).
  unfold Pandas.sum. cbn [fold_left Num.add].
  destruct (sum_between a b l (fun y Hy => H y (or_intror Hy)) (0 + q)%Q)
    as (t & -> & Hb).
  set (n := inject_Z (Z.of_nat (length (Fin q :: l)))).
  assert (Hn : (n == inject_Z (Z.of_nat (length l)) + 1)%Q).
  { unfold n. cbn [length]. rewrite Nat2Z.inj_succ, <- Z.add_1_r, inject_Z_plus.
    reflexivity. }
  assert (Hpos : (0 <= inject_Z (Z.of_nat (length l)))%Q).
  { change 0%Q with (inject_Z 0). rewrite <- Zle_Qle. lia. }
  unfold Num.div, of_Z. fold n.
  assert (E : Qeq_bool n 0 = false) by (apply Qeq_bool_false_iff; lra).
  rewrite E. eexists. split; [reflexivity |]. split.
  - apply Qle_shift_div_l; [lra |]. rewrite Hn. lra.
  - apply Qle_shift_div_r; [lra |]. rewrite Hn. lra.
Qed.

Lemma dropna_dropna (l : list num) : Pandas.dropna (Pandas.dropna l) = Pandas.dropna l.
Proof.
  unfold Pandas.dropna. induction l as [| x l IH]; cbn; [reflexivity |].
  destruct (negb (isnan x)) eqn:E; cbn; [rewrite E, IH; reflexivity | exact IH].
Qed.

(** The mean skips [nan]: of values that are [nan] or within [[a, b]] it
    is [nan] or within [[a, b]]. *)
Lemma mean_skipna_between (a b : Q) (l : list num) :
  (forall x, In x l -> x = NaN \/ exists q, x = Fin q /\ (a <= q <= b)%Q) ->
  Pandas.mean l = NaN \/ exists m, Pandas.mean l = Fin m /\ (a <= m <= b)%Q.
Proof.
  intro H.
  assert (E : Pandas.mean l = Pandas.mean (Pandas.dropna l))
    by (unfold Pandas.mean; rewrite dropna_dropna; reflexivity).
  rewrite E. destruct (Pandas.dropna l) as [| x v] eqn:Ev; [left; reflexivity |].
  right. apply mean_between; [discriminate |].
  intros y Hy. rewrite <- Ev in Hy. unfold Pandas.dropna in Hy.
  apply filter_In in Hy. destruct Hy as [Hy Hn].
  destruct (H y Hy) as [-> | Hq]; [discriminate | exact Hq].
Qed.

Lemma Forall2_In_r {A B} (P : A -> B -> Prop) (l : list A) (l' : list B) :
  Forall2 P l l' -> forall y, In y l' -> exists x, In x l /\ P x y.
Proof.
  induction 1 as [| x y l l' Hxy _ IH]; intros z Hz; [contradiction |].
  destruct Hz as [<- | Hz].
  - exists x. split; [left; reflexivity | exact Hxy].
  - destruct (IH z Hz) as (x' & Hin & Hp). exists x'. split; [right; exact Hin | exact Hp].
Qed.

Lemma read_rows_cp conv (sheet : list Sample) rho dia h (frame : WA.Frame) :
  WA.read_and_process_data conv sheet rho dia h = Ok frame ->
  forall r, In r frame ->
    WA.Cp r = NaN \/ exists c, WA.Cp r = Fin c /\ (0 <= c <= 593 # 1000)%Q.
Proof.
  intros Hread r Hr.
  destruct (Forall2_In_r _ _ _ (wa_read_rows conv sheet rho dia h frame Hread) r Hr)
    as (s & _ & c & -> & _).
  cbn [WA.set_sample WA.derive WA.Cp].
  unfold calculate_power_coefficient. apply clip_betz.
Qed.

(** Values below [b], [-inf] among them: the sum from a finite start is
    [-inf] or finite and bounded. *)
Lemma sum_below_or_ninf (b : Q) (l : list num) :
  (forall x, In x l -> (x <? Fin b)%num = true) ->
  fold_left Num.add l NInf = NInf /\
  forall acc,
    fold_left Num.add l (Fin acc) = NInf \/
    exists t, fold_left Num.add l (Fin acc) = Fin t /\
              (t <= acc + inject_Z (Z.of_nat (length l)) * b)%Q.
Proof.
  induction l as [| x l IH]; intro H; cbn [fold_left length].
  - split; [reflexivity |]. intro acc. right. exists acc.
    split; [reflexivity |]. change (inject_Z (Z.of_nat 0)) with 0%Q. lra.
  - destruct (IH (fun y Hy => H y (or_intror Hy))) as [IHn IHf].
    pose proof (H x (or_introl eq_refl)) as Hx.
    destruct x as [q | | |]; try discriminate.
    + cbn in Hx. apply Qlt_bool_iff in Hx. cbn [Num.add]. split; [exact IHn |].
      intro acc. destruct (IHf (acc + q)%Q) as [E | (t & E & Hb)]; [left; exact E |].
      right. exists t. split; [exact E |].
      rewrite Nat2Z.inj_succ, <- Z.add_1_r, inject_Z_plus.
      change (inject_Z 1) with 1%Q. lra.
    + cbn [Num.add]. split; [exact IHn |]. intro acc. left. exact IHn.
Qed.

Lemma mean_below_or_ninf (b : Q) (l : list num) :
  l <> [] ->
  (forall x, In x l -> (x <? Fin b)%num = true) ->
  (Pandas.mean l <? Fin b)%num = true.
Proof.
  intros Hne H. unfold Pandas.mean.
  assert (Hd : Pandas.dropna l = l).
  { unfold Pandas.dropna. apply filter_all. intros x Hx.
    specialize (H x Hx). destruct x; try discriminate; reflexivity. }
  rewrite Hd. destruct l as [| x l]; [contradiction |].
  unfold Pandas.sum. cbn [fold_left].
  destruct (sum_below_or_ninf b l (fun y Hy => H y (or_intror Hy))) as [Hn Hf].
  set (n := inject_Z (Z.of_nat (length (x :: l)))).
  assert (Hlen : (n == inject_Z (Z.of_nat (length l)) + 1)%Q).
  { unfold n. cbn [length]. rewrite Nat2Z.inj_succ, <- Z.add_1_r, inject_Z_plus.
    reflexivity. }
  assert (Hpos : (0 <= inject_Z (Z.of_nat (length l)))%Q).
  { change 0%Q with (inject_Z 0). rewrite <- Zle_Qle. lia. }
  assert (E0 : Qeq_bool n 0 = false) by (apply Qeq_bool_false_iff; lra).
  assert (E1 : Qlt_bool n 0 = false) by (apply Qlt_bool_false_iff; lra).
  pose proof (H x (or_introl eq_refl)) as Hx.
  unfold of_Z. fold n.
  destruct x as [q | | |]; try discriminate.
  - cbn in Hx. apply Qlt_bool_iff in Hx. cbn [Num.add].
    assert (Hq : (Fin 0 + Fin q)%num = Fin (0 + q)) by reflexivity.
    destruct (Hf (0 + q)%Q) as [E | (t & E & Hb)]; rewrite E.
    + unfold Num.div. rewrite E1. reflexivity.
    + unfold Num.div. rewrite E0. cbn. apply Qlt_bool_iff.
      apply Qlt_shift_div_r; [lra |]. rewrite Hlen. lra.
  - cbn [Num.add]. rewrite Hn. unfold Num.div. rewrite E1. reflexivity.
Qed.

Lemma ratio_range (r : PPF.Row) :
  ppf_producing r = true -> ppf_below_one r = true ->
  exists q, ppf_ratio r = Fin q /\ (0 <= q <= 1)%Q.
Proof.
  unfold ppf_producing, ppf_below_one, ppf_ratio, c_0, c_1.
  rewrite !andb_true_iff. intros [[_ Hdc] Hac].
  destruct (PPF.Power_DC r) as [a | | |], (PPF.Power_AC r) as [b | | |];
    try discriminate; cbn in Hdc, Hac |- *.
  - apply Qlt_bool_iff in Hac. apply Qlt_bool_iff in Hdc.
    assert (E : Qeq_bool b 0 = false) by (apply Qeq_bool_false_iff; lra).
    rewrite E. cbn. intro H. apply Qlt_bool_iff in H.
    eexists. split; [reflexivity |]. split; [| lra].
    apply Qle_shift_div_l; lra.
  - intros _. exists 0%Q. split; [reflexivity | lra].
  - apply Qlt_bool_iff in Hac.
    assert (E : Qlt_bool b 0 = false) by (apply Qlt_bool_false_iff; lra).
    rewrite E. discriminate.
Qed.

Lemma floor_ge_3 (w : num) :
  (w >=? c_3)%num = true ->
  Num.floor w = PInf \/ exists n : Z, Num.floor w = Fin (inject_Z n) /\ 3 <= n.
Proof.
  destruct w as [q | | |]; try discriminate; [| left; reflexivity].
  unfold c_3. rewrite geb_Fin. intro H. right.
  exists (Qfloor q). split; [reflexivity |].
  change 3 with (Qfloor (inject_Z 3)). apply Qfloor_resp_le. exact H.
Qed.

End Ranges.

(** X21. The average efficiency that [error_analysis] of wind_analysis.py
    reports is always below 100, whatever the frame holds ([nan] and
    infinite cells included): it is a mean of efficiencies below 100, or 0
    when no sample is left. *)
Theorem average_efficiency_below_100 :
  forall d : WA.Frame, (WA.avg_efficiency_of d <? c_100)%num = true.
Proof.
  intro d. unfold WA.avg_efficiency_of.
  set (kept := filter (fun r => (WA.Efficiency r <? c_100)%num
                                && (WA.Power_AC r >? c_0)%num) d).
  destruct (Z.ltb_spec 0 (Z.of_nat (length (map WA.Efficiency kept)))) as [Hpos | Hz];
    [| reflexivity].
  apply mean_below_or_ninf.
  - intro E. rewrite E in Hpos. cbn in Hpos. lia.
  - intros x Hx. apply in_map_iff in Hx. destruct Hx as (r & <- & Hr).
    apply filter_In in Hr. destruct Hr as [_ Hr].
    apply andb_true_iff in Hr. exact (proj1 Hr).
Qed.

(** X22. [read_and_process_data] of power_power_factor.py returns a frame
    exactly when the sheet has a row and either its first [TM] cell is not
    a string or the conversion succeeds on the [TM] cell of every row.  On
    an empty sheet it raises [IndexError], otherwise the error of the
    conversion. *)
Theorem ppf_read_succeeds_iff :
  forall conv (sheet : list Sample),
    ((exists df, PPF.read_and_process_data conv sheet = Ok df) <->
     (sheet <> [] /\
      (first_is_str sheet = false \/ forall s, In s sheet -> conv (TM s) <> None))) /\
    (sheet = [] -> PPF.read_and_process_data conv sheet = Raise IndexError) /\
    (forall e, sheet <> [] ->
               PPF.read_and_process_data conv sheet = Raise e ->
               e = ValueError).
Proof.
  intros conv sheet. rewrite ppf_read_cases.
  destruct sheet as [| s0 rest].
  - split; [| split].
    + split; [intros (df & H); discriminate | intros (H & _); contradiction].
    + reflexivity.
    + intros e H. contradiction.
  - cbn [first_is_str]. destruct (is_str (TM s0)) eqn:Hstr.
    + split; [| split].
      * split.
        -- intros (df & H). split; [discriminate |]. right. intros s Hs.
           destruct (rmap _ (map PPF.derive (s0 :: rest))) as [tm |] eqn:E;
             [| discriminate].
           destruct (rmap_Ok_all _ _ _ E (PPF.derive s) (in_map _ _ _ Hs))
             as (y & Hy).
           cbn [PPF.derive PPF.sample] in Hy.
           destruct (conv (TM s)); [discriminate | discriminate].
        -- intros (_ & [H | H]); [discriminate |].
           destruct (rmap_defined
                       (fun r => of_option ValueError (conv (TM (PPF.sample r))))
                       (map PPF.derive (s0 :: rest))) as (tm & ->).
           { intros r Hr. apply in_map_iff in Hr. destruct Hr as (s & <- & Hs).
             cbn [PPF.derive PPF.sample]. specialize (H s Hs).
             destruct (conv (TM s)); [cbn; eauto | contradiction]. }
           cbn [rbind]. eauto.
      * discriminate.
      * intros e _ H.
        destruct (rmap _ (map PPF.derive (s0 :: rest))) as [tm |] eqn:E;
          [discriminate |].
        cbn [rbind] in H. injection H as <-.
        apply (rmap_first_error _ ValueError _) in E; [exact E |].
        intros r e'. destruct (conv (TM (PPF.sample r))); cbn; [discriminate |].
        intros [= <-]. reflexivity.
    + split; [| split].
      * split; [intros _; split; [discriminate | left; reflexivity] | eauto].
      * discriminate.
      * intros e _ H. discriminate.
Qed.

(** The statement at the sheet of strings and at the empty sheet. *)
Lemma ppf_read_succeeds_iff_witness :
  (exists df, PPF.read_and_process_data strict_HMS text_sheet = Ok df) /\
  PPF.read_and_process_data strict_HMS [] = Raise IndexError.
Proof.
  split.
  - apply (proj1 (ppf_read_succeeds_iff strict_HMS text_sheet)).
    split; [discriminate |]. right.
    intros s [<- | [<- | []]]; discriminate.
  - exact (proj1 (proj2 (ppf_read_succeeds_iff strict_HMS [])) eq_refl).
Defined.




